(** * Iris classifier service: a shallow embedding of [iris_classifier]

    The development follows the package layout of the repository:
    [Py] holds the fragment of the Python runtime the code relies on
    (exceptions, sequence indexing, [zip], dict construction, paths),
    [Numpy] the arrays, [Os] the files, the log and the monad of effects,
    [Config] is [config.py], [Utils] is [utils.py], [Model] is [model.py],
    [Train] is [train.py] and [Serve] is [serve.py].

    The machine-learning, serialisation and metrics libraries are external
    to the repository.  They appear as one interface, [Library], whose
    methods are fallible functions; whatever is assumed about them is an
    explicit, named law.

    Part I holds the definitions, Part II the theorems. *)

From Stdlib Require Import ZArith List Bool Lia.
From Stdlib Require Import SpecFloat.
From stdpp Require Import base option list strings gmap.

Local Open Scope string_scope.
Local Open Scope Z_scope.

(** * Part I: the program *)

(** ** Floating-point numbers

    Python's [float] and numpy's [float64] are IEEE-754 binary64 values;
    [spec_float] is the Standard Library's inductive model of them. *)

Abbreviation float := spec_float.

Definition float_zero : float := S754_zero false.
Definition float_one : float := Eval cbv in SFone 53 1024.

(** [x >= 0], [x <= 1] and [x < 0] as Python evaluates them: all three are
    false on NaN. *)
Definition float_ge0 (x : float) : bool := SFleb float_zero x.
Definition float_le1 (x : float) : bool := SFleb x float_one.
Definition float_lt0 (x : float) : bool := SFltb x float_zero.

(** [math.isfinite(x)]: neither NaN nor an infinity. *)
Definition is_finite (x : float) : bool :=
  match x with
  | S754_zero _ | S754_finite _ _ _ => true
  | S754_infinity _ | S754_nan => false
  end.

(** [float(x)] for an [np.longdouble] [x]: the value rounded to binary64,
    to nearest with ties to even. *)
Definition float_of_longdouble (x : float) : float :=
  match x with
  | S754_finite s m e => binary_round 53 1024 s m e
  | _ => x
  end.

(** ** The Python runtime *)

Module Py.

(** Exceptions, by class.  [LibError] stands for whatever an external
    library (scikit-learn, joblib, json) raises from inside one of its
    calls.  Every constructor is a subclass of [Exception]. *)
Inductive exn : Type :=
| ValueError (msg : string)
| IndexError (msg : string)
| ValidationError (msg : string)
| FileNotFoundError (msg : string)
| IsADirectoryError (msg : string)
| NotADirectoryError (msg : string)
| FileExistsError (msg : string)
| TypeError (msg : string)
| KeyError (msg : string)
| AttributeError (msg : string)
| LibError (lib : string) (msg : string).

(** [str(e)] *)
Definition exn_str (e : exn) : string :=
  match e with
  | ValueError m | IndexError m | ValidationError m | FileNotFoundError m
  | IsADirectoryError m | NotADirectoryError m | FileExistsError m
  | TypeError m | KeyError m | AttributeError m | LibError _ m => m
  end.

Inductive result (A : Type) : Type :=
| Ok (a : A)
| Raise (e : exn).
Arguments Ok {A} a.
Arguments Raise {A} e.

Definition bind {A B} (m : result A) (k : A -> result B) : result B :=
  match m with
  | Ok a => k a
  | Raise e => Raise e
  end.

Definition is_ok {A} (m : result A) : bool :=
  match m with Ok _ => true | Raise _ => false end.

(** [[f(x) for x in xs]] where [f] may raise: the first exception aborts
    the comprehension. *)
Fixpoint traverse {A B} (f : A -> result B) (xs : list A) : result (list B) :=
  match xs with
  | [] => Ok []
  | x :: xs' =>
      bind (f x) (fun y => bind (traverse f xs') (fun ys => Ok (y :: ys)))
  end.

(** [seq[i]] on a list or a one-dimensional array: a negative index
    counts from the end, anything out of range raises [IndexError]. *)
Definition getitem {A} (l : list A) (i : Z) : result A :=
  let n := Z.of_nat (length l) in
  let j := if i <? 0 then i + n else i in
  if (0 <=? j) && (j <? n) then
    match l !! Z.to_nat j with
    | Some x => Ok x
    | None => Raise (IndexError "index out of range")
    end
  else Raise (IndexError "index out of range").

(** [zip(xs, ys)]: stops at the shorter sequence. *)
Fixpoint zip {A B} (xs : list A) (ys : list B) : list (A * B) :=
  match xs, ys with
  | x :: xs', y :: ys' => (x, y) :: zip xs' ys'
  | _, _ => []
  end.

(** [{k: v for k, v in pairs}]: a later pair overwrites an earlier one
    with the same key. *)
Definition dict_of {V} (pairs : list (string * V)) : gmap string V :=
  fold_left (fun d kv => <[kv.1 := kv.2]> d) pairs ∅.

(** *** Paths ([pathlib.PurePosixPath])

    A path is the list of its [parts]; the parts of an absolute path start
    with the root ["/"]. *)
Abbreviation path := (list string).

Definition is_absolute (p : path) : bool :=
  match p with
  | r :: _ => String.eqb r "/"
  | [] => false
  end.

(** [p / q] *)
Definition joinpath (p q : path) : path :=
  if is_absolute q then q else (p ++ q)%list.

(** [p.parent]: the root and the empty path are their own parent. *)
Definition parent (p : path) : path :=
  match p with
  | [r] => if String.eqb r "/" then p else []
  | _ => removelast p
  end.

(** [str(p)] *)
Definition path_str (p : path) : string :=
  match p with
  | r :: rest =>
      if String.eqb r "/" then "/" +:+ String.concat "/" rest
      else String.concat "/" p
  | [] => "."
  end.

(** The non-empty prefixes of a path, shortest first: the path's ancestors
    and the path itself. *)
Fixpoint prefixes (p : path) : list path :=
  match p with
  | [] => []
  | c :: rest => [c] :: map (cons c) (prefixes rest)
  end.

End Py.

Import Py.

Notation "'let*' x ':=' m 'in' k" := (Py.bind m (fun x => k))
  (at level 10, x pattern, m at level 100, k at level 200, only parsing).

(** ** numpy arrays *)

Module Numpy.

(** An array is the nest of its axes: [Item x] is a zero-dimensional array
    holding [x], [Axis subs] an array whose first axis ranges over [subs].
    [np.array([])] is [Axis []], of dimension one and shape [(0,)]. *)
#[local] Unset Elimination Schemes.
Inductive ndarray (A : Type) : Type :=
| Item (x : A)
| Axis (subs : list (ndarray A)).
#[local] Set Elimination Schemes.
Arguments Item {A} x.
Arguments Axis {A} subs.

(** [a.ndim] *)
Fixpoint ndim {A} (a : ndarray A) : nat :=
  match a with
  | Item _ => 0
  | Axis [] => 1
  | Axis (sub :: _) => S (ndim sub)
  end.

(** [np.array(rows)] for a Python list of lists of floats. *)
Definition array2 {A} (rows : list (list A)) : ndarray A :=
  Axis (map (fun row => Axis (map Item row)) rows).

(** [len(a)]: the size of the first axis. *)
Definition len {A} (a : ndarray A) : result Z :=
  match a with
  | Axis subs => Ok (Z.of_nat (length subs))
  | Item _ => Raise (TypeError "len() of unsized object")
  end.

(** The element of an array of an integer, boolean or floating dtype other
    than [longdouble]: each has a Python scalar that holds its value. *)
Inductive npscalar : Type :=
| NpInt (z : Z)
| NpFloat (f : float)
| NpBool (b : bool).

End Numpy.

Import Numpy.

(** ** Python values

    The values [convert_numpy_to_python] and [json.dump] range over.  A dict
    keeps its items in insertion order, with string keys.  [NpScalar] is an
    instance of [np.integer], of [np.floating] other than [np.longdouble],
    or of [np.bool_]; [NpArray] an array of such elements; [NpObjArray] an
    array of dtype [object], whose elements are arbitrary Python values.
    [np.longdouble] has no Python scalar that holds its values:
    [NpLongDouble] is an instance of it, [NpLongDoubleArray] an array of
    dtype [longdouble]. *)
#[local] Unset Elimination Schemes.
Inductive pyval : Type :=
| PyNone
| PyBool (b : bool)
| PyInt (z : Z)
| PyFloat (f : float)
| PyStr (s : string)
| NpScalar (x : npscalar)
| NpArray (a : ndarray npscalar)
| NpObjArray (a : ndarray pyval)
| PyTuple (items : list pyval)
| PyList (items : list pyval)
| PyDict (items : list (string * pyval))
| NpLongDouble (f : float)
| NpLongDoubleArray (a : ndarray float).
#[local] Set Elimination Schemes.

(** [x.item()]: the Python scalar nearest to a numpy scalar. *)
Definition item (x : npscalar) : pyval :=
  match x with
  | NpInt z => PyInt z
  | NpFloat f => PyFloat f
  | NpBool b => PyBool b
  end.

(** [a.tolist()]: nested lists along the axes, each element converted by
    [conv]; a zero-dimensional array gives the bare element, not a list.
    For the elements above [conv] is [item]; for dtype [object] the elements
    are returned as they are; and for dtype [longdouble] [item] returns the
    numpy scalar itself, so the elements stay instances of
    [np.longdouble]. *)
Fixpoint tolist {A} (conv : A -> pyval) (a : ndarray A) : pyval :=
  match a with
  | Item x => conv x
  | Axis subs => PyList (map (tolist conv) subs)
  end.

(** [d.get(key, default)] on the items of a dict. *)
Fixpoint dict_get (items : list (string * pyval)) (key : string) (default : pyval)
    : pyval :=
  match items with
  | [] => default
  | (k, v) :: rest => if String.eqb k key then v else dict_get rest key default
  end.

(** [v[key]] *)
Definition subscript (v : pyval) (key : string) : result pyval :=
  match v with
  | PyDict items =>
      match find (fun kv => String.eqb kv.1 key) items with
      | Some kv => Ok kv.2
      | None => Raise (KeyError key)
      end
  | _ => Raise (TypeError "not subscriptable with a string")
  end.

(** [v.items()] *)
Definition dict_items (v : pyval) : result (list (string * pyval)) :=
  match v with
  | PyDict items => Ok items
  | _ => Raise (AttributeError "items")
  end.

(** The value of [v] in an f-string field [{v:.4f}]: the format applies to
    numbers only. *)
Definition format_4f (v : pyval) : result pyval :=
  match v with
  | PyBool _ | PyInt _ | PyFloat _ | NpScalar _ | NpLongDouble _ => Ok v
  | _ => Raise (TypeError "unsupported format string")
  end.

(** ** Files and logging

    What a run of the program can change outside its own variables: the
    files under the paths it writes, and the log.  Permissions and disk
    capacity are not modelled. *)

Module Os.

Inductive node (B : Type) : Type :=
| Dir
| File (data : B).
Arguments Dir {B}.
Arguments File {B} data.

(** One call of [logger.info] or [logger.error]: the text of the f-string
    with its braces left in place, and the values that fill them. *)
Record log_record : Type := mkLog {
  levelname : string;
  message : string;
  values : list pyval
}.

Record world (B : Type) : Type := mkWorld {
  files : gmap path (node B);
  log : list log_record
}.
Arguments mkWorld {B} files log.
Arguments files {B} w.
Arguments log {B} w.

(** A computation that reads and changes a state [S] and may raise.  The
    state it returns is the one at the point of return or of the raise:
    what was written before an exception stays written. *)
Definition io (S A : Type) : Type := S -> result A * S.

Definition ret {S A} (a : A) : io S A := fun s => (Ok a, s).

Definition raise {S A} (e : exn) : io S A := fun s => (Raise e, s).

Definition bind {S A C} (m : io S A) (k : A -> io S C) : io S C :=
  fun s =>
    match m s with
    | (Ok a, s') => k a s'
    | (Raise e, s') => (Raise e, s')
    end.

(** A call that touches no state. *)
Definition lift {S A} (r : result A) : io S A := fun s => (r, s).

(** [try: body  except Exception as e: handler(e)] *)
Definition try_except {S A} (body : io S A) (handler : exn -> io S A) : io S A :=
  fun s =>
    match body s with
    | (Ok a, s') => (Ok a, s')
    | (Raise e, s') => handler e s'
    end.

(** [for x in xs: body(x)] *)
Fixpoint for_each {S A} (xs : list A) (body : A -> io S unit) : io S unit :=
  match xs with
  | [] => ret tt
  | x :: xs' => bind (body x) (fun _ => for_each xs' body)
  end.

Definition logger_call {B} (level msg : string) (vals : list pyval)
    : io (world B) unit :=
  fun w => (Ok tt, mkWorld (files w) (log w ++ [mkLog level msg vals])).

Definition logger_info {B} := @logger_call B "INFO".
Definition logger_error {B} := @logger_call B "ERROR".

(** A computation that adds records of level INFO to the log, and nothing
    else. *)
Definition logs_info_only {B A} (m : io (world B) A) : Prop :=
  forall w,
    exists entries : list log_record,
      log (m w).2 = (log w ++ entries)%list /\
      Forall (fun r => levelname r = "INFO") entries.

(** The node at a path.  The root and the current directory (the empty
    path) always exist. *)
Definition node_at {B} (fs : gmap path (node B)) (p : path) : option (node B) :=
  match p with
  | [] => Some Dir
  | [r] => if String.eqb r "/" then Some Dir else fs !! p
  | _ => fs !! p
  end.

(** A computation that leaves node [n] at path [q] where it found it. *)
Definition keeps_node {B A} (q : path) (n : node B) (m : io (world B) A) : Prop :=
  forall w,
    node_at (files w) q = Some n -> node_at (files (m w).2) q = Some n.

(** [p.exists()] *)
Definition exists_ {B} (p : path) : io (world B) bool :=
  fun w => (Ok (bool_decide (is_Some (node_at (files w) p))), w).

(** One step of [mkdir(parents=True, exist_ok=True)]: a directory that is
    there is kept, a missing one is made, a file in the way is an error
    ([NotADirectoryError] when it stands for an ancestor). *)
Definition mkdir_step {B} (fs : gmap path (node B)) (p : path) (ancestor : bool)
    : result (gmap path (node B)) :=
  match node_at fs p with
  | Some Dir => Ok fs
  | Some (File _) =>
      Raise (if ancestor then NotADirectoryError (path_str p)
             else FileExistsError (path_str p))
  | None => Ok (<[p := Dir]> fs)
  end.

(** The steps along a list of paths; the state returned beside the result
    is the one reached, also on an error. *)
Fixpoint mkdir_steps {B} (fs : gmap path (node B)) (ps : list path)
    : result (gmap path (node B)) * gmap path (node B) :=
  match ps with
  | [] => (Ok fs, fs)
  | p :: ps' =>
      match mkdir_step fs p (negb (bool_decide (ps' = []))) with
      | Ok fs' => mkdir_steps fs' ps'
      | Raise e => (Raise e, fs)
      end
  end.

(** [p.mkdir(parents=True, exist_ok=True)]: the missing ancestors are made
    from the root down, then the directory itself. *)
Definition mkdir_parents {B} (p : path) : io (world B) unit :=
  fun w =>
    match mkdir_steps (files w) (prefixes p) with
    | (Ok _, fs') => (Ok tt, mkWorld fs' (log w))
    | (Raise e, fs') => (Raise e, mkWorld fs' (log w))
    end.

(** [open(p, "w")] followed by the writes of a dump function.  Opening
    needs the parent directory and fails on a directory; once the file is
    open, what the dump wrote is in it, also when the dump then raised. *)
Definition write_file {B} (p : path) (dump : B * option exn)
    : io (world B) unit :=
  fun w =>
    match node_at (files w) (parent p) with
    | None => (Raise (FileNotFoundError (path_str p)), w)
    | Some (File _) => (Raise (NotADirectoryError (path_str p)), w)
    | Some Dir =>
        match node_at (files w) p with
        | Some Dir => (Raise (IsADirectoryError (path_str p)), w)
        | _ =>
            let w' := mkWorld (<[p := File dump.1]> (files w)) (log w) in
            match dump.2 with
            | None => (Ok tt, w')
            | Some e => (Raise e, w')
            end
        end
    end.

(** [open(p, "rb").read()] *)
Definition read_file {B} (p : path) : io (world B) B :=
  fun w =>
    match node_at (files w) p with
    | Some (File data) => (Ok data, w)
    | Some Dir => (Raise (IsADirectoryError (path_str p)), w)
    | None => (Raise (FileNotFoundError (path_str p)), w)
    end.

End Os.

Import Os.

Notation "'let!' x ':=' m 'in' k" := (Os.bind m (fun x => k))
  (at level 10, x pattern, m at level 100, k at level 200, only parsing).
Notation "m ';;' k" := (Os.bind m (fun _ => k))
  (at level 100, k at level 200, right associativity, only parsing).

(** ** config.py *)

Module Config.

(** The fields of [Settings] the program reads. *)
Record Settings : Type := mkSettings {
  project_root : path;
  model_path : path;
  random_state : Z;
  test_size : float;
  n_estimators : Z;
  max_depth : option Z;
  api_version : string
}.

Definition get_model_path (self : Settings) : path :=
  if is_absolute (model_path self) then model_path self
  else joinpath (project_root self) (model_path self).

End Config.

(** ** The classifier object and the external libraries *)

Module Classifier.

(** The attributes of an [IrisClassifier] object ([model.py]); [F] is the
    type of scikit-learn's estimator. *)
Record IrisClassifier (F : Type) : Type := mkIrisClassifier {
  model : F;
  random_state : Z;
  is_trained : bool
}.
Arguments mkIrisClassifier {F} model random_state is_trained.
Arguments model {F} i.
Arguments random_state {F} i.
Arguments is_trained {F} i.

End Classifier.

Import Classifier.

(** scikit-learn, joblib and json, as the repository calls them.  An
    estimator is a value of [forest]: [sk_fit] returns the fitted estimator
    (Python fits in place), and the two inference methods read it without
    changing it.  A dump function gives what it wrote to the open file and
    the exception it raised, if any.  [joblib.load] returns the object that
    was pickled, which need not be a classifier: its result here ranges
    over the declared type of the variable the program assigns it to,
    [IrisClassifier | None], and [None] is a pickled [None]. *)
Class Library : Type := {
  forest : Type;
  blob : Type;
  RandomForestClassifier : Z -> option Z -> Z -> forest;
  sk_fit : forest -> ndarray float -> list Z -> result forest;
  sk_predict : forest -> ndarray float -> result (list Z);
  sk_predict_proba : forest -> ndarray float -> result (list (list float));
  load_iris : result (ndarray float * list Z);
  train_test_split :
    ndarray float -> list Z -> float -> Z ->
    result (ndarray float * ndarray float * list Z * list Z);
  accuracy_score : list Z -> list Z -> result pyval;
  confusion_matrix : list Z -> list Z -> result (ndarray npscalar);
  classification_report : list Z -> list Z -> list string -> result pyval;
  joblib_dump : IrisClassifier forest -> blob * option exn;
  joblib_load : blob -> result (option (IrisClassifier forest));
  json_dump : pyval -> blob * option exn
}.

(** scikit-learn validates the input of [predict] and [predict_proba]:
    an array that is not two-dimensional is rejected with an exception
    ("Expected 2D array, got 1D array instead"). *)
Definition validates_input (L : Library) : Prop :=
  forall (f : forest) (X : ndarray float),
    ndim X <> 2%nat ->
    (exists e, sk_predict f X = Raise e) /\
    (exists e, sk_predict_proba f X = Raise e).

(** joblib reads back the object it dumped. *)
Definition joblib_faithful (L : Library) : Prop :=
  forall (c : IrisClassifier forest) (data : blob),
    joblib_dump c = (data, None) -> joblib_load data = Ok (Some c).

(** ** utils.py *)

Module Utils.

(** [convert_numpy_to_python]: the [isinstance] chain, in its order.  An
    array is answered with [obj.tolist()], an [np.integer] with [int(obj)],
    an [np.floating] with [float(obj)]. *)
Fixpoint convert_numpy_to_python (obj : pyval) : pyval :=
  match obj with
  | NpArray a => tolist item a
  | NpObjArray a => tolist (fun v => v) a
  | NpLongDoubleArray a => tolist NpLongDouble a
  | NpScalar (NpInt z) => PyInt z
  | NpScalar (NpFloat f) => PyFloat f
  | NpLongDouble f => PyFloat (float_of_longdouble f)
  | PyDict items =>
      PyDict (map (fun kv => (kv.1, convert_numpy_to_python kv.2)) items)
  | PyList items => PyList (map convert_numpy_to_python items)
  | _ => obj
  end.

(** No array of dtype [object] at a place the conversion visits: the
    value itself, the elements of a list, the values of a dict. *)
Fixpoint no_object_array (obj : pyval) : bool :=
  match obj with
  | NpObjArray _ => false
  | PyList items => forallb no_object_array items
  | PyDict items => forallb (fun kv => no_object_array kv.2) items
  | _ => true
  end.

(** No array of dtype [longdouble] at a place the conversion visits. *)
Fixpoint no_longdouble_array (obj : pyval) : bool :=
  match obj with
  | NpLongDoubleArray _ => false
  | PyList items => forallb no_longdouble_array items
  | PyDict items => forallb (fun kv => no_longdouble_array kv.2) items
  | _ => true
  end.

(** The scalars of Python itself. *)
Definition python_scalar (obj : pyval) : bool :=
  match obj with
  | PyNone | PyBool _ | PyInt _ | PyFloat _ | PyStr _ => true
  | _ => false
  end.

(** The values [json.dump] writes and [json.load] reads back as they were:
    no numpy value, and no tuple (a tuple is written as a list). *)
Fixpoint json_native (obj : pyval) : bool :=
  match obj with
  | PyNone | PyBool _ | PyInt _ | PyFloat _ | PyStr _ => true
  | PyList items => forallb json_native items
  | PyDict items => forallb (fun kv => json_native kv.2) items
  | _ => false
  end.

(** The values the conversion turns into native ones: native scalars,
    instances of [np.integer] and [np.floating], arrays of an integer,
    boolean or floating dtype other than [longdouble], and lists and dicts
    of such values.  Left out
    are what the [isinstance] chain does not reach or [tolist] does not
    convert: [np.bool_] scalars, tuples, arrays of dtype [object] and of
    dtype [longdouble]. *)
Fixpoint convertible (obj : pyval) : bool :=
  match obj with
  | PyNone | PyBool _ | PyInt _ | PyFloat _ | PyStr _ => true
  | NpScalar (NpInt _) | NpScalar (NpFloat _) | NpLongDouble _ => true
  | NpArray _ => true
  | PyList items => forallb convertible items
  | PyDict items => forallb (fun kv => convertible kv.2) items
  | _ => false
  end.

(** The dict built by [format_prediction_response]. *)
Record PredictionResult : Type := mkPredictionResult {
  prediction : string;
  prediction_index : Z;
  confidence : float;
  probabilities : gmap string float
}.

(** [format_prediction_response].  [int(...)] and [float(...)] change a
    numpy scalar into the Python one with the same value. *)
Definition format_prediction_response
    (prediction : Z) (probabilities : list float) (class_names : list string)
    : result PredictionResult :=
  let* name := getitem class_names prediction in
  let* conf := getitem probabilities prediction in
  Ok {| prediction := name;
        prediction_index := prediction;
        confidence := conf;
        probabilities := dict_of (zip class_names probabilities) |}.

Section WithLibrary.
Context {L : Library}.

Definition ensure_dir (p : path) : io (world blob) path :=
  mkdir_parents p ;; ret p.

Definition save_metrics (metrics : pyval) (filepath : path)
    : io (world blob) unit :=
  let metrics_serializable := convert_numpy_to_python metrics in
  ensure_dir (parent filepath) ;;
  write_file filepath (json_dump metrics_serializable).

End WithLibrary.

(** [load_metrics]; [json_load] is [json.load] on the content of the
    file. *)
Section WithReader.
Context {L : Library} (json_load : blob -> result pyval).

Definition load_metrics (filepath : path) : io (world blob) pyval :=
  let! data := read_file filepath in
  lift (json_load data).

(** json reads back a native value as it was dumped. *)
Definition json_faithful : Prop :=
  forall (v : pyval) (data : blob),
    json_native v = true ->
    json_dump v = (data, None) -> json_load data = Ok v.

End WithReader.

End Utils.

(** ** model.py *)

Module Model.

Definition CLASS_NAMES : list string := ["setosa"; "versicolor"; "virginica"].

Definition FEATURE_NAMES : list string :=
  ["sepal_length"; "sepal_width"; "petal_length"; "petal_width"].

Section WithLibrary.
Context {L : Library}.

(** [IrisClassifier.__init__] *)
Definition init (n_estimators : Z) (max_depth : option Z) (seed : Z)
    : IrisClassifier forest :=
  {| model := RandomForestClassifier n_estimators max_depth seed;
     random_state := seed;
     is_trained := false |}.

Definition load_data (settings : Config.Settings) (self : IrisClassifier forest)
    : result (ndarray float * ndarray float * list Z * list Z) :=
  let* iris := load_iris in
  train_test_split iris.1 iris.2 (Config.test_size settings) (random_state self).

(** [train] fits [self.model] in place and sets the flag; the object after
    the call is the value returned here. *)
Definition train (self : IrisClassifier forest)
    (X_train : ndarray float) (y_train : list Z)
    : result (IrisClassifier forest) :=
  let* fitted := sk_fit (model self) X_train y_train in
  Ok {| model := fitted;
        random_state := random_state self;
        is_trained := true |}.

Definition predict (self : IrisClassifier forest) (X : ndarray float)
    : result (list Z) :=
  if negb (is_trained self) then
    Raise (ValueError "Model must be trained before making predictions")
  else sk_predict (model self) X.

Definition predict_proba (self : IrisClassifier forest) (X : ndarray float)
    : result (list (list float)) :=
  if negb (is_trained self) then
    Raise (ValueError "Model must be trained before making predictions")
  else sk_predict_proba (model self) X.

Definition evaluate (self : IrisClassifier forest)
    (X_test : ndarray float) (y_test : list Z) : result pyval :=
  let* y_pred := predict self X_test in
  let* accuracy := accuracy_score y_test y_pred in
  let* conf_matrix := confusion_matrix y_test y_pred in
  let* class_report := classification_report y_test y_pred CLASS_NAMES in
  Ok (PyDict [("accuracy", accuracy);
              ("confusion_matrix", tolist item conf_matrix);
              ("classification_report", class_report)]).

Definition save (self : IrisClassifier forest) (filepath : path)
    : io (world blob) unit :=
  if negb (is_trained self) then
    raise (ValueError "Cannot save an untrained model")
  else write_file filepath (joblib_dump self).

(** [IrisClassifier.load] returns what [joblib.load] returns; nothing
    checks that it is an [IrisClassifier]. *)
Definition load (filepath : path)
    : io (world blob) (option (IrisClassifier forest)) :=
  let! data := read_file filepath in
  lift (joblib_load data).

End WithLibrary.

(** The "untrained model" errors: a [ValueError] with one of the two
    messages of the guards on the trained flag. *)
Definition is_untrained_error (e : exn) : bool :=
  match e with
  | ValueError msg =>
      String.eqb msg "Model must be trained before making predictions"
      || String.eqb msg "Cannot save an untrained model"
  | _ => false
  end.

Definition raises_untrained {A} (r : result A) : Prop :=
  exists e, r = Raise e /\ is_untrained_error e = true.

(** The libraries have errors of their own: nothing raised inside
    scikit-learn's inference or joblib's dump carries one of the two
    messages above. *)
Definition library_errors_foreign (L : Library) : Prop :=
  (forall f X e, sk_predict f X = Raise e -> is_untrained_error e = false) /\
  (forall f X e, sk_predict_proba f X = Raise e -> is_untrained_error e = false) /\
  (forall c e, (joblib_dump c).2 = Some e -> is_untrained_error e = false).

End Model.

(** ** train.py *)

Module Train.

Section WithLibrary.
Context {L : Library} (settings : Config.Settings).

(** The body of the loop over [metrics["classification_report"].items()]. *)
Definition log_class_metrics (entry : string * pyval) : io (world blob) unit :=
  match entry.2 with
  | PyDict class_metrics =>
      logger_info "  {}:" [PyStr entry.1] ;;
      let! precision :=
        lift (format_4f (dict_get class_metrics "precision" (PyInt 0))) in
      logger_info "    Precision: {:.4f}" [precision] ;;
      let! recall :=
        lift (format_4f (dict_get class_metrics "recall" (PyInt 0))) in
      logger_info "    Recall: {:.4f}" [recall] ;;
      let! f1 :=
        lift (format_4f (dict_get class_metrics "f1-score" (PyInt 0))) in
      logger_info "    F1-score: {:.4f}" [f1]
  | _ => ret tt
  end.

(** The three steps of [train_model] that compute: loading and splitting
    the data, fitting, evaluating.  [train_model] runs them in this order,
    on these arguments. *)
Definition fit_and_evaluate : result (IrisClassifier forest * pyval) :=
  let classifier :=
    Model.init (Config.n_estimators settings) (Config.max_depth settings)
      (Config.random_state settings) in
  let* data := Model.load_data settings classifier in
  let '(X_train, X_test, y_train, y_test) := data in
  let* classifier := Model.train classifier X_train y_train in
  let* metrics := Model.evaluate classifier X_test y_test in
  Ok (classifier, metrics).

(** Where the two artifacts go. *)
Definition metrics_path : path :=
  joinpath (parent (Config.get_model_path settings)) ["metrics.json"].

Definition train_model : io (world blob) unit :=
  logger_info "Starting training process..." [] ;;
  logger_info "Configuration: random_state={}, test_size={}, n_estimators={}"
    [PyInt (Config.random_state settings);
     PyFloat (Config.test_size settings);
     PyInt (Config.n_estimators settings)] ;;
  let classifier :=
    Model.init (Config.n_estimators settings) (Config.max_depth settings)
      (Config.random_state settings) in
  logger_info "Loading Iris dataset..." [] ;;
  let! data := lift (Model.load_data settings classifier) in
  let '(X_train, X_test, y_train, y_test) := data in
  let! n_train := lift (len X_train) in
  let! n_test := lift (len X_test) in
  logger_info "Training samples: {}, Test samples: {}"
    [PyInt n_train; PyInt n_test] ;;
  logger_info "Training model..." [] ;;
  let! classifier := lift (Model.train classifier X_train y_train) in
  logger_info "Training completed!" [] ;;
  logger_info "Evaluating model on test set..." [] ;;
  let! metrics := lift (Model.evaluate classifier X_test y_test) in
  let! accuracy := lift (let* a := subscript metrics "accuracy" in format_4f a) in
  logger_info "Test Accuracy: {:.4f}" [accuracy] ;;
  logger_info "
Classification Report:" [] ;;
  let! report :=
    lift (let* r := subscript metrics "classification_report" in dict_items r) in
  for_each report log_class_metrics ;;
  let model_path := Config.get_model_path settings in
  Utils.ensure_dir (parent model_path) ;;
  logger_info "Saving model to {}..." [PyStr (path_str model_path)] ;;
  Model.save classifier model_path ;;
  let metrics_path := joinpath (parent model_path) ["metrics.json"] in
  logger_info "Saving metrics to {}..." [PyStr (path_str metrics_path)] ;;
  Utils.save_metrics metrics metrics_path ;;
  logger_info "✓ Training pipeline completed successfully!" [].

(** [main]: the exit status of the process and the world it leaves.
    [sys.exit(0)] raises [SystemExit], which [except Exception] does not
    catch. *)
Definition main (w : world blob) : Z * world blob :=
  match train_model w with
  | (Ok _, w') => (0, w')
  | (Raise e, w') =>
      (1, (logger_error "Training failed: {}" [PyStr (exn_str e)] w').2)
  end.

End WithLibrary.

End Train.

(** ** serve.py *)

Module Serve.

(** The pydantic model [IrisFeatures]. *)
Record IrisFeatures : Type := mkIrisFeatures {
  sepal_length : float;
  sepal_width : float;
  petal_length : float;
  petal_width : float
}.

(** A request body as it reaches the construction of an [IrisFeatures]:
    each field is the float it decodes to, or is missing.  The JSON decoder
    of the framework accepts [NaN], [Infinity] and [-Infinity]. *)
Record RawFeatures : Type := mkRawFeatures {
  raw_sepal_length : option float;
  raw_sepal_width : option float;
  raw_petal_length : option float;
  raw_petal_width : option float
}.

(** [Field(..., ge=0)]: required, and at least zero. *)
Definition required_ge0 (name : string) (v : option float) : result float :=
  match v with
  | None => Raise (ValidationError (name +:+ ": Field required"))
  | Some x =>
      if float_ge0 x then Ok x
      else Raise (ValidationError
                    (name +:+ ": Input should be greater than or equal to 0"))
  end.

Definition parse_IrisFeatures (body : RawFeatures) : result IrisFeatures :=
  let* sl := required_ge0 "sepal_length" (raw_sepal_length body) in
  let* sw := required_ge0 "sepal_width" (raw_sepal_width body) in
  let* pl := required_ge0 "petal_length" (raw_petal_length body) in
  let* pw := required_ge0 "petal_width" (raw_petal_width body) in
  Ok (mkIrisFeatures sl sw pl pw).

(** Building a [PredictionResponse] from the formatted dict: [confidence]
    is declared with [ge=0] and [le=1]. *)
Definition PredictionResponse (r : Utils.PredictionResult)
    : result Utils.PredictionResult :=
  if float_ge0 (Utils.confidence r) && float_le1 (Utils.confidence r) then Ok r
  else Raise (ValidationError "confidence")%string.

(** The numbers a body holds. *)
Definition body_values (body : RawFeatures) : list float :=
  omap id [raw_sepal_length body; raw_sepal_width body;
           raw_petal_length body; raw_petal_width body].

Definition all_finite (body : RawFeatures) : bool :=
  forallb is_finite (body_values body).

(** The [input] of the validation error of one field: a missing field is
    reported with the whole body as its input, a field that fails [ge=0]
    with its own value; a field that passes has no error. *)
Definition field_error_input (body : RawFeatures) (v : option float)
    : list float :=
  match v with
  | None => body_values body
  | Some x => if float_ge0 x then [] else [x]
  end.

(** The numbers the validation errors of a body carry: validation does not
    stop at the first field that fails. *)
Definition error_inputs (body : RawFeatures) : list float :=
  flat_map (field_error_input body)
    [raw_sepal_length body; raw_sepal_width body;
     raw_petal_length body; raw_petal_width body].

(** A body with a field missing or negative. *)
Definition missing_or_negative (v : option float) : bool :=
  match v with
  | None => true
  | Some x => float_lt0 x
  end.

Definition malformed (body : RawFeatures) : bool :=
  missing_or_negative (raw_sepal_length body)
  || missing_or_negative (raw_sepal_width body)
  || missing_or_negative (raw_petal_length body)
  || missing_or_negative (raw_petal_width body).

Record HealthResponse : Type := mkHealthResponse {
  status : string;
  model_loaded : bool;
  model_path : string
}.

(** What a request is answered with: the body of a 200 response, or an
    [HTTPException]. *)
Inductive response (A : Type) : Type :=
| Success (body : A)
| HTTPException (status_code : Z) (detail : string).
Arguments Success {A} body.
Arguments HTTPException {A} status_code detail.

Definition status_of {A} (r : response A) : Z :=
  match r with
  | Success _ => 200
  | HTTPException code _ => code
  end.

Inductive request : Type :=
| GetRoot
| GetHealth
| PostPredict (body : RawFeatures)
| PostPredictBatch (body : list RawFeatures).

Section WithLibrary.
Context {L : Library} (settings : Config.Settings).

(** The state of the serving process: the module-level global [model],
    the number of assignments to it executed so far (a ghost counter), and
    the files and the log. *)
Record process : Type := mkProcess {
  model : option (IrisClassifier forest);
  model_writes : nat;
  env : world blob
}.

(** The process when the module has been imported: [model = None]. *)
Definition initial (w : world blob) : process := mkProcess None 0 w.

Definition in_env {A} (m : io (world blob) A) : io process A :=
  fun p =>
    let '(r, w) := m (env p) in
    (r, mkProcess (model p) (model_writes p) w).

(** [x is not None] *)
Definition is_not_None {A} (x : option A) : bool :=
  match x with
  | Some _ => true
  | None => false
  end.

(** Reading the global. *)
Definition global_model : io process (option (IrisClassifier forest)) :=
  fun p => (Ok (model p), p).

(** [model = value], under [global model]; the value may be [None]. *)
Definition assign_model (value : option (IrisClassifier forest))
    : io process unit :=
  fun p => (Ok tt, mkProcess value (S (model_writes p)) (env p)).

Definition load_model : io process unit :=
  let model_path := Config.get_model_path settings in
  in_env (logger_info "Loading model from {}..." [PyStr (path_str model_path)]) ;;
  let! found := in_env (exists_ model_path) in
  if negb found then
    in_env (logger_error "Model file not found at {}"
              [PyStr (path_str model_path)]) ;;
    in_env (logger_error "Please train the model first using: poetry run train" [])
  else
    try_except
      (let! loaded := in_env (Model.load model_path) in
       assign_model loaded ;;
       in_env (logger_info "✓ Model loaded successfully!" []))
      (fun e =>
         in_env (logger_error "Failed to load model: {}" [PyStr (exn_str e)])).

Definition root : io process (list (string * string)) :=
  ret [("message", "Iris Classifier API");
       ("version", Config.api_version settings);
       ("docs", "/docs");
       ("health", "/health")].

Definition health : io process HealthResponse :=
  let! m := global_model in
  ret {| status := if is_not_None m then "healthy" else "unhealthy";
         model_loaded := is_not_None m;
         model_path := path_str (Config.get_model_path settings) |}.

Definition feature_row (f : IrisFeatures) : list float :=
  [sepal_length f; sepal_width f; petal_length f; petal_width f].

Definition predict (features : IrisFeatures)
    : io process (response Utils.PredictionResult) :=
  let! m := global_model in
  match m with
  | None =>
      ret (HTTPException 503 "Model not loaded. Please check server logs.")
  | Some model =>
      let X := array2 [feature_row features] in
      try_except
        (let! prediction :=
           lift (let* ps := Model.predict model X in getitem ps 0) in
         let! probabilities :=
           lift (let* ps := Model.predict_proba model X in getitem ps 0) in
         let! result :=
           lift (Utils.format_prediction_response
                   prediction probabilities Model.CLASS_NAMES) in
         in_env (logger_info "Prediction: {} (confidence: {:.4f})"
                   [PyStr (Utils.prediction result);
                    PyFloat (Utils.confidence result)]) ;;
         let! resp := lift (PredictionResponse result) in
         ret (Success resp))
        (fun e =>
           in_env (logger_error "Prediction failed: {}" [PyStr (exn_str e)]) ;;
           ret (HTTPException 500 ("Prediction failed: " +:+ exn_str e)))
  end.

Definition predict_batch (features_list : list IrisFeatures)
    : io process (response (list Utils.PredictionResult)) :=
  let! m := global_model in
  match m with
  | None =>
      ret (HTTPException 503 "Model not loaded. Please check server logs.")
  | Some model =>
      let X := array2 (map feature_row features_list) in
      try_except
        (let! predictions := lift (Model.predict model X) in
         let! probabilities := lift (Model.predict_proba model X) in
         let! results :=
           lift (traverse
                   (fun pp =>
                      let* r := Utils.format_prediction_response
                                  pp.1 pp.2 Model.CLASS_NAMES in
                      PredictionResponse r)
                   (zip predictions probabilities)) in
         in_env (logger_info "Batch prediction completed for {} samples"
                   [PyInt (Z.of_nat (length results))]) ;;
         ret (Success results))
        (fun e =>
           in_env (logger_error "Batch prediction failed: {}"
                     [PyStr (exn_str e)]) ;;
           ret (HTTPException 500 ("Batch prediction failed: " +:+ exn_str e)))
  end.

(** A computation that leaves the global [model] as it found it, and
    assigns nothing to it. *)
Definition keeps_model {A} (m : io process A) : Prop :=
  forall p, model (m p).2 = model p /\ model_writes (m p).2 = model_writes p.

(** A computation that leaves the files as they are and only adds to the
    log. *)
Definition reads_disk_only {A} (m : io process A) : Prop :=
  forall p,
    files (env (m p).2) = files (env p) /\
    exists entries : list log_record,
      log (env (m p).2) = (log (env p) ++ entries)%list.

(** *** The framework around the handlers

    FastAPI builds the handler's argument from the request body before it
    calls the handler, and answers 422 when that fails; an exception that
    leaves a handler is answered with a bare 500. *)

(** The answer to a body that failed validation.  The 422 response lists
    the errors with their inputs and is rendered with
    [json.dumps(..., allow_nan=False)], which raises on NaN and on an
    infinity; the exception leaves the framework's own handler, and the
    server answers with a bare 500. *)
Definition validation_response {A} (e : exn) (inputs : list float) : response A :=
  if forallb is_finite inputs then HTTPException 422 (exn_str e)
  else HTTPException 500 "Internal Server Error".

Definition run_handler {A} (h : io process (response A)) (p : process)
    : response A * process :=
  match h p with
  | (Ok r, p') => (r, p')
  | (Raise _, p') => (HTTPException 500 "Internal Server Error", p')
  end.

Definition post_predict (body : RawFeatures) (p : process)
    : response Utils.PredictionResult * process :=
  match parse_IrisFeatures body with
  | Raise e => (validation_response e (error_inputs body), p)
  | Ok features => run_handler (predict features) p
  end.

Definition post_predict_batch (body : list RawFeatures) (p : process)
    : response (list Utils.PredictionResult) * process :=
  match traverse parse_IrisFeatures body with
  | Raise e => (validation_response e (flat_map error_inputs body), p)
  | Ok features_list => run_handler (predict_batch features_list) p
  end.

Definition get_health (p : process) : response HealthResponse * process :=
  run_handler (let! h := health in ret (Success h)) p.

Definition get_root (p : process)
    : response (list (string * string)) * process :=
  run_handler (let! r := root in ret (Success r)) p.

(** The process after startup, and after one request. *)
Definition startup (w : world blob) : process := (load_model (initial w)).2.

Definition step (req : request) (p : process) : process :=
  match req with
  | GetRoot => (get_root p).2
  | GetHealth => (get_health p).2
  | PostPredict body => (post_predict body p).2
  | PostPredictBatch body => (post_predict_batch body p).2
  end.

(** The status a request is answered with. *)
Definition answer (req : request) (p : process) : Z :=
  match req with
  | GetRoot => status_of (get_root p).1
  | GetHealth => status_of (get_health p).1
  | PostPredict body => status_of (post_predict body p).1
  | PostPredictBatch body => status_of (post_predict_batch body p).1
  end.

(** The states the process can be in after startup state [p0]. *)
Inductive reachable (p0 : process) : process -> Prop :=
| reach_startup : reachable p0 p0
| reach_request (req : request) (p : process) :
    reachable p0 p -> reachable p0 (step req p).

End WithLibrary.

End Serve.

(** ** A stand-in for the external libraries

    A small instance of [Library] on which the program can be run: the
    estimator predicts the first label it was fitted on, with full
    confidence, and rejects an input that is not two-dimensional; a file
    holds the object dumped into it. *)

Module Stub.

Inductive stub_blob : Type :=
| Pickle (c : option (IrisClassifier (option Z)))
| JsonText (v : pyval).

Definition one_hot (k : Z) : list float :=
  map (fun j => if j =? k then float_one else float_zero) [0; 1; 2].

Definition stub_rows {A B} (X : ndarray A) (per_row : B) : result (list B) :=
  if Nat.eqb (ndim X) 2 then
    match X with
    | Axis rows => Ok (map (fun _ => per_row) rows)
    | Item _ => Raise (LibError "sklearn" "Expected 2D array")
    end
  else Raise (LibError "sklearn" "Expected 2D array").

Definition stub_fit (f : option Z) (X : ndarray float) (y : list Z)
    : result (option Z) :=
  match y with
  | k :: _ => Ok (Some k)
  | [] => Raise (LibError "sklearn" "Found array with 0 sample(s)")
  end.

Definition stub_predict (f : option Z) (X : ndarray float) : result (list Z) :=
  match f with
  | Some k => stub_rows X k
  | None => Raise (LibError "sklearn" "This instance is not fitted yet")
  end.

Definition stub_predict_proba (f : option Z) (X : ndarray float)
    : result (list (list float)) :=
  match f with
  | Some k => stub_rows X (one_hot k)
  | None => Raise (LibError "sklearn" "This instance is not fitted yet")
  end.

Definition stub_data : ndarray float :=
  array2 [[float_one; float_zero; float_zero; float_zero];
          [float_zero; float_one; float_zero; float_zero];
          [float_zero; float_zero; float_one; float_zero]].

Definition stub_load (data : stub_blob)
    : result (option (IrisClassifier (option Z))) :=
  match data with
  | Pickle c => Ok c
  | JsonText _ => Raise (LibError "pickle" "invalid load key")
  end.

#[export] Instance stub : Library := {|
  forest := option Z;
  blob := stub_blob;
  RandomForestClassifier := fun _ _ _ => None;
  sk_fit := stub_fit;
  sk_predict := stub_predict;
  sk_predict_proba := stub_predict_proba;
  load_iris := Ok (stub_data, [0; 1; 2]);
  train_test_split := fun X y _ _ => Ok (X, X, y, y);
  accuracy_score := fun _ _ => Ok (PyFloat float_one);
  confusion_matrix := fun _ _ => Ok (Axis [Axis [Item (NpInt 3)]]);
  classification_report := fun _ _ _ =>
    Ok (PyDict [("setosa", PyDict [("precision", PyFloat float_one)]);
                ("accuracy", PyFloat float_one)]);
  joblib_dump := fun c => (Pickle (Some c), None);
  joblib_load := stub_load;
  json_dump := fun v => (JsonText v, None)
|}.

Definition stub_settings : Config.Settings := {|
  Config.project_root := ["/"; "app"];
  Config.model_path := ["models"; "iris_model.joblib"];
  Config.random_state := 42;
  Config.test_size := float_zero;
  Config.n_estimators := 100;
  Config.max_depth := None;
  Config.api_version := "0.1.0"
|}.

(** A classifier fitted on class 0, and an unfitted one. *)
Definition fitted : IrisClassifier (@forest stub) :=
  mkIrisClassifier (Some 0) 42 true.
Definition unfitted : IrisClassifier (@forest stub) :=
  mkIrisClassifier None 42 false.

(** An empty disk; a disk where the application directory exists; and one
    where a directory stands at the place of the metrics file. *)
Definition empty_world : world (@blob stub) := mkWorld ∅ [].

Definition app_world : world (@blob stub) :=
  mkWorld (<[ ["/"; "app"] := Dir ]> ∅) [].


(** The sample of the test-suite, with whole numbers in place of
    [5.1, 3.5, 1.4, 0.2]; a body without [petal_width]; and a body with a
    negative [sepal_length]. *)
Definition float_minus_one : float := Eval cbv in SFopp float_one.

Definition sample : Serve.RawFeatures :=
  Serve.mkRawFeatures (Some float_one) (Some float_one) (Some float_zero)
    (Some float_zero).

Definition sample_missing : Serve.RawFeatures :=
  Serve.mkRawFeatures (Some float_one) (Some float_one) (Some float_zero) None.

Definition sample_negative : Serve.RawFeatures :=
  Serve.mkRawFeatures (Some float_minus_one) (Some float_one) (Some float_zero)
    (Some float_zero).

(** The metrics dict of the test-suite, with numpy values in it. *)
Definition metrics_example : pyval :=
  PyDict [("accuracy", NpScalar (NpFloat float_one));
          ("confusion_matrix",
           NpArray (Axis [Axis [Item (NpInt 10); Item (NpInt 0)];
                          Axis [Item (NpInt 1); Item (NpInt 9)]]));
          ("nested", PyDict [("support", NpScalar (NpInt 5))])].

(** An array of dtype [object] that holds a dict with a numeric array in
    it, and a zero-dimensional array. *)
Definition object_array_example : pyval :=
  NpObjArray (Axis [Item (PyDict [("k", NpArray (Axis [Item (NpInt 1)]))])]).

Definition scalar_array_example : pyval := NpArray (Item (NpInt 5)).

(** Reading back a file of the stand-in. *)
Definition stub_json_load (data : @blob stub) : result pyval :=
  match data with
  | JsonText v => Ok v
  | Pickle _ => Raise (LibError "json" "Expecting value")
  end.

(** Settings under which the model file is itself named [metrics.json]. *)
Definition clashing_settings : Config.Settings := {|
  Config.project_root := ["/"; "app"];
  Config.model_path := ["models"; "metrics.json"];
  Config.random_state := 42;
  Config.test_size := float_zero;
  Config.n_estimators := 100;
  Config.max_depth := None;
  Config.api_version := "0.1.0"
|}.

(** A disk on which a file stands where the application directory should
    be. *)
Definition file_world : world (@blob stub) :=
  mkWorld (<[ ["/"; "app"] := File (JsonText PyNone) ]> ∅) [].

(** NaN and the infinities, and bodies that hold them: one with NaN as its
    only defect, one with minus infinity, and one with a positive infinity
    beside a missing field. *)
Definition float_nan : float := S754_nan.
Definition float_neg_inf : float := S754_infinity true.
Definition float_pos_inf : float := S754_infinity false.

Definition sample_nan : Serve.RawFeatures :=
  Serve.mkRawFeatures (Some float_nan) (Some float_one) (Some float_zero)
    (Some float_zero).

Definition sample_neg_inf : Serve.RawFeatures :=
  Serve.mkRawFeatures (Some float_neg_inf) (Some float_one) (Some float_zero)
    (Some float_zero).

Definition sample_inf_missing : Serve.RawFeatures :=
  Serve.mkRawFeatures (Some float_pos_inf) (Some float_one) (Some float_zero)
    None.

(** An array of dtype [longdouble], and a scalar of [np.bool_]. *)
Definition longdouble_array_example : pyval :=
  NpLongDoubleArray (Axis [Item float_one]).

Definition bool_scalar_example : pyval := NpScalar (NpBool true).

(** A disk on which the model file holds a pickled [None]. *)
Definition none_world : world (@blob stub) :=
  mkWorld (<[ ["/"; "app"; "models"; "iris_model.joblib"] := File (Pickle None) ]>
            (<[ ["/"; "app"; "models"] := Dir ]>
              (<[ ["/"; "app"] := Dir ]> ∅))) [].

(** A process with the fitted classifier loaded, and one with none. *)
Definition serving : @Serve.process stub :=
  Serve.mkProcess (Some fitted) 1 empty_world.

Definition degraded : @Serve.process stub := Serve.mkProcess None 0 empty_world.

(** The features the sample body decodes to, and the result the fitted
    stand-in gives for them. *)
Definition sample_features : Serve.IrisFeatures :=
  Serve.mkIrisFeatures float_one float_one float_zero float_zero.

Definition setosa_result : Utils.PredictionResult :=
  Utils.mkPredictionResult "setosa" 0 float_one
    (dict_of (zip Model.CLASS_NAMES (one_hot 0))).

(** A process whose classifier was fitted on a label that is no index into
    the class names. *)
Definition mislabelled : @Serve.process stub :=
  Serve.mkProcess (Some (mkIrisClassifier (Some 5) 42 true)) 1 empty_world.

End Stub.

(** * Part II: properties *)

(** ** The runtime *)

Module PyFacts.

Lemma negative_not_ge0 (x : float) : float_lt0 x = true -> float_ge0 x = false.
Proof.
  unfold float_lt0, float_ge0, SFltb, SFleb, float_zero.
  destruct x as [s | s | | s m e]; simpl; try destruct s; simpl; congruence.
Qed.

Lemma getitem_in_range {A} (l : list A) (i : Z) :
  0 <= i < Z.of_nat (length l) ->
  exists x, getitem l i = Ok x /\ l !! Z.to_nat i = Some x.
Proof.
  intros Hi. unfold getitem.
  destruct (Z.ltb_spec i 0) as [Hneg | _]; [lia |].
  destruct (Z.leb_spec 0 i) as [_ | Hneg]; [| lia].
  destruct (Z.ltb_spec i (Z.of_nat (length l))) as [_ | Hbig]; [| lia].
  simpl.
  destruct (l !! Z.to_nat i) as [x |] eqn:Hx.
  - exists x. split; reflexivity.
  - apply lookup_ge_None in Hx. lia.
Qed.

Lemma traverse_length {A B} (f : A -> result B) (xs : list A) (ys : list B) :
  traverse f xs = Ok ys -> length ys = length xs.
Proof.
  revert ys. induction xs as [| x xs IH]; intros ys; simpl.
  - intros [= <-]. reflexivity.
  - destruct (f x) as [y | e]; simpl; [| discriminate].
    destruct (traverse f xs) as [ys' | e]; simpl; [| discriminate].
    intros [= <-]. simpl. f_equal. apply IH. reflexivity.
Qed.

Lemma traverse_lookup {A B} (f : A -> result B) (xs : list A) (ys : list B)
    (i : nat) (x : A) :
  traverse f xs = Ok ys -> xs !! i = Some x ->
  exists y, ys !! i = Some y /\ f x = Ok y.
Proof.
  revert ys i. induction xs as [| x0 xs IH]; intros ys i; simpl.
  - intros _ Hx. rewrite lookup_nil in Hx. discriminate.
  - destruct (f x0) as [y0 | e] eqn:Hy0; simpl; [| discriminate].
    destruct (traverse f xs) as [ys' | e]; simpl; [| discriminate].
    intros [= <-]. destruct i as [| i]; simpl.
    + intros [= <-]. exists y0. split; [reflexivity | exact Hy0].
    + intros Hx. apply (IH ys' i eq_refl Hx).
Qed.

Lemma traverse_raise {A B} (f : A -> result B) (xs : list A) (x : A) :
  x ∈ xs -> is_ok (f x) = false -> is_ok (traverse f xs) = false.
Proof.
  intros Hin Hx. induction xs as [| x0 xs IH]; [inversion Hin |].
  simpl. apply elem_of_cons in Hin as [-> | Hin].
  - destruct (f x0); [discriminate | reflexivity].
  - destruct (f x0); [| reflexivity]. simpl.
    specialize (IH Hin). destruct (traverse f xs); [discriminate | reflexivity].
Qed.

Lemma zip_length {A B} (xs : list A) (ys : list B) :
  length (zip xs ys) = Nat.min (length xs) (length ys).
Proof.
  revert ys. induction xs as [| x xs IH]; intros [| y ys]; simpl; auto.
Qed.

Lemma zip_lookup {A B} (xs : list A) (ys : list B) (i : nat) (x : A) (y : B) :
  xs !! i = Some x -> ys !! i = Some y -> zip xs ys !! i = Some (x, y).
Proof.
  revert ys i. induction xs as [| x0 xs IH]; intros [| y0 ys] [| i]; simpl;
    try discriminate.
  - intros [= ->] [= ->]. reflexivity.
  - apply IH.
Qed.

End PyFacts.

(** ** Induction over arrays and values *)

Module ValueFacts.

Lemma ndarray_ind {A} (P : ndarray A -> Prop) :
  (forall x, P (Item x)) ->
  (forall subs, Forall P subs -> P (Axis subs)) ->
  forall a, P a.
Proof.
  intros HItem HAxis. fix IH 1. intros [x | subs].
  - apply HItem.
  - apply HAxis. induction subs as [| sub subs IHsubs]; constructor.
    + apply IH.
    + exact IHsubs.
Qed.

(** Induction along the recursion of [convert_numpy_to_python]: through
    the elements of lists and the values of dicts. *)
Lemma pyval_ind (P : pyval -> Prop) :
  (forall v, match v with PyList _ | PyDict _ => False | _ => True end -> P v) ->
  (forall items, Forall P items -> P (PyList items)) ->
  (forall items, Forall (fun kv => P kv.2) items -> P (PyDict items)) ->
  forall v, P v.
Proof.
  intros HLeaf HList HDict. fix IH 1. intros v.
  destruct v as [| b | z | f | s | x | a | a | items | items | items | f | a];
    try (apply HLeaf; exact I).
  - apply HList. induction items as [| v items IHitems]; constructor.
    + apply IH.
    + exact IHitems.
  - apply HDict. induction items as [| [k v] items IHitems]; constructor.
    + apply IH.
    + exact IHitems.
Qed.

End ValueFacts.

(** ** Files *)

Module OsFacts.

Lemma node_at_insert {B} (fs : gmap path (node B)) (p : path) (n : node B) :
  node_at fs p <> Some Dir -> node_at (<[p := n]> fs) p = Some n.
Proof.
  destruct p as [| r [| r' p]]; simpl.
  - intros H. contradiction H. reflexivity.
  - destruct (String.eqb r "/").
    + intros H. contradiction H. reflexivity.
    + intros _. apply lookup_insert_eq.
  - intros _. apply lookup_insert_eq.
Qed.

Lemma node_at_insert_ne {B} (fs : gmap path (node B)) (p q : path) (n : node B) :
  p <> q -> node_at (<[p := n]> fs) q = node_at fs q.
Proof.
  intros Hpq. destruct q as [| r [| r' q]]; simpl.
  - reflexivity.
  - destruct (String.eqb r "/"); [reflexivity |]. apply lookup_insert_ne, Hpq.
  - apply lookup_insert_ne, Hpq.
Qed.

Lemma mkdir_step_keeps {B} (fs fs' : gmap path (node B)) (p q : path)
    (ancestor : bool) (n : node B) :
  mkdir_step fs p ancestor = Ok fs' ->
  node_at fs q = Some n -> node_at fs' q = Some n.
Proof.
  unfold mkdir_step. destruct (node_at fs p) as [[| d] |] eqn:Hp.
  - intros [= <-]. auto.
  - discriminate.
  - intros [= <-] Hq. rewrite node_at_insert_ne; [exact Hq |].
    intros <-. congruence.
Qed.

Lemma mkdir_steps_keeps {B} (ps : list path) (fs : gmap path (node B)) (q : path)
    (n : node B) :
  node_at fs q = Some n -> node_at (mkdir_steps fs ps).2 q = Some n.
Proof.
  revert fs. induction ps as [| p ps IH]; intros fs Hq; simpl; [exact Hq |].
  destruct (mkdir_step fs p _) as [fs' | e] eqn:Hstep; simpl; [| exact Hq].
  apply IH. apply (mkdir_step_keeps fs fs' p q _ n Hstep Hq).
Qed.

Lemma write_file_ok {B} (p : path) (dump : B * option exn) (w w' : world B) :
  write_file p dump w = (Ok tt, w') ->
  node_at (files w) p <> Some Dir /\
  files w' = <[p := File dump.1]> (files w).
Proof.
  unfold write_file.
  destruct (node_at (files w) (parent p)) as [[| d] |]; try discriminate.
  destruct (node_at (files w) p) as [[| d] |]; try discriminate;
    destruct dump.2; try discriminate; intros [= <-]; simpl;
    (split; [discriminate | reflexivity]).
Qed.

Lemma write_file_present {B} (p : path) (dump : B * option exn)
    (w w' : world B) :
  write_file p dump w = (Ok tt, w') ->
  node_at (files w') p = Some (File dump.1) /\
  forall q n,
    q <> p -> node_at (files w) q = Some n -> node_at (files w') q = Some n.
Proof.
  intros Hw. apply write_file_ok in Hw as [Hp ->]. split.
  - apply node_at_insert, Hp.
  - intros q n Hq Hn. rewrite node_at_insert_ne; [exact Hn | congruence].
Qed.

End OsFacts.

(** ** utils.py *)

Module UtilsFacts.

Import Utils.

(** What [tolist] gives for an array of such elements holds Python
    objects only, so converting it again changes nothing. *)
Lemma convert_tolist_item (a : ndarray npscalar) :
  convert_numpy_to_python (tolist item a) = tolist item a.
Proof.
  induction a as [x | subs IH] using ValueFacts.ndarray_ind.
  - destruct x; reflexivity.
  - simpl. f_equal. rewrite map_map.
    induction IH as [| sub subs Hsub _ IHsubs]; simpl; [reflexivity |].
    rewrite Hsub, IHsubs. reflexivity.
Qed.

Lemma convert_idempotent (v : pyval) :
  no_object_array v = true ->
  no_longdouble_array v = true ->
  convert_numpy_to_python (convert_numpy_to_python v) = convert_numpy_to_python v.
Proof.
  induction v as [v Hleaf | items IH | items IH] using ValueFacts.pyval_ind;
    intros Hobj Hlong.
  - destruct v as [| b | z | f | s | x | a | a | items | items | items | f | a];
      try reflexivity; try contradiction; try discriminate.
    + destruct x; reflexivity.
    + apply convert_tolist_item.
  - simpl in *. f_equal. rewrite map_map. apply map_ext_in.
    intros x Hin. rewrite Forall_forall in IH. apply IH.
    + apply list_elem_of_In. exact Hin.
    + rewrite forallb_forall in Hobj. apply Hobj. exact Hin.
    + rewrite forallb_forall in Hlong. apply Hlong. exact Hin.
  - simpl in *. f_equal. rewrite map_map. apply map_ext_in.
    intros [k x] Hin. simpl. f_equal.
    rewrite Forall_forall in IH. apply (IH (k, x)).
    + apply list_elem_of_In. exact Hin.
    + rewrite forallb_forall in Hobj. apply (Hobj (k, x)). exact Hin.
    + rewrite forallb_forall in Hlong. apply (Hlong (k, x)). exact Hin.
Qed.

Lemma convert_dict_keys (items : list (string * pyval)) :
  exists items',
    convert_numpy_to_python (PyDict items) = PyDict items' /\
    map fst items' = map fst items /\
    map snd items' = map convert_numpy_to_python (map snd items).
Proof.
  eexists. split; [reflexivity |]. rewrite !map_map. split; reflexivity.
Qed.

(** C10, as amended.  [convert_numpy_to_python] is idempotent on every
    value in which no array of dtype [object] and no array of dtype
    [longdouble] is reachable through lists and dict values.  It maps a
    dict to a dict with exactly the same keys, in the same order, each
    value converted; a list to the list of its converted elements, hence of
    the same length and order; an array of an integer, boolean or floating
    dtype other than [longdouble] with at least one axis to the list of its
    converted sub-arrays along the first axis; such an array of dimension
    zero to the Python scalar of its element, not to a list; and it leaves
    the scalars of Python itself unchanged. *)
Theorem convert_numpy_to_python_spec :
  (forall v,
     no_object_array v = true ->
     no_longdouble_array v = true ->
     convert_numpy_to_python (convert_numpy_to_python v)
     = convert_numpy_to_python v) /\
  (forall items, exists items',
     convert_numpy_to_python (PyDict items) = PyDict items' /\
     map fst items' = map fst items /\
     map snd items' = map convert_numpy_to_python (map snd items)) /\
  (forall items,
     convert_numpy_to_python (PyList items)
     = PyList (map convert_numpy_to_python items)) /\
  (forall subs,
     convert_numpy_to_python (NpArray (Axis subs))
     = PyList (map (fun sub => convert_numpy_to_python (NpArray sub)) subs)) /\
  (forall x,
     convert_numpy_to_python (NpArray (Item x)) = item x /\
     python_scalar (item x) = true) /\
  (forall v, python_scalar v = true -> convert_numpy_to_python v = v).
Proof.
  split; [exact convert_idempotent |].
  split; [exact convert_dict_keys |].
  split; [reflexivity |].
  split; [reflexivity |].
  split; [intros x; split; [reflexivity | destruct x; reflexivity] |].
  intros v Hv. destruct v; try discriminate; reflexivity.
Qed.

Lemma convert_numpy_to_python_spec_witness :
  convert_numpy_to_python (convert_numpy_to_python Stub.metrics_example)
  = convert_numpy_to_python Stub.metrics_example.
Proof.
  apply (proj1 convert_numpy_to_python_spec Stub.metrics_example);
    reflexivity.
Defined.

(** C10 as stated fails.  On an array of dtype [object] the first
    conversion returns the elements as they are, a numeric array among them,
    and only the second conversion turns that array into a list; on an
    array of dtype [longdouble] the first conversion leaves the elements
    instances of [np.longdouble], which the second turns into floats; and a
    zero-dimensional array is converted to a bare scalar, not to a list. *)
Lemma convert_not_idempotent :
  convert_numpy_to_python Stub.object_array_example
    = PyList [PyDict [("k", NpArray (Axis [Item (NpInt 1)]))]] /\
  convert_numpy_to_python (convert_numpy_to_python Stub.object_array_example)
    = PyList [PyDict [("k", PyList [PyInt 1])]] /\
  convert_numpy_to_python Stub.longdouble_array_example
    = PyList [NpLongDouble float_one] /\
  convert_numpy_to_python (convert_numpy_to_python Stub.longdouble_array_example)
    = PyList [PyFloat float_one] /\
  convert_numpy_to_python Stub.scalar_array_example = PyInt 5.
Proof. repeat split. Qed.

(** C1.  On its domain [format_prediction_response] returns, and returns
    the record the claim describes: for an index [i] with [0 <= i < 3], a
    probability vector [p] of length 3 and the three class names, the
    result is a record whose [prediction] is the class name at position
    [i], whose [prediction_index] is [i], whose [confidence] is [p[i]], and
    whose [probabilities] map the class name at each position [j] to
    [p[j]] and hold no other key. *)
Theorem format_prediction_response_total (i : Z) (p : list float) :
  0 <= i < 3 ->
  length p = 3%nat ->
  exists r,
    format_prediction_response i p Model.CLASS_NAMES = Ok r /\
    Model.CLASS_NAMES !! Z.to_nat i = Some (prediction r) /\
    prediction_index r = i /\
    p !! Z.to_nat i = Some (confidence r) /\
    (forall (j : nat) (name : string),
       Model.CLASS_NAMES !! j = Some name -> probabilities r !! name = p !! j) /\
    (forall name : string,
       name ∉ Model.CLASS_NAMES -> probabilities r !! name = None).
Proof.
  intros Hi Hlen.
  destruct p as [| a [| b [| c [| d p]]]]; try discriminate Hlen.
  assert (i = 0 \/ i = 1 \/ i = 2) as [-> | [-> | ->]] by lia;
    (eexists; split; [reflexivity |]; simpl;
     split; [reflexivity |]; split; [reflexivity |]; split; [reflexivity |];
     split;
     [ intros [| [| [| j]]] name; simpl; intros [= <-]; reflexivity
     | intros name Hname; unfold dict_of; simpl;
       rewrite !lookup_insert_ne, lookup_empty;
       [reflexivity | ..]; intros <-; apply Hname;
       unfold Model.CLASS_NAMES; rewrite !elem_of_cons; tauto ]).
Qed.

Lemma format_prediction_response_total_witness :
  exists r,
    format_prediction_response 0 [float_one; float_zero; float_zero]
      Model.CLASS_NAMES = Ok r /\
    Model.CLASS_NAMES !! Z.to_nat 0 = Some (prediction r) /\
    prediction_index r = 0 /\
    [float_one; float_zero; float_zero] !! Z.to_nat 0 = Some (confidence r) /\
    (forall (j : nat) (name : string),
       Model.CLASS_NAMES !! j = Some name ->
       probabilities r !! name = [float_one; float_zero; float_zero] !! j) /\
    (forall name : string,
       name ∉ Model.CLASS_NAMES -> probabilities r !! name = None).
Proof.
  apply (format_prediction_response_total 0 [float_one; float_zero; float_zero]).
  - lia.
  - reflexivity.
Defined.

End UtilsFacts.

(** ** The stand-in satisfies the laws assumed of the libraries *)

Module StubFacts.

Lemma stub_errors_foreign : Model.library_errors_foreign Stub.stub.
Proof.
  repeat split.
  - intros [k |] X e; simpl; unfold Stub.stub_rows;
      [destruct (Nat.eqb (ndim X) 2); [destruct X |] |];
      intros [= <-]; reflexivity.
  - intros [k |] X e; simpl; unfold Stub.stub_rows;
      [destruct (Nat.eqb (ndim X) 2); [destruct X |] |];
      intros [= <-]; reflexivity.
  - intros c e. simpl. discriminate.
Qed.

Lemma stub_joblib_faithful : joblib_faithful Stub.stub.
Proof. intros c data. simpl. intros [= <-]. reflexivity. Qed.

Lemma stub_validates_input : validates_input Stub.stub.
Proof.
  intros f X HX. apply Nat.eqb_neq in HX.
  split; destruct f as [k |]; simpl; unfold Stub.stub_rows;
    try rewrite HX; eexists; reflexivity.
Qed.

End StubFacts.

(** ** model.py *)

Module ModelFacts.

Import OsFacts.

Section WithLibrary.
Context {L : Library}.

Lemma predict_untrained (c : IrisClassifier forest) (X : ndarray float) :
  is_trained c = false -> Model.raises_untrained (Model.predict c X).
Proof.
  intros Hc. unfold Model.predict. rewrite Hc. simpl.
  eexists. split; reflexivity.
Qed.

Lemma predict_proba_untrained (c : IrisClassifier forest) (X : ndarray float) :
  is_trained c = false -> Model.raises_untrained (Model.predict_proba c X).
Proof.
  intros Hc. unfold Model.predict_proba. rewrite Hc. simpl.
  eexists. split; reflexivity.
Qed.

Lemma save_untrained (c : IrisClassifier forest) (p : path) (w : world blob) :
  is_trained c = false ->
  Model.save c p w = (Raise (ValueError "Cannot save an untrained model"), w).
Proof. intros Hc. unfold Model.save. rewrite Hc. reflexivity. Qed.

(** What [write_file] raises is an error of the file system or of the dump. *)
Lemma write_file_raises (p : path) (dump : blob * option exn) (w : world blob)
    (e : exn) :
  (write_file p dump w).1 = Raise e ->
  Model.is_untrained_error e = false \/ dump.2 = Some e.
Proof.
  unfold write_file.
  destruct (node_at (files w) (parent p)) as [[| d] |]; simpl;
    try (intros [= <-]; left; reflexivity).
  destruct (node_at (files w) p) as [[| d] |]; simpl;
    try (intros [= <-]; left; reflexivity);
    destruct dump.2 as [e' |]; simpl; try discriminate;
    intros [= <-]; right; reflexivity.
Qed.

(** C3.  [predict], [predict_proba] and [save] fail with an "untrained
    model" error exactly when the trained flag is unset.  [train] does not
    look at the flag: whether the object is trained or not, it returns
    whenever scikit-learn's [fit] returns, with the fitted estimator in
    place of the old one and the flag set, and it raises only what [fit]
    raised.  A call of [train] that returns leaves the flag set, so none of
    the three raises that error afterwards; and [train] on an object that
    is already trained does not abort: it fits again and the new estimator
    replaces the old one.  The libraries are assumed to raise errors of
    their own only ([library_errors_foreign]). *)
Theorem untrained_guard (c : IrisClassifier forest) :
  Model.library_errors_foreign L ->
  (forall X, Model.raises_untrained (Model.predict c X) <-> is_trained c = false) /\
  (forall X,
     Model.raises_untrained (Model.predict_proba c X) <-> is_trained c = false) /\
  (forall p w,
     Model.raises_untrained (Model.save c p w).1 <-> is_trained c = false) /\
  (forall X y fitted,
     sk_fit (model c) X y = Ok fitted ->
     Model.train c X y = Ok (mkIrisClassifier fitted (random_state c) true)) /\
  (forall X y e,
     Model.train c X y = Raise e -> sk_fit (model c) X y = Raise e) /\
  (forall X y c',
     Model.train c X y = Ok c' ->
     is_trained c' = true /\
     (forall X', ~ Model.raises_untrained (Model.predict c' X')) /\
     (forall X', ~ Model.raises_untrained (Model.predict_proba c' X')) /\
     (forall p w, ~ Model.raises_untrained (Model.save c' p w).1) /\
     (forall X2 y2 refitted,
        sk_fit (model c') X2 y2 = Ok refitted ->
        Model.train c' X2 y2
        = Ok (mkIrisClassifier refitted (random_state c') true))).
Proof.
  intros (Hpredict & Hproba & Hdump).
  assert (Hp : forall c0 X,
             Model.raises_untrained (Model.predict c0 X) <-> is_trained c0 = false).
  { intros c0 X. split; [| apply predict_untrained].
    intros (e & He & Hmsg). unfold Model.predict in He.
    destruct (is_trained c0); [| reflexivity]. simpl in He.
    rewrite (Hpredict _ _ _ He) in Hmsg. discriminate. }
  assert (Hq : forall c0 X,
             Model.raises_untrained (Model.predict_proba c0 X)
             <-> is_trained c0 = false).
  { intros c0 X. split; [| apply predict_proba_untrained].
    intros (e & He & Hmsg). unfold Model.predict_proba in He.
    destruct (is_trained c0); [| reflexivity]. simpl in He.
    rewrite (Hproba _ _ _ He) in Hmsg. discriminate. }
  assert (Hs : forall c0 p w,
             Model.raises_untrained (Model.save c0 p w).1
             <-> is_trained c0 = false).
  { intros c0 p w. split.
    - intros (e & He & Hmsg). unfold Model.save in He.
      destruct (is_trained c0); [| reflexivity]. simpl in He.
      destruct (write_file_raises _ _ _ _ He) as [Hfs | Hd].
      + rewrite Hfs in Hmsg. discriminate.
      + rewrite (Hdump _ _ Hd) in Hmsg. discriminate.
    - intros Hc. rewrite (save_untrained _ _ _ Hc).
      eexists. split; reflexivity. }
  split; [apply Hp |]. split; [apply Hq |]. split; [apply Hs |].
  split.
  { intros X y fitted Hfit. unfold Model.train. rewrite Hfit. reflexivity. }
  split.
  { intros X y e. unfold Model.train.
    destruct (sk_fit (model c) X y) as [fitted | e']; simpl;
      [discriminate | intros [= <-]; reflexivity]. }
  intros X y c' Htrain. unfold Model.train in Htrain.
  destruct (sk_fit (model c) X y) as [fitted | e]; simpl in Htrain;
    [| discriminate].
  injection Htrain as <-. simpl.
  split; [reflexivity |].
  split; [intros X' H; apply Hp in H; discriminate |].
  split; [intros X' H; apply Hq in H; discriminate |].
  split; [intros p w H; apply Hs in H; discriminate |].
  intros X2 y2 refitted Hfit. unfold Model.train. simpl. rewrite Hfit.
  reflexivity.
Qed.

Lemma save_trained (c : IrisClassifier forest) (p : path) (w : world blob) :
  is_trained c = true ->
  node_at (files w) (parent p) = Some Dir ->
  node_at (files w) p <> Some Dir ->
  (joblib_dump c).2 = None ->
  Model.save c p w
  = (Ok tt, mkWorld (<[p := File (joblib_dump c).1]> (files w)) (log w)).
Proof.
  intros Hc Hparent Hp Hdump. unfold Model.save. rewrite Hc. cbn [negb].
  unfold write_file. rewrite Hparent, Hdump.
  destruct (node_at (files w) p) as [[| d] |]; try reflexivity.
  contradiction Hp. reflexivity.
Qed.

(** C7.  Saving a trained classifier and loading the file again gives a
    classifier (not [None]) whose [predict] agrees with the original's on
    every input.
    [save] needs its target to be writable (the parent directory exists,
    no directory stands at the path, the dump does not raise), and joblib
    is assumed to read back what it dumped ([joblib_faithful]). *)
Theorem save_load_roundtrip (c : IrisClassifier forest) (p : path)
    (w : world blob) :
  joblib_faithful L ->
  is_trained c = true ->
  node_at (files w) (parent p) = Some Dir ->
  node_at (files w) p <> Some Dir ->
  (joblib_dump c).2 = None ->
  exists w' c',
    Model.save c p w = (Ok tt, w') /\
    Model.load p w' = (Ok (Some c'), w') /\
    forall X, Model.predict c' X = Model.predict c X.
Proof.
  intros Hjoblib Hc Hparent Hp Hdump.
  exists (mkWorld (<[p := File (joblib_dump c).1]> (files w)) (log w)), c.
  split; [apply save_trained; assumption |].
  split; [| reflexivity].
  unfold Model.load, Os.bind, read_file. simpl.
  rewrite (node_at_insert _ _ _ Hp). unfold lift.
  rewrite (Hjoblib c (joblib_dump c).1); [reflexivity |].
  destruct (joblib_dump c) as [data o]. simpl in *. subst o. reflexivity.
Qed.

End WithLibrary.

Lemma untrained_guard_witness :
  (forall X,
     Model.raises_untrained (Model.predict Stub.unfitted X)
     <-> is_trained Stub.unfitted = false) /\
  (forall X,
     Model.raises_untrained (Model.predict_proba Stub.unfitted X)
     <-> is_trained Stub.unfitted = false) /\
  (forall p w,
     Model.raises_untrained (Model.save Stub.unfitted p w).1
     <-> is_trained Stub.unfitted = false) /\
  (forall X y fitted,
     sk_fit (model Stub.unfitted) X y = Ok fitted ->
     Model.train Stub.unfitted X y
     = Ok (mkIrisClassifier fitted (random_state Stub.unfitted) true)) /\
  (forall X y e,
     Model.train Stub.unfitted X y = Raise e ->
     sk_fit (model Stub.unfitted) X y = Raise e) /\
  (forall X y c',
     Model.train Stub.unfitted X y = Ok c' ->
     is_trained c' = true /\
     (forall X', ~ Model.raises_untrained (Model.predict c' X')) /\
     (forall X', ~ Model.raises_untrained (Model.predict_proba c' X')) /\
     (forall p w, ~ Model.raises_untrained (Model.save c' p w).1) /\
     (forall X2 y2 refitted,
        sk_fit (model c') X2 y2 = Ok refitted ->
        Model.train c' X2 y2
        = Ok (mkIrisClassifier refitted (random_state c') true))).
Proof.
  apply (untrained_guard (L := Stub.stub) Stub.unfitted).
  exact StubFacts.stub_errors_foreign.
Defined.

Lemma save_load_roundtrip_witness :
  exists w' c',
    Model.save Stub.fitted ["/"; "iris_model.joblib"] Stub.empty_world
      = (Ok tt, w') /\
    Model.load ["/"; "iris_model.joblib"] w' = (Ok (Some c'), w') /\
    forall X, Model.predict c' X = Model.predict Stub.fitted X.
Proof.
  apply (save_load_roundtrip (L := Stub.stub) Stub.fitted
           ["/"; "iris_model.joblib"] Stub.empty_world).
  - exact StubFacts.stub_joblib_faithful.
  - reflexivity.
  - reflexivity.
  - vm_compute. discriminate.
  - reflexivity.
Defined.

End ModelFacts.

(** ** serve.py *)

Module ServeFacts.

Import Serve.

Section WithLibrary.
Context {L : Library} (settings : Config.Settings).

(** *** Computations that leave the global [model] alone *)

Lemma keeps_ret {A} (a : A) : keeps_model (ret a).
Proof. intros p. split; reflexivity. Qed.

Lemma keeps_lift {A} (r : result A) : keeps_model (lift r).
Proof. intros p. split; reflexivity. Qed.

Lemma keeps_in_env {A} (m : io (world blob) A) : keeps_model (in_env m).
Proof. intros p. unfold in_env. destruct (m (env p)). split; reflexivity. Qed.

Lemma keeps_global_model : keeps_model global_model.
Proof. intros p. split; reflexivity. Qed.

Lemma keeps_bind {A B} (m : io process A) (k : A -> io process B) :
  keeps_model m -> (forall a, keeps_model (k a)) -> keeps_model (Os.bind m k).
Proof.
  intros Hm Hk p. unfold Os.bind. specialize (Hm p).
  destruct (m p) as [[a | e] p']; simpl in *.
  - destruct (Hk a p') as [H1 H2]. rewrite H1, H2. exact Hm.
  - exact Hm.
Qed.

Lemma keeps_try_except {A} (body : io process A) (handler : exn -> io process A) :
  keeps_model body -> (forall e, keeps_model (handler e)) ->
  keeps_model (try_except body handler).
Proof.
  intros Hb Hh p. unfold try_except. specialize (Hb p).
  destruct (body p) as [[a | e] p']; simpl in *.
  - exact Hb.
  - destruct (Hh e p') as [H1 H2]. rewrite H1, H2. exact Hb.
Qed.

Create HintDb keeps.
#[local] Hint Resolve keeps_ret keeps_lift keeps_in_env keeps_global_model : keeps.
#[local] Hint Resolve keeps_bind keeps_try_except : keeps.
#[local] Hint Extern 2 (keeps_model (match ?x with _ => _ end)) =>
  destruct x : keeps.
#[local] Hint Extern 3 (forall _, keeps_model _) => intro : keeps.

Ltac keeps := unfold predict, predict_batch, root, health; eauto 30 with keeps.

Lemma keeps_root : keeps_model (root settings).
Proof. keeps. Qed.

Lemma keeps_health : keeps_model (health settings).
Proof. keeps. Qed.

Lemma keeps_predict (features : IrisFeatures) : keeps_model (predict features).
Proof. keeps. Qed.

Lemma keeps_predict_batch (features_list : list IrisFeatures) :
  keeps_model (predict_batch features_list).
Proof. keeps. Qed.

Lemma keeps_run_handler {A} (h : io process (response A)) (p : process) :
  keeps_model h ->
  model (run_handler h p).2 = model p /\
  model_writes (run_handler h p).2 = model_writes p.
Proof.
  intros Hh. unfold run_handler. specialize (Hh p).
  destruct (h p) as [[r | e] p']; exact Hh.
Qed.

Lemma step_keeps_model (req : request) (p : process) :
  model (step settings req p) = model p /\
  model_writes (step settings req p) = model_writes p.
Proof.
  destruct req as [| | body | body]; unfold step.
  - apply keeps_run_handler. auto using keeps_root with keeps.
  - apply keeps_run_handler. auto using keeps_health with keeps.
  - unfold post_predict. destruct (parse_IrisFeatures body).
    + apply keeps_run_handler, keeps_predict.
    + split; reflexivity.
  - unfold post_predict_batch. destruct (traverse parse_IrisFeatures body).
    + apply keeps_run_handler, keeps_predict_batch.
    + split; reflexivity.
Qed.


(** *** Startup *)

Ltac run_load_model :=
  unfold load_model, Model.load;
  unfold Os.bind, in_env, logger_info, logger_error, logger_call,
    exists_, try_except, read_file, lift, assign_model, initial;
  simpl.

Lemma load_model_missing (w : world blob) :
  node_at (files w) (Config.get_model_path settings) = None ->
  exists entries,
    load_model settings (initial w)
    = (Ok tt, mkProcess None 0 (mkWorld (files w) (log w ++ entries))) /\
    exists r, r ∈ entries /\ levelname r = "ERROR".
Proof.
  intros Hmissing. run_load_model. rewrite Hmissing. simpl.
  eexists. split; [rewrite <- !app_assoc; reflexivity |].
  eexists. split; [apply list_elem_of_further, list_elem_of_here | reflexivity].
Qed.

Lemma load_model_decode_error (w : world blob) (data : blob) (e : exn) :
  node_at (files w) (Config.get_model_path settings) = Some (File data) ->
  joblib_load data = Raise e ->
  exists entries,
    load_model settings (initial w)
    = (Ok tt, mkProcess None 0 (mkWorld (files w) (log w ++ entries))) /\
    exists r, r ∈ entries /\ levelname r = "ERROR".
Proof.
  intros Hfile Hdecode. run_load_model. rewrite Hfile. simpl.
  rewrite Hfile, Hdecode. simpl.
  eexists. split; [rewrite <- !app_assoc; reflexivity |].
  eexists. split; [apply list_elem_of_further, list_elem_of_here | reflexivity].
Qed.

(** Startup assigns the global at most once: exactly when a file stands at
    the model path and joblib decodes it.  The global is [None] afterwards
    exactly when it was not assigned or what joblib decoded is [None]. *)
Lemma load_model_writes (w : world blob) :
  (model_writes (startup settings w) <= 1)%nat /\
  (model (startup settings w) = None
   <-> model_writes (startup settings w) = 0%nat \/
       exists data,
         node_at (files w) (Config.get_model_path settings) = Some (File data) /\
         joblib_load data = Ok None) /\
  (model_writes (startup settings w) = 1%nat
   <-> exists data obj,
         node_at (files w) (Config.get_model_path settings) = Some (File data) /\
         joblib_load data = Ok obj).
Proof.
  unfold startup. run_load_model.
  destruct (node_at (files w) (Config.get_model_path settings))
    as [[| data] |] eqn:Hnode; simpl; rewrite ?Hnode; simpl.
  - split; [lia |]. split; [split; [left |]; reflexivity |].
    split; [discriminate | intros (data & obj & Hdata & _); discriminate].
  - destruct (joblib_load data) as [obj | e] eqn:Hload; simpl.
    + split; [lia |]. split.
      * split.
        -- intros ->. right. exists data. split; [reflexivity | exact Hload].
        -- intros [H | (data' & [= <-] & Hobj)]; [discriminate | congruence].
      * split; [| reflexivity].
        intros _. exists data, obj. split; [reflexivity | exact Hload].
    + split; [lia |]. split; [split; [left |]; reflexivity |].
      split; [discriminate |].
      intros (data' & obj & [= <-] & Hobj). congruence.
  - split; [lia |]. split; [split; [left |]; reflexivity |].
    split; [discriminate | intros (data & obj & Hdata & _); discriminate].
Qed.

(** C6.  When the model file is missing at the configured path, or is there
    but cannot be decoded, startup returns normally (the process does not
    crash): it has logged an error, written no file, and left the global
    [model] at [None] without assigning it; the health query then answers
    with [model_loaded] false and status "unhealthy", and changes
    nothing. *)
Theorem startup_failure_degrades (w : world blob) :
  node_at (files w) (Config.get_model_path settings) = None \/
  (exists data e,
     node_at (files w) (Config.get_model_path settings) = Some (File data) /\
     joblib_load data = Raise e) ->
  exists p,
    load_model settings (initial w) = (Ok tt, p) /\
    model p = None /\
    model_writes p = 0%nat /\
    files (env p) = files w /\
    (exists r, r ∈ log (env p) /\ levelname r = "ERROR") /\
    exists h,
      get_health settings p = (Success h, p) /\
      model_loaded h = false /\
      status h = "unhealthy".
Proof.
  intros Hfail.
  assert (exists entries,
             load_model settings (initial w)
             = (Ok tt, mkProcess None 0 (mkWorld (files w) (log w ++ entries))) /\
             exists r, r ∈ entries /\ levelname r = "ERROR")
    as (entries & Hload & r & Hr & Hlevel).
  { destruct Hfail as [Hmissing | (data & e & Hfile & Hdecode)].
    - apply load_model_missing. exact Hmissing.
    - apply (load_model_decode_error w data e); assumption. }
  eexists. split; [exact Hload |]. simpl.
  split; [reflexivity |]. split; [reflexivity |]. split; [reflexivity |].
  split.
  - exists r. split; [| exact Hlevel]. apply elem_of_app. right. exact Hr.
  - eexists. split; [reflexivity |]. split; reflexivity.
Qed.

(** C9.  Startup assigns the global [model] at most once, and not at all
    when loading fails: it assigns exactly when a file stands at the model
    path and joblib decodes it, and the global is [None] afterwards exactly
    when it was not assigned or what joblib decoded is itself [None].  No
    request, whatever its kind and body, assigns it afterwards: in every
    state the process reaches after startup the global holds what it held
    right after startup, and the count of assignments is the one startup
    left. *)
Theorem model_written_once (w : world blob) (p : process) :
  reachable settings (startup settings w) p ->
  model p = model (startup settings w) /\
  model_writes p = model_writes (startup settings w) /\
  (model_writes (startup settings w) <= 1)%nat /\
  (model (startup settings w) = None
   <-> model_writes (startup settings w) = 0%nat \/
       exists data,
         node_at (files w) (Config.get_model_path settings) = Some (File data) /\
         joblib_load data = Ok None) /\
  (model_writes (startup settings w) = 1%nat
   <-> exists data obj,
         node_at (files w) (Config.get_model_path settings) = Some (File data) /\
         joblib_load data = Ok obj).
Proof.
  intros Hreach.
  assert (model p = model (startup settings w) /\
          model_writes p = model_writes (startup settings w)) as [Hm Hw].
  { induction Hreach as [| req p Hreach [IHm IHw]].
    - split; reflexivity.
    - destruct (step_keeps_model req p) as [Hm Hw].
      rewrite Hm, Hw. split; assumption. }
  split; [exact Hm |]. split; [exact Hw |]. apply load_model_writes.
Qed.


(** *** Requests *)

Lemma required_rejects (name : string) (v : option float) :
  missing_or_negative v = true -> is_ok (required_ge0 name v) = false.
Proof.
  destruct v as [x |]; simpl; [| reflexivity].
  intros Hx. rewrite (PyFacts.negative_not_ge0 x Hx). reflexivity.
Qed.

Lemma parse_rejects (body : RawFeatures) :
  malformed body = true -> is_ok (parse_IrisFeatures body) = false.
Proof.
  unfold malformed, parse_IrisFeatures. intros Hbad.
  destruct (required_ge0 "sepal_length" _) as [sl | e] eqn:H1; [| reflexivity].
  destruct (required_ge0 "sepal_width" _) as [sw | e] eqn:H2; [| reflexivity].
  destruct (required_ge0 "petal_length" _) as [pl | e] eqn:H3; [| reflexivity].
  destruct (required_ge0 "petal_width" _) as [pw | e] eqn:H4; [| reflexivity].
  exfalso.
  repeat match goal with
         | H : required_ge0 ?name ?v = Ok _ |- _ =>
             destruct (missing_or_negative v) eqn:?;
             [ match goal with
               | M : missing_or_negative v = true |- _ =>
                   apply (required_rejects name) in M; rewrite H in M;
                   discriminate M
               end
             | clear H ]
         end.
  discriminate Hbad.
Qed.

(** The validation errors of a body carry numbers of the body only. *)
Lemma error_inputs_finite (body : RawFeatures) :
  all_finite body = true -> forallb is_finite (error_inputs body) = true.
Proof.
  unfold all_finite. rewrite !forallb_forall. intros Hbody x Hx.
  unfold error_inputs in Hx. apply in_flat_map in Hx as (v & Hv & Hx).
  destruct v as [y |]; simpl in Hx.
  - destruct (float_ge0 y); [contradiction |].
    destruct Hx as [<- | []]. apply Hbody, list_elem_of_In.
    unfold body_values. apply list_elem_of_omap.
    exists (Some y). split; [apply list_elem_of_In, Hv | reflexivity].
  - apply Hbody, Hx.
Qed.

Lemma error_inputs_all_finite (bodies : list RawFeatures) :
  forallb all_finite bodies = true ->
  forallb is_finite (flat_map error_inputs bodies) = true.
Proof.
  rewrite !forallb_forall. intros Hbodies x Hx.
  apply in_flat_map in Hx as (body & Hbody & Hx).
  pose proof (error_inputs_finite body (Hbodies body Hbody)) as Hfinite.
  rewrite forallb_forall in Hfinite. apply Hfinite, Hx.
Qed.

Lemma post_predict_rejects (body : RawFeatures) (p : process) :
  malformed body = true ->
  (post_predict body p).2 = p /\
  (all_finite body = true ->
   exists detail, post_predict body p = (HTTPException 422 detail, p)).
Proof.
  intros Hbad. apply parse_rejects in Hbad. unfold post_predict.
  destruct (parse_IrisFeatures body); [discriminate |].
  split; [reflexivity |]. intros Hfinite.
  unfold validation_response. rewrite (error_inputs_finite body Hfinite).
  eexists. reflexivity.
Qed.

Lemma post_predict_batch_rejects (bodies : list RawFeatures) (p : process) :
  existsb malformed bodies = true ->
  (post_predict_batch bodies p).2 = p /\
  (forallb all_finite bodies = true ->
   exists detail, post_predict_batch bodies p = (HTTPException 422 detail, p)).
Proof.
  intros Hbad. apply existsb_exists in Hbad as (body & Hin & Hbad).
  apply parse_rejects in Hbad.
  apply list_elem_of_In in Hin.
  pose proof (PyFacts.traverse_raise _ _ _ Hin Hbad) as Hall.
  unfold post_predict_batch.
  destruct (traverse parse_IrisFeatures bodies); [discriminate |].
  split; [reflexivity |]. intros Hfinite.
  unfold validation_response. rewrite (error_inputs_all_finite bodies Hfinite).
  eexists. reflexivity.
Qed.

Lemma predict_unavailable (features : IrisFeatures) (p : process) :
  model p = None ->
  predict features p
  = (Ok (HTTPException 503 "Model not loaded. Please check server logs."), p).
Proof. intros Hm. unfold predict, Os.bind, global_model. rewrite Hm. reflexivity. Qed.

Lemma predict_batch_unavailable (features_list : list IrisFeatures) (p : process) :
  model p = None ->
  predict_batch features_list p
  = (Ok (HTTPException 503 "Model not loaded. Please check server logs."), p).
Proof.
  intros Hm. unfold predict_batch, Os.bind, global_model. rewrite Hm. reflexivity.
Qed.

Ltac run_try_body :=
  unfold Os.bind, global_model, try_except, lift, in_env, logger_info,
    logger_error, logger_call, ret, Py.bind;
  simpl;
  repeat match goal with
         | |- context [match ?x with Ok _ => _ | Raise _ => _ end] =>
             destruct x; simpl
         end.

(** With a model loaded, [predict] returns a response whatever happens in
    the [try] block: the formatted prediction, or a 500 that carries the
    text of the exception. *)
Lemma predict_catches (features : IrisFeatures) (p : process)
    (m : IrisClassifier forest) :
  model p = Some m ->
  exists r p',
    predict features p = (Ok r, p') /\
    ((exists body, r = Success body) \/
     (exists e, r = HTTPException 500 ("Prediction failed: " +:+ exn_str e))) /\
    (is_ok (Model.predict m (array2 [feature_row features])) = false \/
     is_ok (Model.predict_proba m (array2 [feature_row features])) = false ->
     status_of r = 500).
Proof.
  intros Hm. unfold predict. unfold Os.bind at 1. unfold global_model at 1.
  rewrite Hm. cbv zeta.
  destruct (Model.predict m _) as [ps | e1];
    destruct (Model.predict_proba m _) as [qs | e2];
    run_try_body;
    (eexists; eexists; split; [reflexivity |]; split;
     [first [left; eexists; reflexivity | right; eexists; reflexivity]
     | intros [H | H]; first [discriminate H | reflexivity]]).
Qed.

Lemma predict_batch_catches (features_list : list IrisFeatures) (p : process)
    (m : IrisClassifier forest) :
  model p = Some m ->
  exists r p',
    predict_batch features_list p = (Ok r, p') /\
    ((exists body, r = Success body) \/
     (exists e,
        r = HTTPException 500 ("Batch prediction failed: " +:+ exn_str e))) /\
    (is_ok (Model.predict m (array2 (map feature_row features_list))) = false \/
     is_ok (Model.predict_proba m (array2 (map feature_row features_list)))
       = false ->
     status_of r = 500).
Proof.
  intros Hm. unfold predict_batch. unfold Os.bind at 1. unfold global_model at 1.
  rewrite Hm. cbv zeta.
  destruct (Model.predict m _) as [ps | e1];
    destruct (Model.predict_proba m _) as [qs | e2];
    run_try_body;
    (eexists; eexists; split; [reflexivity |]; split;
     [first [left; eexists; reflexivity | right; eexists; reflexivity]
     | intros [H | H]; first [discriminate H | reflexivity]]).
Qed.


(** C4, as amended.  For both endpoints: a body in which one of the four
    fields is missing or negative never reaches the handler, whether or not
    a model is loaded: the process is left as it was, and when every number
    in the body is finite the answer is 422; a body that passes validation
    is answered with 503 when no model is loaded; and with a model loaded
    the handler always returns a response, which is the 200 body or a 500
    carrying the text of the exception caught in the [try] block, and it is
    the 500 whenever [predict] or [predict_proba] raised. *)
Theorem status_codes (p : process) :
  (forall body,
     malformed body = true ->
     (post_predict body p).2 = p /\
     (all_finite body = true ->
      exists detail, post_predict body p = (HTTPException 422 detail, p))) /\
  (forall bodies,
     existsb malformed bodies = true ->
     (post_predict_batch bodies p).2 = p /\
     (forallb all_finite bodies = true ->
      exists detail,
        post_predict_batch bodies p = (HTTPException 422 detail, p))) /\
  (model p = None ->
   (forall body,
      is_ok (parse_IrisFeatures body) = true ->
      answer settings (PostPredict body) p = 503) /\
   (forall bodies,
      is_ok (traverse parse_IrisFeatures bodies) = true ->
      answer settings (PostPredictBatch bodies) p = 503)) /\
  (forall m,
     model p = Some m ->
     (forall body features,
        parse_IrisFeatures body = Ok features ->
        exists r p',
          predict features p = (Ok r, p') /\
          post_predict body p = (r, p') /\
          ((exists result, r = Success result) \/
           (exists e,
              r = HTTPException 500 ("Prediction failed: " +:+ exn_str e))) /\
          (is_ok (Model.predict m (array2 [feature_row features])) = false \/
           is_ok (Model.predict_proba m (array2 [feature_row features])) = false ->
           status_of r = 500)) /\
     (forall bodies features_list,
        traverse parse_IrisFeatures bodies = Ok features_list ->
        exists r p',
          predict_batch features_list p = (Ok r, p') /\
          post_predict_batch bodies p = (r, p') /\
          ((exists results, r = Success results) \/
           (exists e,
              r = HTTPException 500
                    ("Batch prediction failed: " +:+ exn_str e))) /\
          (is_ok (Model.predict m (array2 (map feature_row features_list)))
             = false \/
           is_ok (Model.predict_proba m (array2 (map feature_row features_list)))
             = false ->
           status_of r = 500))).
Proof.
  split; [intros body; apply post_predict_rejects |].
  split; [intros bodies; apply post_predict_batch_rejects |].
  split.
  - intros Hm. split.
    + intros body Hbody. unfold answer, post_predict.
      destruct (parse_IrisFeatures body) as [features | e]; [| discriminate].
      unfold run_handler. rewrite (predict_unavailable _ _ Hm). reflexivity.
    + intros bodies Hbodies. unfold answer, post_predict_batch.
      destruct (traverse parse_IrisFeatures bodies) as [fl | e]; [| discriminate].
      unfold run_handler. rewrite (predict_batch_unavailable _ _ Hm).
      reflexivity.
  - intros m Hm. split.
    + intros body features Hbody.
      destruct (predict_catches features p m Hm) as (r & p' & Hr & Hshape & H500).
      exists r, p'. split; [exact Hr |]. split; [| split; assumption].
      unfold post_predict, run_handler. rewrite Hbody, Hr. reflexivity.
    + intros bodies fl Hbodies.
      destruct (predict_batch_catches fl p m Hm) as (r & p' & Hr & Hshape & H500).
      exists r, p'. split; [exact Hr |]. split; [| split; assumption].
      unfold post_predict_batch, run_handler. rewrite Hbodies, Hr. reflexivity.
Qed.

(** What scikit-learn is given for an empty batch: [np.array([])], an array
    of one dimension. *)
Lemma empty_batch_array : ndim (array2 (map feature_row [])) = 1%nat.
Proof. reflexivity. Qed.

(** C2 fails on the empty batch.  With a model loaded, the request body
    [[]] passes validation and the handler builds [np.array([])], which has
    one dimension; scikit-learn rejects it, the exception is caught, and the
    answer is 500, not 200 with an empty list. *)
Theorem empty_batch_is_500 (p : process) (m : IrisClassifier forest) :
  validates_input L ->
  model p = Some m ->
  answer settings (PostPredictBatch []) p = 500.
Proof.
  intros Hvalid Hm. unfold answer, post_predict_batch. simpl traverse.
  cbv iota beta.
  destruct (predict_batch_catches [] p m Hm) as (r & p' & Hr & _ & H500).
  unfold run_handler. rewrite Hr. simpl. apply H500.
  destruct (Hvalid (Classifier.model m) (array2 (map feature_row [])))
    as [[e He] _]; [rewrite empty_batch_array; lia |].
  left. unfold Model.predict.
  destruct (is_trained m); cbn [negb]; [| reflexivity].
  rewrite He. reflexivity.
Qed.

(** The part of C2 that holds: when inference and formatting succeed, the
    batch response has one result per pair of prediction and probability
    row, in their order. *)
Lemma predict_batch_in_order (features_list : list IrisFeatures) (p : process)
    (m : IrisClassifier forest) (ps : list Z) (qs : list (list float))
    (results : list Utils.PredictionResult) :
  model p = Some m ->
  Model.predict m (array2 (map feature_row features_list)) = Ok ps ->
  Model.predict_proba m (array2 (map feature_row features_list)) = Ok qs ->
  traverse
    (fun pp =>
       let* r := Utils.format_prediction_response pp.1 pp.2 Model.CLASS_NAMES in
       PredictionResponse r)
    (zip ps qs) = Ok results ->
  (predict_batch features_list p).1 = Ok (Success results) /\
  length results = Nat.min (length ps) (length qs) /\
  forall i pred probs,
    ps !! i = Some pred -> qs !! i = Some probs ->
    exists r,
      results !! i = Some r /\
      Utils.format_prediction_response pred probs Model.CLASS_NAMES = Ok r.
Proof.
  intros Hm Hps Hqs Hres. split; [| split].
  - unfold predict_batch. unfold Os.bind at 1. unfold global_model at 1.
    rewrite Hm. cbv zeta. unfold try_except, Os.bind, lift.
    rewrite Hps, Hqs, Hres. reflexivity.
  - rewrite (PyFacts.traverse_length _ _ _ Hres). apply PyFacts.zip_length.
  - intros i pred probs Hpred Hprobs.
    destruct (PyFacts.traverse_lookup _ _ _ i (pred, probs) Hres
                (PyFacts.zip_lookup _ _ _ _ _ Hpred Hprobs)) as (r & Hr & Hfmt).
    exists r. split; [exact Hr |]. simpl in Hfmt.
    destruct (Utils.format_prediction_response pred probs Model.CLASS_NAMES)
      as [r' |]; simpl in Hfmt; [| discriminate].
    unfold PredictionResponse in Hfmt.
    destruct (float_ge0 _ && float_le1 _); [| discriminate].
    congruence.
Qed.

End WithLibrary.

Lemma startup_failure_degrades_witness :
  exists p,
    load_model Stub.stub_settings (initial Stub.app_world) = (Ok tt, p) /\
    model p = None /\
    model_writes p = 0%nat /\
    files (env p) = files Stub.app_world /\
    (exists r, r ∈ log (env p) /\ levelname r = "ERROR") /\
    exists h,
      get_health Stub.stub_settings p = (Success h, p) /\
      model_loaded h = false /\
      status h = "unhealthy".
Proof.
  apply (startup_failure_degrades (L := Stub.stub) Stub.stub_settings
           Stub.app_world).
  left. vm_compute. reflexivity.
Defined.

Lemma model_written_once_witness :
  model (step Stub.stub_settings (PostPredict Stub.sample)
           (startup Stub.stub_settings Stub.app_world))
  = model (startup Stub.stub_settings Stub.app_world) /\
  model_writes (step Stub.stub_settings (PostPredict Stub.sample)
                  (startup Stub.stub_settings Stub.app_world))
  = model_writes (startup Stub.stub_settings Stub.app_world) /\
  (model_writes (startup Stub.stub_settings Stub.app_world) <= 1)%nat /\
  (model (startup Stub.stub_settings Stub.app_world) = None
   <-> model_writes (startup Stub.stub_settings Stub.app_world) = 0%nat \/
       exists data,
         node_at (files Stub.app_world)
           (Config.get_model_path Stub.stub_settings)
         = Some (File data) /\
         joblib_load data = Ok None) /\
  (model_writes (startup Stub.stub_settings Stub.app_world) = 1%nat
   <-> exists data obj,
         node_at (files Stub.app_world)
           (Config.get_model_path Stub.stub_settings)
         = Some (File data) /\
         joblib_load data = Ok obj).
Proof.
  apply (model_written_once (L := Stub.stub) Stub.stub_settings Stub.app_world).
  apply reach_request, reach_startup.
Defined.

Lemma status_codes_witness :
  (exists detail,
     post_predict Stub.sample_negative Stub.degraded
     = (HTTPException 422 detail, Stub.degraded)) /\
  answer Stub.stub_settings (PostPredict Stub.sample) Stub.degraded = 503.
Proof.
  split.
  - apply (proj1 (status_codes Stub.stub_settings Stub.degraded)
             Stub.sample_negative); reflexivity.
  - apply (proj1 (proj2 (proj2 (status_codes Stub.stub_settings Stub.degraded)))).
    + reflexivity.
    + reflexivity.
Defined.

(** C4 as stated fails: with no model loaded, a body with a negative field
    is answered with 422, not 503, on both endpoints; and a body whose
    negative field is minus infinity is answered with a bare 500, not with
    422, because the 422 response would repeat that number and cannot be
    rendered. *)
Lemma unavailable_but_422 :
  model Stub.degraded = None /\
  answer Stub.stub_settings (PostPredict Stub.sample_negative) Stub.degraded
    = 422 /\
  answer Stub.stub_settings (PostPredictBatch [Stub.sample_negative])
    Stub.degraded = 422 /\
  malformed Stub.sample_neg_inf = true /\
  answer Stub.stub_settings (PostPredict Stub.sample_neg_inf) Stub.degraded
    = 500 /\
  answer Stub.stub_settings (PostPredictBatch [Stub.sample_neg_inf])
    Stub.degraded = 500.
Proof. repeat split. Qed.

Lemma empty_batch_is_500_witness :
  answer Stub.stub_settings (PostPredictBatch []) Stub.serving = 500.
Proof.
  apply (empty_batch_is_500 (L := Stub.stub) Stub.stub_settings Stub.serving
           Stub.fitted).
  - exact StubFacts.stub_validates_input.
  - reflexivity.
Defined.

End ServeFacts.
(** ** train.py *)

Module TrainFacts.

Import OsFacts.

Section WithLibrary.
Context {L : Library} (settings : Config.Settings).




Lemma for_each_files {A} (xs : list A) (body : A -> io (world blob) unit) :
  (forall x w, files (body x w).2 = files w) ->
  forall w, files (for_each xs body w).2 = files w.
Proof.
  intros Hbody. induction xs as [| x xs IH]; intros w; simpl; [reflexivity |].
  unfold Os.bind. specialize (Hbody x w).
  destruct (body x w) as [[[] | e] w']; simpl in *.
  - rewrite IH. exact Hbody.
  - exact Hbody.
Qed.

Lemma log_class_metrics_files (entry : string * pyval) (w : world blob) :
  files (Train.log_class_metrics entry w).2 = files w.
Proof.
  unfold Train.log_class_metrics.
  destruct entry.2; try reflexivity.
  unfold Os.bind, lift, logger_info, logger_call. simpl.
  repeat match goal with
         | |- context [match ?x with Ok _ => _ | Raise _ => _ end] =>
             destruct x; simpl
         end; reflexivity.
Qed.



(** What [save] and [save_metrics] leave behind when they return. *)
Lemma save_result (c : IrisClassifier forest) (p : path) (w w' : world blob) :
  Model.save c p w = (Ok tt, w') ->
  is_trained c = true /\
  (joblib_dump c).2 = None /\
  node_at (files w') p = Some (File (joblib_dump c).1).
Proof.
  unfold Model.save. destruct (is_trained c); [| discriminate]. cbn [negb].
  intros Hw. split; [reflexivity |].
  apply write_file_present in Hw as Hp. destruct Hp as [Hp _].
  split; [| exact Hp].
  unfold write_file in Hw.
  destruct (node_at (files w) (parent p)) as [[| d] |]; try discriminate.
  destruct (node_at (files w) p) as [[| d] |]; try discriminate;
    destruct (joblib_dump c).2; try discriminate; reflexivity.
Qed.

Lemma save_metrics_result (metrics : pyval) (p : path) (w w' : world blob) :
  Utils.save_metrics metrics p w = (Ok tt, w') ->
  node_at (files w') p
  = Some (File (json_dump (Utils.convert_numpy_to_python metrics)).1) /\
  forall q n,
    q <> p -> node_at (files w) q = Some n -> node_at (files w') q = Some n.
Proof.
  unfold Utils.save_metrics, Utils.ensure_dir, Os.bind, mkdir_parents, ret.
  destruct (mkdir_steps (files w) (prefixes (parent p))) as [[fs'' | e] fs']
    eqn:Hmk; [| discriminate].
  intros Hw. apply write_file_present in Hw as [Hp Hq]. split; [exact Hp |].
  intros q n Hne Hn. apply Hq; [exact Hne |]. simpl.
  pose proof (mkdir_steps_keeps (prefixes (parent p)) (files w) q n Hn) as Hk.
  rewrite Hmk in Hk. exact Hk.
Qed.

(** What the two files hold after [train_model] returned. *)
Lemma train_model_artifacts (w w' : world blob) :
  Train.train_model settings w = (Ok tt, w') ->
  exists c metrics,
    Train.fit_and_evaluate settings = Ok (c, metrics) /\
    is_trained c = true /\
    node_at (files w') (Train.metrics_path settings)
    = Some (File (json_dump (Utils.convert_numpy_to_python metrics)).1) /\
    (Config.get_model_path settings <> Train.metrics_path settings ->
     node_at (files w') (Config.get_model_path settings)
     = Some (File (joblib_dump c).1) /\
     (joblib_dump c).2 = None).
Proof.
  unfold Train.fit_and_evaluate, Train.train_model, Train.metrics_path.
  unfold Os.bind, lift, logger_info, logger_call. simpl.
  destruct (Model.load_data settings _)
    as [[[[X_train X_test] y_train] y_test] | e]; simpl; [| discriminate].
  destruct (len X_train); simpl; [| discriminate].
  destruct (len X_test); simpl; [| discriminate].
  destruct (Model.train _ X_train y_train) as [c | e]; simpl;
    [| discriminate].
  destruct (Model.evaluate c X_test y_test) as [metrics | e]; simpl;
    [| discriminate].
  destruct (Py.bind (subscript metrics "accuracy") _); simpl; [| discriminate].
  destruct (Py.bind (subscript metrics "classification_report") _)
    as [report | e]; simpl; [| discriminate].
  destruct (for_each report _ _) as [[[] | e] w1]; [| discriminate].
  destruct (Utils.ensure_dir _ w1) as [[dir | e] w2]; [| discriminate].
  destruct (Model.save c _ _) as [[[] | e] w3] eqn:Hsave; [| discriminate].
  destruct (Utils.save_metrics metrics _ _) as [[[] | e] w4] eqn:Hmetrics;
    [| discriminate].
  intros [= <-]. simpl.
  exists c, metrics. split; [reflexivity |].
  apply save_result in Hsave as (Hc & Hdump & Hmodel).
  apply save_metrics_result in Hmetrics as [Hfile Hothers].
  cbn [files] in Hothers.
  split; [exact Hc |]. split; [exact Hfile |].
  intros Hne. split; [| exact Hdump].
  apply Hothers; [exact Hne | exact Hmodel].
Qed.


End WithLibrary.



End TrainFacts.

(** ** The scenarios of the test-suite, run on the stand-in *)

Module Scenarios.

Import Stub.

(** test_utils.py, [test_format_prediction_response] *)
Example format_setosa (p0 p1 p2 : float) :
  exists r,
    Utils.format_prediction_response 0 [p0; p1; p2] Model.CLASS_NAMES = Ok r /\
    Utils.prediction r = "setosa" /\
    Utils.prediction_index r = 0 /\
    Utils.confidence r = p0 /\
    size (Utils.probabilities r) = 3%nat /\
    Utils.probabilities r !! "setosa" = Some p0.
Proof. eexists. repeat split. Qed.

(** An index outside the class list is an [IndexError]; [-1] is the last
    class, as Python counts from the end. *)
Example format_out_of_range (p0 p1 p2 : float) :
  is_ok (Utils.format_prediction_response 3 [p0; p1; p2] Model.CLASS_NAMES)
    = false /\
  exists r,
    Utils.format_prediction_response (-1) [p0; p1; p2] Model.CLASS_NAMES = Ok r /\
    Utils.prediction r = "virginica" /\
    Utils.confidence r = p2.
Proof. split; [reflexivity |]. eexists. repeat split. Qed.

(** test_utils.py, [test_convert_numpy_to_python] *)
Example convert_metrics :
  Utils.convert_numpy_to_python metrics_example
  = PyDict [("accuracy", PyFloat float_one);
            ("confusion_matrix",
             PyList [PyList [PyInt 10; PyInt 0]; PyList [PyInt 1; PyInt 9]]);
            ("nested", PyDict [("support", PyInt 5)])].
Proof. reflexivity. Qed.

(** test_model.py, [test_prediction_before_training] and
    [test_save_untrained_model] *)
Example predict_before_training (X : ndarray float) :
  Model.predict unfitted X
  = Raise (ValueError "Model must be trained before making predictions").
Proof. reflexivity. Qed.

Example save_untrained_model (p : path) :
  (Model.save unfitted p empty_world).1
  = Raise (ValueError "Cannot save an untrained model").
Proof. reflexivity. Qed.

(** test_api.py: the health endpoint without a model, the two invalid
    bodies, and a batch of two. *)
Example health_without_model :
  (Serve.get_health stub_settings degraded).1
  = Serve.Success
      {| Serve.status := "unhealthy";
         Serve.model_loaded := false;
         Serve.model_path := "/app/models/iris_model.joblib" |}.
Proof. reflexivity. Qed.

Example invalid_bodies (p : Serve.process) :
  Serve.answer stub_settings (Serve.PostPredict sample_missing) p = 422 /\
  Serve.answer stub_settings (Serve.PostPredict sample_negative) p = 422.
Proof. split; reflexivity. Qed.

(** A body that is rejected while one of the rejected inputs is NaN or an
    infinity: the 422 response cannot be rendered and the answer is a bare
    500, with or without a model. *)
Example non_finite_bodies (p : Serve.process) :
  Serve.post_predict sample_nan p
  = (Serve.HTTPException 500 "Internal Server Error", p) /\
  Serve.post_predict sample_neg_inf p
  = (Serve.HTTPException 500 "Internal Server Error", p) /\
  Serve.post_predict sample_inf_missing p
  = (Serve.HTTPException 500 "Internal Server Error", p) /\
  Serve.post_predict_batch [sample; sample_nan] p
  = (Serve.HTTPException 500 "Internal Server Error", p).
Proof. repeat split. Qed.

(** A model file that holds a pickled [None]: startup decodes it, assigns
    it and logs no error, and the server runs without a model. *)
Example pickled_none :
  Serve.model (Serve.startup stub_settings none_world) = None /\
  Serve.model_writes (Serve.startup stub_settings none_world) = 1%nat /\
  Forall (fun r => levelname r = "INFO")
    (log (Serve.env (Serve.startup stub_settings none_world))) /\
  Serve.answer stub_settings (Serve.PostPredict sample)
    (Serve.startup stub_settings none_world) = 503.
Proof. vm_compute. repeat split; repeat constructor. Qed.

Example batch_of_two :
  exists r1 r2,
    (Serve.post_predict_batch [sample; sample] serving).1
    = Serve.Success [r1; r2] /\
    Utils.prediction r1 = "setosa" /\
    Utils.prediction r2 = "setosa".
Proof. eexists. eexists. repeat split. Qed.

(** Training on a disk that has the application directory, then starting
    the server on what training left: the model is loaded, and the sample
    is answered with 200. *)
Example train_then_serve :
  (Train.main stub_settings app_world).1 = 0 /\
  Serve.model (Serve.startup stub_settings (Train.main stub_settings app_world).2)
  = Some fitted /\
  Serve.answer stub_settings (Serve.PostPredict sample)
    (Serve.startup stub_settings (Train.main stub_settings app_world).2) = 200.
Proof. vm_compute. repeat split. Qed.

End Scenarios.

(** * Part III: further properties of the code *)

(** ** Directories ([ensure_dir]) *)

Module EnsureDirFacts.

Import OsFacts.

Lemma prefixes_last (p : path) : p <> [] -> p ∈ prefixes p.
Proof.
  induction p as [| c p IH]; [congruence |]. intros _. simpl.
  destruct p as [| c' p].
  - apply list_elem_of_here.
  - apply list_elem_of_further. apply list_elem_of_fmap.
    exists (c' :: p). split; [reflexivity |]. apply IH. discriminate.
Qed.

Lemma prefixes_length (p q : path) :
  q ∈ prefixes p -> (0 < length q <= length p)%nat.
Proof.
  revert q. induction p as [| c p IH]; intros q; simpl.
  - intros H. inversion H.
  - rewrite elem_of_cons. intros [-> | H].
    + simpl. lia.
    + apply list_elem_of_fmap in H as (q' & -> & Hq').
      specialize (IH q' Hq'). simpl. lia.
Qed.

(** A step leaves a directory at the path it was asked for. *)
Lemma mkdir_step_dir {B} (fs fs' : gmap path (node B)) (p : path)
    (ancestor : bool) :
  mkdir_step fs p ancestor = Ok fs' -> node_at fs' p = Some Dir.
Proof.
  unfold mkdir_step. destruct (node_at fs p) as [[| d] |] eqn:Hp.
  - intros [= <-]. exact Hp.
  - discriminate.
  - intros [= <-]. apply node_at_insert. rewrite Hp. discriminate.
Qed.

(** A step changes nothing at the other paths. *)
Lemma mkdir_step_other {B} (fs fs' : gmap path (node B)) (p q : path)
    (ancestor : bool) :
  mkdir_step fs p ancestor = Ok fs' -> q <> p -> node_at fs' q = node_at fs q.
Proof.
  unfold mkdir_step. destruct (node_at fs p) as [[| d] |].
  - intros [= <-] _. reflexivity.
  - discriminate.
  - intros [= <-] Hq. apply node_at_insert_ne. congruence.
Qed.

Lemma mkdir_steps_result {B} (ps : list path) (fs fs1 fs2 : gmap path (node B)) :
  mkdir_steps fs ps = (Ok fs1, fs2) ->
  fs1 = fs2 /\ forall q, q ∈ ps -> node_at fs2 q = Some Dir.
Proof.
  revert fs. induction ps as [| p ps IH]; intros fs; simpl.
  - intros [= <- <-]. split; [reflexivity |]. intros q H. inversion H.
  - destruct (mkdir_step fs p _) as [fs' | e] eqn:Hstep; [| discriminate].
    intros Hrest. destruct (IH fs' Hrest) as [Heq Hdirs].
    split; [exact Heq |]. intros q. rewrite elem_of_cons. intros [-> | Hq].
    + pose proof (mkdir_steps_keeps ps fs' p Dir (mkdir_step_dir _ _ _ _ Hstep))
        as Hkeep.
      rewrite Hrest in Hkeep. exact Hkeep.
    + apply Hdirs, Hq.
Qed.

Lemma mkdir_steps_other {B} (ps : list path) (fs : gmap path (node B)) (q : path) :
  q ∉ ps -> node_at (mkdir_steps fs ps).2 q = node_at fs q.
Proof.
  revert fs. induction ps as [| p ps IH]; intros fs Hq; simpl; [reflexivity |].
  apply not_elem_of_cons in Hq as [Hqp Hq].
  destruct (mkdir_step fs p _) as [fs' | e] eqn:Hstep; simpl; [| reflexivity].
  rewrite (IH fs' Hq). apply (mkdir_step_other _ _ _ _ _ Hstep Hqp).
Qed.

Lemma mkdir_steps_ok_iff {B} (ps : list path) (fs : gmap path (node B)) :
  is_ok (mkdir_steps fs ps).1 = true
  <-> forall q d, q ∈ ps -> node_at fs q <> Some (File d).
Proof.
  revert fs. induction ps as [| p ps IH]; intros fs; simpl.
  - split; [| reflexivity]. intros _ q d H. inversion H.
  - destruct (mkdir_step fs p _) as [fs' | e] eqn:Hstep.
    + rewrite IH. split.
      * intros Hrest q d. rewrite elem_of_cons. intros [-> | Hq] Hfile.
        -- unfold mkdir_step in Hstep. rewrite Hfile in Hstep. discriminate.
        -- destruct (decide (q = p)) as [-> | Hne].
           ++ unfold mkdir_step in Hstep. rewrite Hfile in Hstep. discriminate.
           ++ apply (Hrest q d Hq).
              rewrite (mkdir_step_other _ _ _ _ _ Hstep Hne). exact Hfile.
      * intros Hall q d Hq Hfile.
        destruct (decide (q = p)) as [-> | Hne].
        -- rewrite (mkdir_step_dir _ _ _ _ Hstep) in Hfile. discriminate.
        -- rewrite (mkdir_step_other _ _ _ _ _ Hstep Hne) in Hfile.
           apply (Hall q d); [apply list_elem_of_further, Hq | exact Hfile].
    + simpl. split; [discriminate |]. intros Hall. exfalso.
      unfold mkdir_step in Hstep.
      destruct (node_at fs p) as [[| d] |] eqn:Hp; try discriminate.
      apply (Hall p d); [apply list_elem_of_here | exact Hp].
Qed.

Lemma mkdir_steps_dirs {B} (ps : list path) (fs : gmap path (node B)) :
  (forall q, q ∈ ps -> node_at fs q = Some Dir) ->
  mkdir_steps fs ps = (Ok fs, fs).
Proof.
  induction ps as [| p ps IH]; intros Hdirs; simpl; [reflexivity |].
  unfold mkdir_step. rewrite (Hdirs p (list_elem_of_here _ _)).
  apply IH. intros q Hq. apply Hdirs, list_elem_of_further, Hq.
Qed.

Section WithLibrary.
Context {L : Library}.

(** X1.  When [ensure_dir] returns, it returns the path it was given; that path
    and each of its ancestors is a directory; every file and directory that
    was there before is still there; and the log is untouched. *)
Theorem ensure_dir_makes_directories (p r : path) (w w' : world blob) :
  Utils.ensure_dir p w = (Ok r, w') ->
  r = p /\
  node_at (files w') p = Some Dir /\
  (forall q, q ∈ prefixes p -> node_at (files w') q = Some Dir) /\
  (forall q n, node_at (files w) q = Some n -> node_at (files w') q = Some n) /\
  log w' = log w.
Proof.
  unfold Utils.ensure_dir, Os.bind, mkdir_parents, ret.
  destruct (mkdir_steps (files w) (prefixes p)) as [[fs1 | e] fs2] eqn:Hsteps;
    [| discriminate].
  intros [= <- <-]. simpl.
  destruct (mkdir_steps_result _ _ _ _ Hsteps) as [_ Hdirs].
  split; [reflexivity |]. split; [| split; [exact Hdirs | split; [| reflexivity]]].
  - destruct p as [| c p]; [reflexivity |].
    apply Hdirs, prefixes_last. discriminate.
  - intros q n Hq.
    pose proof (mkdir_steps_keeps (prefixes p) (files w) q n Hq) as Hkeep.
    rewrite Hsteps in Hkeep. exact Hkeep.
Qed.

(** X2.  [ensure_dir] fails exactly when a file stands at the path or at one of
    its ancestors; and whether it fails or not, nothing that was on the disk
    is changed or removed. *)
Theorem ensure_dir_fails_on_file (p : path) (w : world blob) :
  (is_ok (Utils.ensure_dir p w).1 = true
   <-> forall q d, q ∈ prefixes p -> node_at (files w) q <> Some (File d)) /\
  (forall q n,
     node_at (files w) q = Some n ->
     node_at (files (Utils.ensure_dir p w).2) q = Some n).
Proof.
  unfold Utils.ensure_dir, Os.bind, mkdir_parents, ret. split.
  - rewrite <- mkdir_steps_ok_iff.
    destruct (mkdir_steps (files w) (prefixes p)) as [[fs1 | e] fs2];
      simpl; tauto.
  - intros q n Hq.
    pose proof (mkdir_steps_keeps (prefixes p) (files w) q n Hq) as Hkeep.
    destruct (mkdir_steps (files w) (prefixes p)) as [[fs1 | e] fs2];
      simpl in *; exact Hkeep.
Qed.

(** X3.  [ensure_dir] is idempotent: after a call that returned, a second call
    returns as well and changes nothing. *)
Theorem ensure_dir_idempotent (p r : path) (w w' : world blob) :
  Utils.ensure_dir p w = (Ok r, w') ->
  Utils.ensure_dir p w' = (Ok p, w').
Proof.
  unfold Utils.ensure_dir, Os.bind, mkdir_parents, ret.
  destruct (mkdir_steps (files w) (prefixes p)) as [[fs1 | e] fs2] eqn:Hsteps;
    [| discriminate].
  intros [= <- <-]. simpl.
  destruct (mkdir_steps_result _ _ _ _ Hsteps) as [_ Hdirs].
  rewrite (mkdir_steps_dirs _ _ Hdirs). reflexivity.
Qed.

End WithLibrary.

Lemma ensure_dir_makes_directories_witness :
  ["/"; "app"; "models"] = ["/"; "app"; "models"] /\
  node_at (files (Utils.ensure_dir ["/"; "app"; "models"] Stub.empty_world).2)
    ["/"; "app"; "models"] = Some Dir /\
  (forall q,
     q ∈ prefixes ["/"; "app"; "models"] ->
     node_at (files (Utils.ensure_dir ["/"; "app"; "models"] Stub.empty_world).2) q
     = Some Dir) /\
  (forall q n,
     node_at (files Stub.empty_world) q = Some n ->
     node_at (files (Utils.ensure_dir ["/"; "app"; "models"] Stub.empty_world).2) q
     = Some n) /\
  log (Utils.ensure_dir ["/"; "app"; "models"] Stub.empty_world).2
  = log Stub.empty_world.
Proof.
  apply (ensure_dir_makes_directories (L := Stub.stub) ["/"; "app"; "models"]
           ["/"; "app"; "models"] Stub.empty_world).
  vm_compute. reflexivity.
Defined.

Lemma ensure_dir_idempotent_witness :
  Utils.ensure_dir ["/"; "app"; "models"]
    (Utils.ensure_dir ["/"; "app"; "models"] Stub.empty_world).2
  = (Ok ["/"; "app"; "models"],
     (Utils.ensure_dir ["/"; "app"; "models"] Stub.empty_world).2).
Proof.
  apply (ensure_dir_idempotent (L := Stub.stub) ["/"; "app"; "models"]
           ["/"; "app"; "models"] Stub.empty_world).
  vm_compute. reflexivity.
Defined.

End EnsureDirFacts.

(** ** Conversion and metrics files ([utils.py]) *)

Module MetricsFacts.

Import OsFacts EnsureDirFacts.

Lemma tolist_item_native (a : ndarray npscalar) :
  Utils.json_native (tolist item a) = true.
Proof.
  induction a as [x | subs IH] using ValueFacts.ndarray_ind.
  - destruct x; reflexivity.
  - simpl. rewrite forallb_forall. intros v Hv.
    apply in_map_iff in Hv as (sub & <- & Hsub).
    rewrite Forall_forall in IH. apply IH, list_elem_of_In, Hsub.
Qed.

Lemma convert_native (v : pyval) :
  Utils.convertible v = true ->
  Utils.json_native (Utils.convert_numpy_to_python v) = true.
Proof.
  induction v as [v Hleaf | items IH | items IH] using ValueFacts.pyval_ind;
    intros Hv.
  - destruct v as [| b | z | f | s | x | a | a | items | items | items | f | a];
      try reflexivity; try discriminate; try contradiction.
    + destruct x; try reflexivity; discriminate.
    + apply tolist_item_native.
  - simpl in *. rewrite forallb_forall in *. intros v Hin.
    apply in_map_iff in Hin as (x & <- & Hx).
    rewrite Forall_forall in IH. apply IH; [apply list_elem_of_In, Hx |].
    apply Hv, Hx.
  - simpl in *. rewrite forallb_forall in *. intros kv Hin.
    apply in_map_iff in Hin as ([k x] & <- & Hx). simpl.
    rewrite Forall_forall in IH. apply (IH (k, x)); [apply list_elem_of_In, Hx |].
    apply (Hv (k, x)), Hx.
Qed.

Lemma convert_native_fixed (v : pyval) :
  Utils.json_native v = true -> Utils.convert_numpy_to_python v = v.
Proof.
  induction v as [v Hleaf | items IH | items IH] using ValueFacts.pyval_ind;
    intros Hv.
  - destruct v; try reflexivity; try discriminate; contradiction.
  - simpl in *. f_equal. rewrite <- (map_id items) at 2. apply map_ext_in.
    intros x Hx. rewrite Forall_forall in IH. apply IH.
    + apply list_elem_of_In, Hx.
    + rewrite forallb_forall in Hv. apply Hv, Hx.
  - simpl in *. f_equal. rewrite <- (map_id items) at 2. apply map_ext_in.
    intros [k x] Hx. simpl. f_equal. rewrite Forall_forall in IH.
    apply (IH (k, x)).
    + apply list_elem_of_In, Hx.
    + rewrite forallb_forall in Hv. apply (Hv (k, x)), Hx.
Qed.

(** X4.  On a value built from Python's own scalars, instances of
    [np.integer] and [np.floating], arrays of an integer, boolean or
    floating dtype other than [longdouble], lists and dicts
    ([convertible]), the conversion leaves no numpy value behind: the
    result is made of native scalars, lists and dicts only.  A value that
    is native already is returned as it is.
    Outside that domain the result need not be native: an [np.bool_] scalar
    and a tuple are returned as they are, and the elements of an array of
    dtype [longdouble] stay numpy scalars. *)
Theorem convert_result_native :
  (forall v,
     Utils.convertible v = true ->
     Utils.json_native (Utils.convert_numpy_to_python v) = true) /\
  (forall v,
     Utils.json_native v = true -> Utils.convert_numpy_to_python v = v) /\
  (forall b,
     Utils.convert_numpy_to_python (NpScalar (NpBool b)) = NpScalar (NpBool b)) /\
  (forall items,
     Utils.convert_numpy_to_python (PyTuple items) = PyTuple items) /\
  (forall x rest,
     exists converted,
       Utils.convert_numpy_to_python (NpLongDoubleArray (Axis (Item x :: rest)))
       = PyList (NpLongDouble x :: converted)).
Proof.
  split; [exact convert_native |].
  split; [exact convert_native_fixed |].
  split; [reflexivity |].
  split; [reflexivity |].
  intros x rest. eexists. reflexivity.
Qed.

Lemma removelast_length {A} (l : list A) :
  length (removelast l) = Nat.pred (length l).
Proof.
  induction l as [| x [| y l] IH]; try reflexivity.
  change (S (length (removelast (y :: l))) = Nat.pred (length (x :: y :: l))).
  rewrite IH. reflexivity.
Qed.

Lemma parent_shorter (p : path) :
  p <> [] -> p <> ["/"] -> (length (parent p) < length p)%nat.
Proof.
  destruct p as [| c [| c' p]]; try congruence.
  - intros _ Hroot. simpl. destruct (String.eqb_spec c "/") as [-> | _].
    + congruence.
    + simpl. lia.
  - intros _ _. unfold parent.
    rewrite removelast_length. simpl. lia.
Qed.

Lemma node_at_not_dir {B} (fs : gmap path (node B)) (p : path) :
  node_at fs p <> Some Dir -> p <> [] /\ p <> ["/"].
Proof.
  intros Hp. split; intros ->; apply Hp; reflexivity.
Qed.

Section WithLibrary.
Context {L : Library}.

(** X5.  [save_metrics] makes the directories it needs: it returns whenever no
    file stands in the place of the target's directory or of an ancestor,
    no directory stands at the target, and the dump does not raise; the
    target then holds the dump of the converted metrics, and what was on the
    disk elsewhere is still there. *)
Theorem save_metrics_makes_its_directory (metrics : pyval) (p : path)
    (w : world blob) :
  (forall q d, q ∈ prefixes (parent p) -> node_at (files w) q <> Some (File d)) ->
  node_at (files w) p <> Some Dir ->
  (json_dump (Utils.convert_numpy_to_python metrics)).2 = None ->
  exists w',
    Utils.save_metrics metrics p w = (Ok tt, w') /\
    node_at (files w') p
    = Some (File (json_dump (Utils.convert_numpy_to_python metrics)).1) /\
    node_at (files w') (parent p) = Some Dir /\
    (forall q n,
       q <> p -> node_at (files w) q = Some n -> node_at (files w') q = Some n) /\
    log w' = log w.
Proof.
  intros Hfree Hp Hdump.
  destruct (node_at_not_dir _ _ Hp) as [Hne Hroot].
  unfold Utils.save_metrics, Utils.ensure_dir, Os.bind, mkdir_parents, ret.
  pose proof (proj2 (mkdir_steps_ok_iff (prefixes (parent p)) (files w)) Hfree)
    as Hok.
  destruct (mkdir_steps (files w) (prefixes (parent p)))
    as [[fs1 | e] fs2] eqn:Hsteps; [| discriminate]. clear Hok.
  destruct (mkdir_steps_result _ _ _ _ Hsteps) as [_ Hdirs].
  assert (Hparent : node_at fs2 (parent p) = Some Dir).
  { clear Hsteps. destruct (parent p) as [| c q]; [reflexivity |].
    apply Hdirs, prefixes_last. discriminate. }
  assert (Htarget : node_at fs2 p = node_at (files w) p).
  { pose proof (mkdir_steps_other (prefixes (parent p)) (files w) p) as Hother.
    rewrite Hsteps in Hother. apply Hother. intros Hin.
    apply prefixes_length in Hin.
    pose proof (parent_shorter p Hne Hroot). lia. }
  unfold write_file. cbn [files log]. rewrite Hparent, Htarget, Hdump.
  assert (Hkeep : forall q n,
             node_at (files w) q = Some n -> node_at fs2 q = Some n).
  { intros q n Hq.
    pose proof (mkdir_steps_keeps (prefixes (parent p)) (files w) q n Hq) as Hk.
    rewrite Hsteps in Hk. exact Hk. }
  destruct (node_at (files w) p) as [[| d] |] eqn:Hnode;
    [contradiction Hp; reflexivity | |];
    (eexists; split; [reflexivity |]; simpl;
     split; [apply node_at_insert; rewrite Htarget; discriminate |];
     split; [rewrite node_at_insert_ne; [exact Hparent |];
             intros Heq; rewrite <- Heq in Hparent;
             rewrite Hparent in Htarget; discriminate |];
     split; [| reflexivity];
     intros q n Hqp Hq; rewrite node_at_insert_ne; [apply Hkeep, Hq | congruence]).
Qed.

Context (json_load : blob -> result pyval).

(** X6.  Round trip, for metrics built from Python's own scalars, instances
    of [np.integer] and [np.floating], arrays of an integer, boolean or
    floating dtype other than [longdouble], lists and dicts
    ([convertible]: no tuple, no [np.bool_] scalar, no array of dtype
    [object] or [longdouble]): when
    [save_metrics] returned, [load_metrics] of the same path returns the
    converted metrics and changes nothing.  json is assumed to read back a
    native value as it was dumped ([json_faithful]). *)
Theorem save_then_load_metrics (metrics : pyval) (p : path) (w w' : world blob) :
  Utils.json_faithful json_load ->
  Utils.convertible metrics = true ->
  Utils.save_metrics metrics p w = (Ok tt, w') ->
  Utils.load_metrics json_load p w'
  = (Ok (Utils.convert_numpy_to_python metrics), w').
Proof.
  intros Hjson Hconv.
  unfold Utils.save_metrics, Utils.ensure_dir, Os.bind, mkdir_parents, ret.
  destruct (mkdir_steps (files w) (prefixes (parent p)))
    as [[fs1 | e] fs2]; [| discriminate].
  intros Hwrite. apply write_file_ok in Hwrite as Hcontent.
  destruct Hcontent as [Hp Hfiles]. simpl in Hp, Hfiles.
  unfold Utils.load_metrics, Os.bind, read_file, lift.
  rewrite Hfiles, (node_at_insert _ _ _ Hp).
  rewrite (Hjson (Utils.convert_numpy_to_python metrics)
             (json_dump (Utils.convert_numpy_to_python metrics)).1).
  - reflexivity.
  - apply convert_native, Hconv.
  - unfold write_file in Hwrite. simpl in Hwrite.
    destruct (node_at fs2 (parent p)) as [[| d] |]; try discriminate.
    destruct (json_dump (Utils.convert_numpy_to_python metrics)) as [data o].
    simpl in *. destruct (node_at fs2 p) as [[| d] |]; try discriminate;
      destruct o; try discriminate; reflexivity.
Qed.

End WithLibrary.

Lemma stub_json_faithful :
  Utils.json_faithful (L := Stub.stub) Stub.stub_json_load.
Proof. intros v data _. simpl. intros [= <-]. reflexivity. Qed.

Lemma save_metrics_makes_its_directory_witness :
  exists w',
    Utils.save_metrics Stub.metrics_example
      ["/"; "app"; "models"; "metrics.json"] Stub.empty_world = (Ok tt, w') /\
    node_at (files w') ["/"; "app"; "models"; "metrics.json"]
    = Some (File (json_dump
                    (Utils.convert_numpy_to_python Stub.metrics_example)).1) /\
    node_at (files w') (parent ["/"; "app"; "models"; "metrics.json"])
    = Some Dir /\
    (forall q n,
       q <> ["/"; "app"; "models"; "metrics.json"] ->
       node_at (files Stub.empty_world) q = Some n ->
       node_at (files w') q = Some n) /\
    log w' = log Stub.empty_world.
Proof.
  apply (save_metrics_makes_its_directory (L := Stub.stub) Stub.metrics_example
           ["/"; "app"; "models"; "metrics.json"] Stub.empty_world).
  - intros q d Hq. simpl in Hq. rewrite !elem_of_cons in Hq.
    destruct Hq as [-> | [-> | [-> | Hq]]]; [| | | inversion Hq];
      vm_compute; discriminate.
  - vm_compute. discriminate.
  - reflexivity.
Defined.

Lemma save_then_load_metrics_witness :
  Utils.load_metrics Stub.stub_json_load ["/"; "app"; "models"; "metrics.json"]
    (Utils.save_metrics Stub.metrics_example
       ["/"; "app"; "models"; "metrics.json"] Stub.empty_world).2
  = (Ok (Utils.convert_numpy_to_python Stub.metrics_example),
     (Utils.save_metrics Stub.metrics_example
        ["/"; "app"; "models"; "metrics.json"] Stub.empty_world).2).
Proof.
  apply (save_then_load_metrics (L := Stub.stub) Stub.stub_json_load
           Stub.metrics_example ["/"; "app"; "models"; "metrics.json"]
           Stub.empty_world).
  - exact stub_json_faithful.
  - reflexivity.
  - vm_compute. reflexivity.
Defined.

End MetricsFacts.

(** ** The response formatter on arbitrary arguments *)

Module FormatFacts.

Import Utils.

Lemma getitem_ok_iff {A} (l : list A) (i : Z) :
  is_ok (getitem l i) = true
  <-> - Z.of_nat (length l) <= i < Z.of_nat (length l).
Proof.
  unfold getitem.
  destruct (Z.ltb_spec i 0) as [Hneg | Hpos];
    (match goal with
     | |- context [(0 <=? ?j) && (?j <? ?n)] =>
         destruct (Z.leb_spec 0 j); destruct (Z.ltb_spec j n); simpl;
         try (split; [discriminate | lia])
     end;
     match goal with
     | |- context [l !! ?k] =>
         destruct (l !! k) eqn:Hk; simpl;
         [split; [lia | reflexivity] | apply lookup_ge_None in Hk; lia]
     end).
Qed.

Lemma getitem_value {A} (l : list A) (i : Z) (x : A) :
  getitem l i = Ok x ->
  l !! Z.to_nat (if i <? 0 then i + Z.of_nat (length l) else i) = Some x.
Proof.
  unfold getitem.
  destruct ((0 <=? _) && _); [| discriminate].
  destruct (l !! _) eqn:Hk; [| discriminate].
  intros [= <-]. reflexivity.
Qed.

Lemma dict_fold_other {V} (pairs : list (string * V)) (acc : gmap string V)
    (k : string) :
  k ∉ pairs.*1 ->
  fold_left (fun d kv => <[kv.1 := kv.2]> d) pairs acc !! k = acc !! k.
Proof.
  revert acc. induction pairs as [| [k0 v0] pairs IH]; intros acc Hk; simpl;
    [reflexivity |].
  simpl in Hk. apply not_elem_of_cons in Hk as [Hne Hk].
  rewrite (IH _ Hk). apply lookup_insert_ne. congruence.
Qed.

Lemma dict_fold_dom {V} (pairs : list (string * V)) (acc : gmap string V) :
  dom (fold_left (fun d kv => <[kv.1 := kv.2]> d) pairs acc)
  = list_to_set pairs.*1 ∪ dom acc.
Proof.
  revert acc. induction pairs as [| [k0 v0] pairs IH]; intros acc; simpl.
  - symmetry. apply (left_id_L ∅ (∪)).
  - rewrite IH, dom_insert_L.
    rewrite (assoc_L (∪)). f_equal. apply (comm_L (∪)).
Qed.

Lemma zip_keys {A B} (xs : list A) (ys : list B) :
  (zip xs ys).*1 = take (length ys) xs.
Proof.
  revert ys. induction xs as [| x xs IH]; intros [| y ys]; simpl;
    try reflexivity.
  f_equal. apply IH.
Qed.

Lemma dict_fold_lookup {V} (names : list string) (p : list V)
    (acc : gmap string V) (j : nat) (name : string) (x : V) :
  NoDup names -> names !! j = Some name -> p !! j = Some x ->
  fold_left (fun d kv => <[kv.1 := kv.2]> d) (zip names p) acc !! name = Some x.
Proof.
  revert p acc j. induction names as [| n0 names IH]; intros p acc j Hnodup;
    [intros H; rewrite lookup_nil in H; discriminate |].
  apply NoDup_cons in Hnodup as [Hfresh Hnodup].
  destruct p as [| x0 p]; [intros _ H; rewrite lookup_nil in H; discriminate |].
  destruct j as [| j]; simpl.
  - intros [= <-] [= <-]. rewrite dict_fold_other.
    + apply lookup_insert_eq.
    + rewrite zip_keys. intros Hin. apply Hfresh.
      apply (subseteq_take (length p) names), Hin.
  - intros Hname Hx. apply (IH p _ j Hnodup Hname Hx).
Qed.


(** X8.  The [probabilities] of a response have one key for each class name that
    has a probability at its position, the list being cut at the length of
    the vector; and when the class names are distinct, each such name is
    mapped to the probability at its position. *)
Theorem format_prediction_response_dict (i : Z) (p : list float)
    (names : list string) (r : PredictionResult) :
  format_prediction_response i p names = Ok r ->
  dom (probabilities r) = list_to_set (take (length p) names) /\
  (NoDup names ->
   forall j name x,
     names !! j = Some name -> p !! j = Some x ->
     probabilities r !! name = Some x).
Proof.
  unfold format_prediction_response.
  destruct (getitem names i) as [name |]; [| discriminate].
  destruct (getitem p i) as [conf |]; [| discriminate].
  simpl. intros [= <-]. simpl. unfold dict_of. split.
  - rewrite dict_fold_dom, zip_keys, dom_empty_L. apply (right_id_L ∅ (∪)).
  - intros Hnodup j nm x Hnm Hx. apply (dict_fold_lookup _ _ _ j); assumption.
Qed.

Lemma format_prediction_response_dict_witness :
  dom (probabilities
         (mkPredictionResult "setosa" 0 float_one
            (dict_of (zip Model.CLASS_NAMES [float_one; float_zero; float_zero]))))
  = list_to_set (take (length [float_one; float_zero; float_zero])
                   Model.CLASS_NAMES) /\
  (NoDup Model.CLASS_NAMES ->
   forall j name x,
     Model.CLASS_NAMES !! j = Some name ->
     [float_one; float_zero; float_zero] !! j = Some x ->
     probabilities
       (mkPredictionResult "setosa" 0 float_one
          (dict_of (zip Model.CLASS_NAMES [float_one; float_zero; float_zero])))
     !! name = Some x).
Proof.
  apply (format_prediction_response_dict 0 [float_one; float_zero; float_zero]
           Model.CLASS_NAMES).
  reflexivity.
Defined.

End FormatFacts.

(** ** What the writing operations leave alone *)

Module EffectFacts.

Import OsFacts.

Lemma write_file_others {B} (p : path) (dump : B * option exn) (w : world B)
    (q : path) (n : node B) :
  q <> p -> node_at (files w) q = Some n ->
  node_at (files (write_file p dump w).2) q = Some n.
Proof.
  intros Hq Hn. unfold write_file.
  destruct (node_at (files w) (parent p)) as [[| d] |]; try exact Hn.
  destruct (node_at (files w) p) as [[| d] |]; try exact Hn;
    destruct dump.2; simpl; (rewrite node_at_insert_ne; [exact Hn | congruence]).
Qed.

Lemma write_file_log {B} (p : path) (dump : B * option exn) (w : world B) :
  log (write_file p dump w).2 = log w.
Proof.
  unfold write_file.
  destruct (node_at (files w) (parent p)) as [[| d] |]; try reflexivity.
  destruct (node_at (files w) p) as [[| d] |]; try reflexivity;
    destruct dump.2; reflexivity.
Qed.

Section WithLibrary.
Context {L : Library}.

Lemma ensure_dir_keeps (p q : path) (n : node blob) (w : world blob) :
  node_at (files w) q = Some n ->
  node_at (files (Utils.ensure_dir p w).2) q = Some n.
Proof.
  intros Hq. unfold Utils.ensure_dir, Os.bind, mkdir_parents, ret.
  pose proof (mkdir_steps_keeps (prefixes p) (files w) q n Hq) as Hkeep.
  destruct (mkdir_steps (files w) (prefixes p)) as [[fs1 | e] fs2];
    simpl in *; exact Hkeep.
Qed.

Lemma ensure_dir_log (p : path) (w : world blob) :
  log (Utils.ensure_dir p w).2 = log w.
Proof.
  unfold Utils.ensure_dir, Os.bind, mkdir_parents, ret.
  destruct (mkdir_steps (files w) (prefixes p)) as [[fs1 | e] fs2]; reflexivity.
Qed.

Lemma save_others (c : IrisClassifier forest) (p q : path) (n : node blob)
    (w : world blob) :
  q <> p -> node_at (files w) q = Some n ->
  node_at (files (Model.save c p w).2) q = Some n.
Proof.
  intros Hq Hn. unfold Model.save.
  destruct (negb (is_trained c)); [exact Hn |].
  apply write_file_others; assumption.
Qed.

Lemma save_log (c : IrisClassifier forest) (p : path) (w : world blob) :
  log (Model.save c p w).2 = log w.
Proof.
  unfold Model.save. destruct (negb (is_trained c)); [reflexivity |].
  apply write_file_log.
Qed.

Lemma save_metrics_others (metrics : pyval) (p q : path) (n : node blob)
    (w : world blob) :
  q <> p -> node_at (files w) q = Some n ->
  node_at (files (Utils.save_metrics metrics p w).2) q = Some n.
Proof.
  intros Hq Hn. unfold Utils.save_metrics. unfold Os.bind at 1.
  pose proof (ensure_dir_keeps (parent p) q n w Hn) as Hkeep.
  destruct (Utils.ensure_dir (parent p) w) as [[r | e] w1]; simpl in *;
    [| exact Hkeep].
  apply write_file_others; assumption.
Qed.

Lemma save_metrics_log (metrics : pyval) (p : path) (w : world blob) :
  log (Utils.save_metrics metrics p w).2 = log w.
Proof.
  unfold Utils.save_metrics. unfold Os.bind at 1.
  pose proof (ensure_dir_log (parent p) w) as Hlog.
  destruct (Utils.ensure_dir (parent p) w) as [[r | e] w1]; simpl in *;
    [| exact Hlog].
  rewrite write_file_log. exact Hlog.
Qed.

End WithLibrary.

End EffectFacts.

(** ** The classifier ([model.py]) and the paths ([config.py]) *)

Module ClassifierFacts.

Import OsFacts EffectFacts.

Section WithLibrary.
Context {L : Library}.

(** X9.  [save] writes at its target and nowhere else, and never logs; when the
    classifier is untrained, when the target's directory is not there, or
    when a directory stands at the target, it raises and the disk is as it
    was. *)
Theorem save_touches_only_its_target (c : IrisClassifier forest) (p : path)
    (w : world blob) :
  log (Model.save c p w).2 = log w /\
  (forall q n,
     q <> p -> node_at (files w) q = Some n ->
     node_at (files (Model.save c p w).2) q = Some n) /\
  (is_trained c = false \/
   node_at (files w) (parent p) <> Some Dir \/
   node_at (files w) p = Some Dir ->
   is_ok (Model.save c p w).1 = false /\ (Model.save c p w).2 = w).
Proof.
  split; [apply save_log |].
  split; [intros q n; apply save_others |].
  unfold Model.save, write_file. intros Hcase.
  destruct (is_trained c); simpl.
  - destruct Hcase as [Hc | [Hparent | Hp]]; [discriminate | |].
    + destruct (node_at (files w) (parent p)) as [[| d] |];
        [contradiction Hparent; reflexivity | |]; split; reflexivity.
    + rewrite Hp.
      destruct (node_at (files w) (parent p)) as [[| d] |]; split; reflexivity.
  - split; reflexivity.
Qed.

(** X10.  [evaluate] on an untrained classifier raises the error of [predict],
    whatever the metrics functions would do.  When it returns, the result
    is a dict with the keys [accuracy], [confusion_matrix] and
    [classification_report], in this order, built from the prediction on
    the test features; its confusion matrix is native already, so the
    conversion of [save_metrics] leaves it as it is. *)
Theorem evaluate_result (c : IrisClassifier forest) (X_test : ndarray float)
    (y_test : list Z) :
  (is_trained c = false ->
   Model.evaluate c X_test y_test
   = Raise (ValueError "Model must be trained before making predictions")) /\
  (forall metrics,
     Model.evaluate c X_test y_test = Ok metrics ->
     is_trained c = true /\
     exists y_pred items matrix,
       Model.predict c X_test = Ok y_pred /\
       metrics = PyDict items /\
       map fst items = ["accuracy"; "confusion_matrix"; "classification_report"] /\
       subscript metrics "accuracy" = accuracy_score y_test y_pred /\
       subscript metrics "classification_report"
       = classification_report y_test y_pred Model.CLASS_NAMES /\
       subscript metrics "confusion_matrix" = Ok matrix /\
       Utils.json_native matrix = true /\
       Utils.convert_numpy_to_python matrix = matrix).
Proof.
  split.
  - intros Hc. unfold Model.evaluate, Model.predict. rewrite Hc. reflexivity.
  - intros metrics. unfold Model.evaluate.
    destruct (Model.predict c X_test) as [y_pred | e] eqn:Hpred; [| discriminate].
    simpl.
    destruct (accuracy_score y_test y_pred) as [acc | e] eqn:Hacc;
      [| discriminate].
    destruct (confusion_matrix y_test y_pred) as [cm | e]; [| discriminate].
    destruct (classification_report y_test y_pred Model.CLASS_NAMES)
      as [rep | e] eqn:Hrep; [| discriminate].
    simpl. intros [= <-]. split.
    + unfold Model.predict in Hpred. destruct (is_trained c); [reflexivity |].
      discriminate.
    + exists y_pred. eexists. exists (tolist item cm).
      split; [reflexivity |]. split; [reflexivity |]. split; [reflexivity |].
      rewrite Hacc, Hrep. repeat (split; [reflexivity |]).
      split; [apply MetricsFacts.tolist_item_native |].
      apply UtilsFacts.convert_tolist_item.
Qed.

End WithLibrary.

Lemma parent_snoc (q : path) (x : string) : x <> "/" -> parent (q ++ [x]) = q.
Proof.
  intros Hx. destruct q as [| r [| r' q]].
  - simpl. apply String.eqb_neq in Hx. rewrite Hx. reflexivity.
  - reflexivity.
  - exact (removelast_last (r :: r' :: q) x).
Qed.

(** X11.  With an absolute project root the model path is absolute, whether the
    configured path is relative or absolute; the metrics file is named
    [metrics.json] and lies in the directory of the model file. *)
Theorem model_and_metrics_paths (settings : Config.Settings) :
  (is_absolute (Config.project_root settings) = true ->
   is_absolute (Config.get_model_path settings) = true) /\
  parent (Train.metrics_path settings) = parent (Config.get_model_path settings) /\
  last (Train.metrics_path settings) = Some "metrics.json".
Proof.
  split; [| split].
  - unfold Config.get_model_path, joinpath.
    destruct (is_absolute (Config.model_path settings)) eqn:Habs;
      [intros _; exact Habs |].
    destruct (Config.project_root settings) as [| r root]; [discriminate |].
    intros Hroot. exact Hroot.
  - unfold Train.metrics_path, joinpath. simpl is_absolute. cbv iota.
    apply parent_snoc. discriminate.
  - unfold Train.metrics_path, joinpath. simpl is_absolute. cbv iota.
    apply last_snoc.
Qed.

Lemma model_and_metrics_paths_witness :
  is_absolute (Config.get_model_path Stub.stub_settings) = true.
Proof.
  apply (proj1 (model_and_metrics_paths Stub.stub_settings)). reflexivity.
Defined.

End ClassifierFacts.

(** ** The training run ([train.py]) *)

Module PipelineFacts.

Import OsFacts EffectFacts.

Section WithLibrary.
Context {L : Library} (settings : Config.Settings).

(** *** The log of a run *)

Lemma info_ret {A} (a : A) : logs_info_only (ret (S := world blob) a).
Proof. intros w. exists []. rewrite app_nil_r. split; [reflexivity | constructor]. Qed.

Lemma info_lift {A} (r : result A) : logs_info_only (lift (S := world blob) r).
Proof. intros w. exists []. rewrite app_nil_r. split; [reflexivity | constructor]. Qed.

Lemma info_logger_info (msg : string) (vals : list pyval) :
  logs_info_only (logger_info (B := blob) msg vals).
Proof.
  intros w. eexists. split; [reflexivity |]. repeat constructor.
Qed.

Lemma info_bind {A C} (m : io (world blob) A) (k : A -> io (world blob) C) :
  logs_info_only m -> (forall a, logs_info_only (k a)) ->
  logs_info_only (Os.bind m k).
Proof.
  intros Hm Hk w. unfold Os.bind. destruct (Hm w) as (es & Hlog & Hes).
  destruct (m w) as [[a | e] w1]; simpl in *.
  - destruct (Hk a w1) as (es' & Hlog' & Hes').
    exists (es ++ es')%list. rewrite Hlog', Hlog, app_assoc.
    split; [reflexivity | apply Forall_app; split; assumption].
  - exists es. split; assumption.
Qed.

Lemma info_for_each {A} (xs : list A) (body : A -> io (world blob) unit) :
  (forall x, logs_info_only (body x)) -> logs_info_only (for_each xs body).
Proof.
  intros Hbody. induction xs as [| x xs IH]; simpl.
  - apply info_ret.
  - apply info_bind; [apply Hbody | intros _; exact IH].
Qed.

Lemma info_silent {A} (m : io (world blob) A) :
  (forall w, log (m w).2 = log w) -> logs_info_only m.
Proof.
  intros Hm w. exists []. rewrite app_nil_r. split; [apply Hm | constructor].
Qed.

Lemma info_ensure_dir (p : path) : logs_info_only (Utils.ensure_dir p).
Proof. apply info_silent. intros w. apply ensure_dir_log. Qed.

Lemma info_save (c : IrisClassifier forest) (p : path) :
  logs_info_only (Model.save c p).
Proof. apply info_silent. intros w. apply save_log. Qed.

Lemma info_save_metrics (metrics : pyval) (p : path) :
  logs_info_only (Utils.save_metrics metrics p).
Proof. apply info_silent. intros w. apply save_metrics_log. Qed.

Create HintDb info.
#[local] Hint Resolve info_ret info_lift info_logger_info info_ensure_dir
  info_save info_save_metrics : info.
#[local] Hint Resolve info_bind info_for_each : info.
#[local] Hint Extern 2 (logs_info_only (match ?x with _ => _ end)) =>
  destruct x : info.
#[local] Hint Extern 3 (forall _, logs_info_only _) => intro : info.

Lemma info_log_class_metrics (entry : string * pyval) :
  logs_info_only (Train.log_class_metrics entry).
Proof. unfold Train.log_class_metrics. eauto 30 with info. Qed.

Lemma info_train_model : logs_info_only (Train.train_model settings).
Proof.
  unfold Train.train_model.
  repeat first
    [ apply info_logger_info
    | apply info_lift
    | apply info_ensure_dir
    | apply info_save
    | apply info_save_metrics
    | apply info_for_each; intro; apply info_log_class_metrics
    | apply info_bind; [| intro]
    | match goal with
      | |- logs_info_only (let '(_, _) := ?x in _) => destruct x
      end ].
Qed.

(** X12.  The log of a run.  [main] only adds to the log.  On exit status 0 every
    record it added has level INFO; on exit status 1 the records it added
    are INFO records followed by exactly one ERROR record, the last, which
    carries the text of the exception that ended [train_model]. *)
Theorem main_logs_failure_last (w : world blob) :
  exists entries,
    log (Train.main settings w).2 = (log w ++ entries)%list /\
    ((Train.main settings w).1 = 0 ->
     Forall (fun r => levelname r = "INFO") entries) /\
    ((Train.main settings w).1 = 1 ->
     exists e before,
       (Train.train_model settings w).1 = Raise e /\
       entries
       = (before ++ [mkLog "ERROR" "Training failed: {}" [PyStr (exn_str e)]])%list /\
       Forall (fun r => levelname r = "INFO") before).
Proof.
  unfold Train.main. destruct (info_train_model w) as (es & Hlog & Hes).
  destruct (Train.train_model settings w) as [[[] | e] w1]; simpl in *.
  - exists es. split; [exact Hlog |]. split; [intros _; exact Hes | discriminate].
  - exists (es ++ [mkLog "ERROR" "Training failed: {}" [PyStr (exn_str e)]])%list.
    rewrite Hlog, app_assoc. split; [reflexivity |].
    split; [discriminate |]. intros _. exists e, es. auto.
Qed.


(** *** The files of a run *)

Section KeepsNode.
Context (q : path) (n : node blob).

Lemma node_ret {A} (a : A) : keeps_node q n (ret (S := world blob) a).
Proof. intros w Hq. exact Hq. Qed.

Lemma node_lift {A} (r : result A) : keeps_node q n (lift (S := world blob) r).
Proof. intros w Hq. exact Hq. Qed.

Lemma node_logger_info (msg : string) (vals : list pyval) :
  keeps_node q n (logger_info (B := blob) msg vals).
Proof. intros w Hq. exact Hq. Qed.

Lemma node_bind {A C} (m : io (world blob) A) (k : A -> io (world blob) C) :
  keeps_node q n m -> (forall a, keeps_node q n (k a)) ->
  keeps_node q n (Os.bind m k).
Proof.
  intros Hm Hk w Hq. unfold Os.bind. specialize (Hm w Hq).
  destruct (m w) as [[a | e] w1]; simpl in *; [apply Hk, Hm | exact Hm].
Qed.

Lemma node_for_each {A} (xs : list A) (body : A -> io (world blob) unit) :
  (forall x, keeps_node q n (body x)) -> keeps_node q n (for_each xs body).
Proof.
  intros Hbody. induction xs as [| x xs IH]; simpl.
  - apply node_ret.
  - apply node_bind; [apply Hbody | intros _; exact IH].
Qed.

Lemma node_log_class_metrics (entry : string * pyval) :
  keeps_node q n (Train.log_class_metrics entry).
Proof.
  intros w Hq. rewrite TrainFacts.log_class_metrics_files. exact Hq.
Qed.

Lemma node_ensure_dir (p : path) : keeps_node q n (Utils.ensure_dir p).
Proof. intros w. apply ensure_dir_keeps. Qed.

Lemma node_save (c : IrisClassifier forest) (p : path) :
  q <> p -> keeps_node q n (Model.save c p).
Proof. intros Hq w. apply save_others, Hq. Qed.

Lemma node_save_metrics (metrics : pyval) (p : path) :
  q <> p -> keeps_node q n (Utils.save_metrics metrics p).
Proof. intros Hq w. apply save_metrics_others, Hq. Qed.

Lemma node_train_model :
  q <> Config.get_model_path settings ->
  q <> Train.metrics_path settings ->
  keeps_node q n (Train.train_model settings).
Proof.
  intros Hmodel Hmetrics. unfold Train.train_model.
  repeat first
    [ apply node_logger_info
    | apply node_lift
    | apply node_ensure_dir
    | apply node_save; exact Hmodel
    | apply node_save_metrics; exact Hmetrics
    | apply node_for_each; intro; apply node_log_class_metrics
    | apply node_bind; [| intro]
    | match goal with
      | |- keeps_node _ _ (let '(_, _) := ?x in _) => destruct x
      end ].
Qed.

End KeepsNode.

(** X13.  Whatever its outcome, a run leaves every file and directory that is
    neither the model file nor the metrics file as it found it. *)
Theorem main_touches_only_artifacts (w : world blob) (q : path) (n : node blob) :
  node_at (files w) q = Some n ->
  q <> Config.get_model_path settings ->
  q <> Train.metrics_path settings ->
  node_at (files (Train.main settings w).2) q = Some n.
Proof.
  intros Hq Hmodel Hmetrics.
  pose proof (node_train_model q n Hmodel Hmetrics w Hq) as Hkeep.
  unfold Train.main.
  destruct (Train.train_model settings w) as [[[] | e] w1]; exact Hkeep.
Qed.

(** X14.  After exit status 0 the metrics file holds the JSON text of the
    converted metrics of the evaluated classifier, and the model file holds
    the joblib dump of that classifier, which is trained, provided the two
    paths differ. *)
Theorem main_writes_the_fit (w : world blob) :
  (Train.main settings w).1 = 0 ->
  Config.get_model_path settings <> Train.metrics_path settings ->
  exists c metrics,
    Train.fit_and_evaluate settings = Ok (c, metrics) /\
    is_trained c = true /\
    node_at (files (Train.main settings w).2) (Config.get_model_path settings)
    = Some (File (joblib_dump c).1) /\
    node_at (files (Train.main settings w).2) (Train.metrics_path settings)
    = Some (File (json_dump (Utils.convert_numpy_to_python metrics)).1).
Proof.
  unfold Train.main.
  destruct (Train.train_model settings w) as [[[] | e] w'] eqn:Hrun;
    [| discriminate].
  intros _ Hne.
  destruct (TrainFacts.train_model_artifacts settings w w' Hrun)
    as (c & metrics & Hfit & Hc & Hmetrics & Hmodel).
  exists c, metrics. destruct (Hmodel Hne) as [Hfile _]. auto.
Qed.

(** X15.  When the model file is itself named [metrics.json], the two paths are
    the same, and a run that exits with status 0 has overwritten the model:
    the file holds the JSON text of the metrics, not the classifier. *)
Theorem main_overwrites_clashing_model (w : world blob) :
  (Train.main settings w).1 = 0 ->
  Config.get_model_path settings = Train.metrics_path settings ->
  exists c metrics,
    Train.fit_and_evaluate settings = Ok (c, metrics) /\
    node_at (files (Train.main settings w).2) (Config.get_model_path settings)
    = Some (File (json_dump (Utils.convert_numpy_to_python metrics)).1).
Proof.
  unfold Train.main.
  destruct (Train.train_model settings w) as [[[] | e] w'] eqn:Hrun;
    [| discriminate].
  intros _ Heq.
  destruct (TrainFacts.train_model_artifacts settings w w' Hrun)
    as (c & metrics & Hfit & _ & Hmetrics & _).
  exists c, metrics. split; [exact Hfit |]. simpl. rewrite Heq. exact Hmetrics.
Qed.

End WithLibrary.

Lemma main_touches_only_artifacts_witness :
  node_at (files (Train.main Stub.stub_settings Stub.app_world).2) ["/"; "app"]
  = Some Dir.
Proof.
  apply (main_touches_only_artifacts (L := Stub.stub) Stub.stub_settings
           Stub.app_world ["/"; "app"] Dir).
  - reflexivity.
  - vm_compute. discriminate.
  - vm_compute. discriminate.
Defined.

Lemma main_writes_the_fit_witness :
  exists c metrics,
    Train.fit_and_evaluate (L := Stub.stub) Stub.stub_settings = Ok (c, metrics) /\
    is_trained c = true /\
    node_at (files (Train.main Stub.stub_settings Stub.app_world).2)
      (Config.get_model_path Stub.stub_settings)
    = Some (File (joblib_dump c).1) /\
    node_at (files (Train.main Stub.stub_settings Stub.app_world).2)
      (Train.metrics_path Stub.stub_settings)
    = Some (File (json_dump (Utils.convert_numpy_to_python metrics)).1).
Proof.
  apply (main_writes_the_fit (L := Stub.stub) Stub.stub_settings Stub.app_world).
  - vm_compute. reflexivity.
  - vm_compute. discriminate.
Defined.

Lemma main_overwrites_clashing_model_witness :
  exists c metrics,
    Train.fit_and_evaluate (L := Stub.stub) Stub.clashing_settings
    = Ok (c, metrics) /\
    node_at (files (Train.main Stub.clashing_settings Stub.app_world).2)
      (Config.get_model_path Stub.clashing_settings)
    = Some (File (json_dump (Utils.convert_numpy_to_python metrics)).1).
Proof.
  apply (main_overwrites_clashing_model (L := Stub.stub) Stub.clashing_settings
           Stub.app_world).
  - vm_compute. reflexivity.
  - reflexivity.
Defined.

End PipelineFacts.

(** ** The serving process over its life *)

Module ServingFacts.

Import Serve.

Section WithLibrary.
Context {L : Library} (settings : Config.Settings).

(** *** Startup *)

(** The ways startup can go, by what stands at the model path. *)
Lemma startup_cases (w : world blob) :
  files (env (startup settings w)) = files w /\
  exists entries,
    log (env (startup settings w)) = (log w ++ entries)%list /\
    match node_at (files w) (Config.get_model_path settings) with
    | Some (File data) =>
        match joblib_load data with
        | Ok obj =>
            model (startup settings w) = obj /\
            model_writes (startup settings w) = 1%nat /\
            Forall (fun r => levelname r = "INFO") entries
        | Raise e =>
            model (startup settings w) = None /\
            model_writes (startup settings w) = 0%nat /\
            exists r, r ∈ entries /\ levelname r = "ERROR"
        end
    | _ =>
        model (startup settings w) = None /\
        model_writes (startup settings w) = 0%nat /\
        exists r, r ∈ entries /\ levelname r = "ERROR"
    end.
Proof.
  unfold startup, load_model, Model.load.
  unfold Os.bind, in_env, logger_info, logger_error, logger_call, exists_,
    try_except, read_file, lift, assign_model, initial.
  simpl.
  destruct (node_at (files w) (Config.get_model_path settings))
    as [[| data] |] eqn:Hnode; simpl; rewrite ?Hnode; simpl.
  - split; [reflexivity |]. eexists.
    split; [rewrite <- !app_assoc; reflexivity |].
    split; [reflexivity |]. split; [reflexivity |].
    eexists. split; [apply list_elem_of_further, list_elem_of_here | reflexivity].
  - destruct (joblib_load data) as [obj | e]; simpl.
    + split; [reflexivity |]. eexists.
      split; [rewrite <- !app_assoc; reflexivity |].
      split; [reflexivity |]. split; [reflexivity |].
      repeat constructor.
    + split; [reflexivity |]. eexists.
      split; [rewrite <- !app_assoc; reflexivity |].
      split; [reflexivity |]. split; [reflexivity |].
      eexists.
      split; [apply list_elem_of_further, list_elem_of_here | reflexivity].
  - split; [reflexivity |]. eexists.
    split; [rewrite <- !app_assoc; reflexivity |].
    split; [reflexivity |]. split; [reflexivity |].
    eexists. split; [apply list_elem_of_further, list_elem_of_here | reflexivity].
Qed.

(** X16.  Startup ends with a model loaded exactly when a file stands at the
    model path and joblib decodes it to an object other than [None], and
    the model is then that object.  It only adds to the log, and it has
    logged an error exactly when it has not assigned the global: the file
    is missing, is a directory, or joblib raised on it.  It ends with no
    model exactly when it has logged an error or the file held a pickled
    [None], which is decoded, assigned and logged as loaded with no
    error. *)
Theorem startup_loads_what_joblib_decodes (w : world blob) :
  (forall c,
     model (startup settings w) = Some c
     <-> exists data,
           node_at (files w) (Config.get_model_path settings) = Some (File data) /\
           joblib_load data = Ok (Some c)) /\
  exists entries,
    log (env (startup settings w)) = (log w ++ entries)%list /\
    ((exists r, r ∈ entries /\ levelname r = "ERROR")
     <-> model_writes (startup settings w) = 0%nat) /\
    (model (startup settings w) = None
     <-> (exists r, r ∈ entries /\ levelname r = "ERROR") \/
         exists data,
           node_at (files w) (Config.get_model_path settings) = Some (File data) /\
           joblib_load data = Ok None).
Proof.
  destruct (startup_cases w) as (_ & entries & Hlog & Hcases).
  assert (Hfailed :
            model (startup settings w) = None ->
            model_writes (startup settings w) = 0%nat ->
            (exists r, r ∈ entries /\ levelname r = "ERROR") ->
            (forall data obj,
               node_at (files w) (Config.get_model_path settings)
               = Some (File data) ->
               joblib_load data = Ok obj -> False) ->
            (forall c,
               model (startup settings w) = Some c
               <-> exists data,
                     node_at (files w) (Config.get_model_path settings)
                     = Some (File data) /\
                     joblib_load data = Ok (Some c)) /\
            exists entries0,
              log (env (startup settings w)) = (log w ++ entries0)%list /\
              ((exists r, r ∈ entries0 /\ levelname r = "ERROR")
               <-> model_writes (startup settings w) = 0%nat) /\
              (model (startup settings w) = None
               <-> (exists r, r ∈ entries0 /\ levelname r = "ERROR") \/
                   exists data,
                     node_at (files w) (Config.get_model_path settings)
                     = Some (File data) /\
                     joblib_load data = Ok None)).
  { intros Hm Hw Herr Hnone. split.
    - intros c. rewrite Hm. split; [discriminate |].
      intros (data & Hdata & Hc). destruct (Hnone data (Some c) Hdata Hc).
    - exists entries. split; [exact Hlog |]. split; [tauto |].
      split; [intros _; left; exact Herr | intros _; exact Hm]. }
  destruct (node_at (files w) (Config.get_model_path settings))
    as [[| data] |] eqn:Hnode.
  - destruct Hcases as (Hm & Hw & Herr).
    apply Hfailed; try assumption. intros data obj Hdata. discriminate.
  - destruct (joblib_load data) as [obj | e] eqn:Hload.
    + destruct Hcases as (Hm & Hw & Hinfo).
      assert (Hquiet : ~ exists r, r ∈ entries /\ levelname r = "ERROR").
      { intros (r & Hr & Hlevel). rewrite Forall_forall in Hinfo.
        specialize (Hinfo r Hr). congruence. }
      split.
      * intros c. rewrite Hm. split.
        -- intros ->. exists data. split; [reflexivity | exact Hload].
        -- intros (data' & [= <-] & Hc). congruence.
      * exists entries. split; [exact Hlog |]. split.
        -- rewrite Hw. split; [intros H; destruct (Hquiet H) | discriminate].
        -- rewrite Hm. split.
           ++ intros ->. right. exists data. split; [reflexivity | exact Hload].
           ++ intros [H | (data' & [= <-] & Hc)]; [destruct (Hquiet H) |].
              congruence.
    + destruct Hcases as (Hm & Hw & Herr).
      apply Hfailed; try assumption.
      intros data' obj [= <-] Hobj. congruence.
  - destruct Hcases as (Hm & Hw & Herr).
    apply Hfailed; try assumption. intros data obj Hdata. discriminate.
Qed.

(** *** Handlers that leave the disk alone *)

Lemma reads_ret {A} (a : A) : reads_disk_only (ret a).
Proof. intros p. split; [reflexivity |]. exists []. symmetry. apply app_nil_r. Qed.

Lemma reads_lift {A} (r : result A) : reads_disk_only (lift r).
Proof. intros p. split; [reflexivity |]. exists []. symmetry. apply app_nil_r. Qed.

Lemma reads_global_model : reads_disk_only global_model.
Proof. intros p. split; [reflexivity |]. exists []. symmetry. apply app_nil_r. Qed.

Lemma reads_logger (level msg : string) (vals : list pyval) :
  reads_disk_only (in_env (logger_call level msg vals)).
Proof. intros p. split; [reflexivity |]. eexists. reflexivity. Qed.

Lemma reads_bind {A B} (m : io process A) (k : A -> io process B) :
  reads_disk_only m -> (forall a, reads_disk_only (k a)) ->
  reads_disk_only (Os.bind m k).
Proof.
  intros Hm Hk p. unfold Os.bind. destruct (Hm p) as [Hfiles [l1 Hlog]].
  destruct (m p) as [[a | e] p']; simpl in *.
  - destruct (Hk a p') as [Hfiles' [l2 Hlog']]. split; [congruence |].
    exists (l1 ++ l2)%list. rewrite Hlog', Hlog. symmetry. apply app_assoc.
  - split; [exact Hfiles |]. exists l1. exact Hlog.
Qed.

Lemma reads_try_except {A} (body : io process A) (handler : exn -> io process A) :
  reads_disk_only body -> (forall e, reads_disk_only (handler e)) ->
  reads_disk_only (try_except body handler).
Proof.
  intros Hb Hh p. unfold try_except. destruct (Hb p) as [Hfiles [l1 Hlog]].
  destruct (body p) as [[a | e] p']; simpl in *.
  - split; [exact Hfiles |]. exists l1. exact Hlog.
  - destruct (Hh e p') as [Hfiles' [l2 Hlog']]. split; [congruence |].
    exists (l1 ++ l2)%list. rewrite Hlog', Hlog. symmetry. apply app_assoc.
Qed.

Ltac reads :=
  unfold predict, predict_batch, root, health, logger_info, logger_error;
  repeat first
    [ apply reads_ret
    | apply reads_lift
    | apply reads_global_model
    | apply reads_logger
    | apply reads_try_except; [| intro]
    | apply reads_bind; [| intro]
    | match goal with
      | |- reads_disk_only (match ?x with _ => _ end) => destruct x
      end ].

Lemma reads_root : reads_disk_only (root settings).
Proof. reads. Qed.

Lemma reads_health : reads_disk_only (health settings).
Proof. reads. Qed.

Lemma reads_predict (features : IrisFeatures) : reads_disk_only (predict features).
Proof. reads. Qed.

Lemma reads_predict_batch (features_list : list IrisFeatures) :
  reads_disk_only (predict_batch features_list).
Proof. reads. Qed.

Lemma reads_run_handler {A} (h : io process (response A)) (p : process) :
  reads_disk_only h ->
  files (env (run_handler h p).2) = files (env p) /\
  exists entries : list log_record,
    log (env (run_handler h p).2) = (log (env p) ++ entries)%list.
Proof.
  intros Hh. unfold run_handler. specialize (Hh p).
  destruct (h p) as [[r | e] p']; exact Hh.
Qed.

Lemma step_reads_disk (req : request) (p : process) :
  files (env (step settings req p)) = files (env p) /\
  exists entries : list log_record,
    log (env (step settings req p)) = (log (env p) ++ entries)%list.
Proof.
  destruct req as [| | body | body]; unfold step.
  - apply reads_run_handler.
    apply reads_bind; [apply reads_root | intro; apply reads_ret].
  - apply reads_run_handler.
    apply reads_bind; [apply reads_health | intro; apply reads_ret].
  - unfold post_predict. destruct (parse_IrisFeatures body).
    + apply reads_run_handler, reads_predict.
    + split; [reflexivity |]. exists []. symmetry. apply app_nil_r.
  - unfold post_predict_batch. destruct (traverse parse_IrisFeatures body).
    + apply reads_run_handler, reads_predict_batch.
    + split; [reflexivity |]. exists []. symmetry. apply app_nil_r.
Qed.

(** X17.  The server writes no file: from startup on, and whatever requests it
    answers, the disk is the one it was started on, and the log only
    grows. *)
Theorem server_never_writes (w : world blob) (p : process) :
  reachable settings (startup settings w) p ->
  files (env p) = files w /\
  exists entries, log (env p) = (log w ++ entries)%list.
Proof.
  intros Hreach. induction Hreach as [| req p Hreach [IHfiles [l1 IHlog]]].
  - destruct (startup_cases w) as (Hfiles & entries & Hlog & _).
    split; [exact Hfiles |]. exists entries. exact Hlog.
  - destruct (step_reads_disk req p) as [Hfiles [l2 Hlog]].
    split; [congruence |].
    exists (l1 ++ l2)%list. rewrite Hlog, IHlog. symmetry. apply app_assoc.
Qed.

(** *** The health query *)

Lemma get_health_value (p : process) :
  get_health settings p
  = (Success {| status := if is_not_None (model p) then "healthy" else "unhealthy";
                model_loaded := is_not_None (model p);
                model_path := path_str (Config.get_model_path settings) |}, p).
Proof. reflexivity. Qed.

Lemma answer_predict_503 (body : RawFeatures) (p : process) :
  is_ok (parse_IrisFeatures body) = true ->
  (answer settings (PostPredict body) p = 503 <-> model p = None).
Proof.
  intros Hbody. unfold answer, post_predict.
  destruct (parse_IrisFeatures body) as [features |]; [| discriminate].
  destruct (model p) as [m |] eqn:Hm.
  - destruct (ServeFacts.predict_catches features p m Hm)
      as (r & p' & Hr & Hshape & _).
    unfold run_handler. rewrite Hr. simpl.
    destruct Hshape as [[b ->] | [e ->]]; simpl;
      (split; [lia | discriminate]).
  - unfold run_handler. rewrite (ServeFacts.predict_unavailable _ _ Hm).
    simpl. tauto.
Qed.

Lemma answer_predict_batch_503 (bodies : list RawFeatures) (p : process) :
  is_ok (traverse parse_IrisFeatures bodies) = true ->
  (answer settings (PostPredictBatch bodies) p = 503 <-> model p = None).
Proof.
  intros Hbody. unfold answer, post_predict_batch.
  destruct (traverse parse_IrisFeatures bodies) as [fl |]; [| discriminate].
  destruct (model p) as [m |] eqn:Hm.
  - destruct (ServeFacts.predict_batch_catches fl p m Hm)
      as (r & p' & Hr & Hshape & _).
    unfold run_handler. rewrite Hr. simpl.
    destruct Hshape as [[b ->] | [e ->]]; simpl;
      (split; [lia | discriminate]).
  - unfold run_handler. rewrite (ServeFacts.predict_batch_unavailable _ _ Hm).
    simpl. tauto.
Qed.

(** X18.  The health query always answers 200 and changes nothing, its status is
    "healthy" exactly when [model_loaded] is true, and it agrees with the
    prediction endpoints: [model_loaded] is false exactly when a body that
    passes validation is answered with 503, on either endpoint. *)
Theorem health_agrees_with_predict (p : process) :
  exists h,
    get_health settings p = (Success h, p) /\
    (status h = "healthy" <-> model_loaded h = true) /\
    (forall body,
       is_ok (parse_IrisFeatures body) = true ->
       (model_loaded h = false <-> answer settings (PostPredict body) p = 503)) /\
    (forall bodies,
       is_ok (traverse parse_IrisFeatures bodies) = true ->
       (model_loaded h = false
        <-> answer settings (PostPredictBatch bodies) p = 503)).
Proof.
  eexists. split; [apply get_health_value |]. simpl.
  split; [destruct (model p); simpl; split; (reflexivity || discriminate) |].
  split.
  - intros body Hbody. rewrite (answer_predict_503 body p Hbody).
    destruct (model p); simpl; split; (reflexivity || discriminate).
  - intros bodies Hbodies. rewrite (answer_predict_batch_503 bodies p Hbodies).
    destruct (model p); simpl; split; (reflexivity || discriminate).
Qed.

Lemma reachable_model (p0 p : process) :
  reachable settings p0 p -> model p = model p0.
Proof.
  intros Hreach. induction Hreach as [| req p Hreach IH]; [reflexivity |].
  destruct (ServeFacts.step_keeps_model settings req p) as [Hm _]. congruence.
Qed.

(** X19.  However many requests have been answered since, the health query
    reports the model as loaded exactly when, at startup, a file stood at
    the model path and joblib decoded it to an object other than [None]:
    what happens to that file later does not show. *)
Theorem health_reports_startup (w : world blob) (p : process) :
  reachable settings (startup settings w) p ->
  exists h,
    (get_health settings p).1 = Success h /\
    (model_loaded h = true
     <-> exists data c,
           node_at (files w) (Config.get_model_path settings) = Some (File data) /\
           joblib_load data = Ok (Some c)).
Proof.
  intros Hreach. apply reachable_model in Hreach.
  eexists. split; [rewrite get_health_value; reflexivity |]. simpl.
  rewrite Hreach.
  destruct (startup_cases w) as (_ & entries & _ & Hcases).
  destruct (node_at (files w) (Config.get_model_path settings))
    as [[| data] |] eqn:Hnode.
  - destruct Hcases as [-> _]. simpl. split; [discriminate |].
    intros (data & c & Hdata & _). discriminate.
  - destruct (joblib_load data) as [[c0 |] | e] eqn:Hload.
    + destruct Hcases as [-> _]. simpl. split; [| reflexivity].
      intros _. exists data, c0. split; [reflexivity | exact Hload].
    + destruct Hcases as [-> _]. simpl. split; [discriminate |].
      intros (data' & c & [= <-] & Hc). congruence.
    + destruct Hcases as [-> _]. simpl. split; [discriminate |].
      intros (data' & c & [= <-] & Hc). congruence.
  - destruct Hcases as [-> _]. simpl. split; [discriminate |].
    intros (data & c & Hdata & _). discriminate.
Qed.

(** *** The prediction handlers with a model loaded *)

(** [predict] with a model loaded, by the outcome of inference and
    formatting, and then of the validation of the response. *)
Lemma predict_loaded (features : IrisFeatures) (p : process)
    (m : IrisClassifier forest) :
  model p = Some m ->
  predict features p
  = match
      (let* ps := Model.predict m (array2 [feature_row features]) in
       let* pred := getitem ps 0 in
       let* qs := Model.predict_proba m (array2 [feature_row features]) in
       let* probs := getitem qs 0 in
       Utils.format_prediction_response pred probs Model.CLASS_NAMES)
    with
    | Ok result =>
        let logged :=
          (log (env p)
           ++ [mkLog "INFO" "Prediction: {} (confidence: {:.4f})"
                 [PyStr (Utils.prediction result);
                  PyFloat (Utils.confidence result)]])%list in
        match PredictionResponse result with
        | Ok resp =>
            (Ok (Success resp),
             mkProcess (model p) (model_writes p)
               (mkWorld (files (env p)) logged))
        | Raise e =>
            (Ok (HTTPException 500 ("Prediction failed: " +:+ exn_str e)),
             mkProcess (model p) (model_writes p)
               (mkWorld (files (env p))
                  (logged
                   ++ [mkLog "ERROR" "Prediction failed: {}"
                         [PyStr (exn_str e)]])%list))
        end
    | Raise e =>
        (Ok (HTTPException 500 ("Prediction failed: " +:+ exn_str e)),
         mkProcess (model p) (model_writes p)
           (mkWorld (files (env p))
              (log (env p)
               ++ [mkLog "ERROR" "Prediction failed: {}"
                     [PyStr (exn_str e)]])%list))
    end.
Proof.
  intros Hm. unfold predict. unfold Os.bind at 1. unfold global_model at 1.
  rewrite Hm. cbv zeta.
  unfold try_except, Os.bind, lift, in_env, logger_info, logger_error,
    logger_call, ret.
  destruct (Model.predict m _) as [ps | e1]; simpl; [| rewrite ?Hm; reflexivity].
  destruct (getitem ps 0) as [pred | e1]; simpl; [| rewrite ?Hm; reflexivity].
  destruct (Model.predict_proba m _) as [qs | e2]; simpl; [| rewrite ?Hm; reflexivity].
  destruct (getitem qs 0) as [probs | e2]; simpl; [| rewrite ?Hm; reflexivity].
  destruct (Utils.format_prediction_response pred probs Model.CLASS_NAMES)
    as [result | e3]; simpl; [| rewrite ?Hm; reflexivity].
  destruct (PredictionResponse result) as [resp | e4]; rewrite ?Hm; reflexivity.
Qed.

Lemma response_validated (r r' : Utils.PredictionResult) :
  PredictionResponse r = Ok r' ->
  r' = r /\
  float_ge0 (Utils.confidence r) = true /\
  float_le1 (Utils.confidence r) = true.
Proof.
  unfold PredictionResponse.
  destruct (float_ge0 _) eqn:Hge; destruct (float_le1 _) eqn:Hle; simpl;
    try discriminate.
  intros [= <-]. auto.
Qed.

(** X20.  With a model loaded, what [predict] logs is what it answers: a 200
    response adds one INFO record, carrying the class name and the
    confidence of the body; any other answer is a 500 whose detail is
    "Prediction failed: " followed by the text of an exception, and the last
    record of the log is the ERROR record carrying that same text. *)
Theorem predict_logs_what_it_answers (features : IrisFeatures) (p : process)
    (m : IrisClassifier forest) :
  model p = Some m ->
  exists r,
    (predict features p).1 = Ok r /\
    (forall body,
       r = Success body ->
       log (env (predict features p).2)
       = (log (env p)
          ++ [mkLog "INFO" "Prediction: {} (confidence: {:.4f})"
                [PyStr (Utils.prediction body);
                 PyFloat (Utils.confidence body)]])%list) /\
    (forall code detail,
       r = HTTPException code detail ->
       code = 500 /\
       exists e,
         detail = "Prediction failed: " +:+ exn_str e /\
         last (log (env (predict features p).2))
         = Some (mkLog "ERROR" "Prediction failed: {}" [PyStr (exn_str e)])).
Proof.
  intros Hm. rewrite (predict_loaded features p m Hm).
  destruct (Py.bind (Model.predict m _) _) as [result | e]; cbv zeta.
  - destruct (PredictionResponse result) as [resp | e] eqn:Hresp.
    + apply response_validated in Hresp as [-> _].
      eexists. split; [reflexivity |]. split.
      * intros body [= <-]. reflexivity.
      * intros code detail. discriminate.
    + eexists. split; [reflexivity |]. split.
      * intros body. discriminate.
      * intros code detail [= <- <-]. split; [reflexivity |].
        exists e. split; [reflexivity |]. cbn [snd env log]. apply last_snoc.
  - eexists. split; [reflexivity |]. split.
    + intros body. discriminate.
    + intros code detail [= <- <-]. split; [reflexivity |].
      exists e. split; [reflexivity |]. cbn [snd env log]. apply last_snoc.
Qed.

(** [predict_batch] with a model loaded. *)
Lemma predict_batch_loaded (features_list : list IrisFeatures) (p : process)
    (m : IrisClassifier forest) :
  model p = Some m ->
  predict_batch features_list p
  = match
      (let* ps := Model.predict m (array2 (map feature_row features_list)) in
       let* qs := Model.predict_proba m (array2 (map feature_row features_list)) in
       traverse
         (fun pp =>
            let* r := Utils.format_prediction_response
                        pp.1 pp.2 Model.CLASS_NAMES in
            PredictionResponse r)
         (zip ps qs))
    with
    | Ok results =>
        (Ok (Success results),
         mkProcess (model p) (model_writes p)
           (mkWorld (files (env p))
              (log (env p)
               ++ [mkLog "INFO" "Batch prediction completed for {} samples"
                     [PyInt (Z.of_nat (length results))]])%list))
    | Raise e =>
        (Ok (HTTPException 500 ("Batch prediction failed: " +:+ exn_str e)),
         mkProcess (model p) (model_writes p)
           (mkWorld (files (env p))
              (log (env p)
               ++ [mkLog "ERROR" "Batch prediction failed: {}"
                     [PyStr (exn_str e)]])%list))
    end.
Proof.
  intros Hm. unfold predict_batch. unfold Os.bind at 1. unfold global_model at 1.
  rewrite Hm. cbv zeta.
  unfold try_except, Os.bind, lift, in_env, logger_info, logger_error,
    logger_call, ret.
  destruct (Model.predict m _) as [ps | e1]; simpl; [| rewrite ?Hm; reflexivity].
  destruct (Model.predict_proba m _) as [qs | e2]; simpl; [| rewrite ?Hm; reflexivity].
  destruct (traverse _ (zip ps qs)) as [results | e3]; rewrite ?Hm; reflexivity.
Qed.

(** X21.  A batch is answered as a whole: when the model's label for one row is
    not an index into the three class names (it is below -3 or above 2), no
    row gets a result; the answer is a 500, and one ERROR record is
    logged. *)
Theorem batch_fails_as_a_whole (features_list : list IrisFeatures) (p : process)
    (m : IrisClassifier forest) (ps : list Z) (qs : list (list float))
    (i : nat) (pred : Z) (probs : list float) :
  model p = Some m ->
  Model.predict m (array2 (map feature_row features_list)) = Ok ps ->
  Model.predict_proba m (array2 (map feature_row features_list)) = Ok qs ->
  ps !! i = Some pred ->
  qs !! i = Some probs ->
  ~ (-3 <= pred < 3) ->
  exists e,
    (predict_batch features_list p).1
    = Ok (HTTPException 500 ("Batch prediction failed: " +:+ exn_str e)) /\
    log (env (predict_batch features_list p).2)
    = (log (env p)
       ++ [mkLog "ERROR" "Batch prediction failed: {}" [PyStr (exn_str e)]])%list.
Proof.
  intros Hm Hps Hqs Hpred Hprobs Hrange.
  rewrite (predict_batch_loaded features_list p m Hm). rewrite Hps, Hqs.
  cbn [Py.bind].
  assert (Hbad : is_ok (traverse
                          (fun pp : Z * list float =>
                             let* r := Utils.format_prediction_response
                                         pp.1 pp.2 Model.CLASS_NAMES in
                             PredictionResponse r)
                          (zip ps qs)) = false).
  { apply (PyFacts.traverse_raise _ _ (pred, probs)).
    - apply list_elem_of_lookup. exists i. apply PyFacts.zip_lookup; assumption.
    - cbn [fst snd]. unfold Utils.format_prediction_response.
      destruct (getitem Model.CLASS_NAMES pred) as [name |] eqn:Hname;
        [| reflexivity].
      exfalso. apply Hrange.
      pose proof (proj1 (FormatFacts.getitem_ok_iff Model.CLASS_NAMES pred))
        as Hok.
      rewrite Hname in Hok. specialize (Hok eq_refl). simpl in Hok. lia. }
  destruct (traverse _ (zip ps qs)) as [results | e]; [discriminate |].
  exists e. split; reflexivity.
Qed.

Lemma formatted_wellformed (i : Z) (probs : list float)
    (r : Utils.PredictionResult) :
  Utils.format_prediction_response i probs Model.CLASS_NAMES = Ok r ->
  Utils.prediction r ∈ Model.CLASS_NAMES /\
  -3 <= Utils.prediction_index r < 3 /\
  (0 <= Utils.prediction_index r ->
   Model.CLASS_NAMES !! Z.to_nat (Utils.prediction_index r)
   = Some (Utils.prediction r) /\
   Utils.probabilities r !! Utils.prediction r = Some (Utils.confidence r)).
Proof.
  unfold Utils.format_prediction_response.
  destruct (getitem Model.CLASS_NAMES i) as [name |] eqn:Hname; [| discriminate].
  destruct (getitem probs i) as [conf |] eqn:Hconf; [| discriminate].
  cbn [Py.bind]. intros [= <-].
  cbn [Utils.prediction Utils.prediction_index Utils.confidence
       Utils.probabilities].
  pose proof (proj1 (FormatFacts.getitem_ok_iff Model.CLASS_NAMES i)) as Hi.
  rewrite Hname in Hi. specialize (Hi eq_refl). simpl in Hi.
  apply FormatFacts.getitem_value in Hname, Hconf.
  split; [apply list_elem_of_lookup; eexists; exact Hname |].
  split; [exact Hi |].
  intros Hpos. destruct (Z.ltb_spec i 0) as [Hneg | _]; [lia |].
  split; [exact Hname |].
  assert (Hnodup : NoDup Model.CLASS_NAMES).
  { unfold Model.CLASS_NAMES. repeat constructor;
      rewrite ?elem_of_cons, ?elem_of_nil; intuition discriminate. }
  exact (FormatFacts.dict_fold_lookup Model.CLASS_NAMES probs ∅ (Z.to_nat i)
           name conf Hnodup Hname Hconf).
Qed.

Lemma post_predict_success (body : RawFeatures) (p : process)
    (r : Utils.PredictionResult) :
  (post_predict body p).1 = Success r ->
  float_ge0 (Utils.confidence r) = true /\
  float_le1 (Utils.confidence r) = true /\
  exists i probs,
    Utils.format_prediction_response i probs Model.CLASS_NAMES = Ok r.
Proof.
  unfold post_predict.
  destruct (parse_IrisFeatures body) as [features | e];
    [| unfold validation_response; destruct (forallb _ _); discriminate].
  unfold run_handler.
  destruct (model p) as [m |] eqn:Hm.
  - rewrite (predict_loaded features p m Hm).
    destruct (Model.predict m _) as [ps | e1]; cbn [Py.bind]; [| discriminate].
    destruct (getitem ps 0) as [pred | e1]; cbn [Py.bind]; [| discriminate].
    destruct (Model.predict_proba m _) as [qs | e2]; cbn [Py.bind];
      [| discriminate].
    destruct (getitem qs 0) as [probs | e2]; cbn [Py.bind]; [| discriminate].
    destruct (Utils.format_prediction_response pred probs Model.CLASS_NAMES)
      as [result | e3] eqn:Hfmt; cbv zeta; [| discriminate].
    destruct (PredictionResponse result) as [resp | e4] eqn:Hresp;
      [| discriminate].
    apply response_validated in Hresp as (-> & Hge & Hle).
    simpl. intros [= <-]. split; [exact Hge |]. split; [exact Hle |]. eauto.
  - rewrite (ServeFacts.predict_unavailable _ _ Hm). discriminate.
Qed.

Lemma traverse_elem {A B} (f : A -> result B) (xs : list A) (ys : list B)
    (y : B) :
  traverse f xs = Ok ys -> y ∈ ys -> exists x, x ∈ xs /\ f x = Ok y.
Proof.
  revert ys. induction xs as [| x0 xs IH]; intros ys; simpl.
  - intros [= <-] Hin. inversion Hin.
  - destruct (f x0) as [y0 | e] eqn:Hy0; simpl; [| discriminate].
    destruct (traverse f xs) as [ys' | e]; simpl; [| discriminate].
    intros [= <-] Hin. apply elem_of_cons in Hin as [-> | Hin].
    + exists x0. split; [apply list_elem_of_here | exact Hy0].
    + destruct (IH ys' eq_refl Hin) as (x & Hx & Hfx).
      exists x. split; [apply list_elem_of_further, Hx | exact Hfx].
Qed.

Lemma post_predict_batch_success (bodies : list RawFeatures) (p : process)
    (results : list Utils.PredictionResult) (r : Utils.PredictionResult) :
  (post_predict_batch bodies p).1 = Success results ->
  r ∈ results ->
  float_ge0 (Utils.confidence r) = true /\
  float_le1 (Utils.confidence r) = true /\
  exists i probs,
    Utils.format_prediction_response i probs Model.CLASS_NAMES = Ok r.
Proof.
  unfold post_predict_batch.
  destruct (traverse parse_IrisFeatures bodies) as [fl | e];
    [| unfold validation_response; destruct (forallb _ _); discriminate].
  unfold run_handler.
  destruct (model p) as [m |] eqn:Hm.
  - rewrite (predict_batch_loaded fl p m Hm).
    destruct (Model.predict m _) as [ps | e1]; cbn [Py.bind]; [| discriminate].
    destruct (Model.predict_proba m _) as [qs | e2]; cbn [Py.bind];
      [| discriminate].
    destruct (traverse _ (zip ps qs)) as [results' | e3] eqn:Htr;
      [| discriminate].
    simpl. intros [= <-] Hin.
    destruct (traverse_elem _ _ _ _ Htr Hin) as ([pred probs] & _ & Hr).
    cbn [fst snd] in Hr.
    destruct (Utils.format_prediction_response pred probs Model.CLASS_NAMES)
      as [result | e3] eqn:Hfmt; cbn [Py.bind] in Hr; [| discriminate].
    apply response_validated in Hr as (-> & Hge & Hle).
    split; [exact Hge |]. split; [exact Hle |]. eauto.
  - rewrite (ServeFacts.predict_batch_unavailable _ _ Hm). discriminate.
Qed.

(** X22.  Every result sent with a 200, by [/predict] or within a batch, is well
    formed: its class name is one of the three, its index is between -3 and
    2, its confidence has passed the check of lying between 0 and 1, and,
    when the index is not negative, the class name is the one at that index
    and the confidence is the probability listed under that name. *)
Theorem results_are_well_formed (p : process) (r : Utils.PredictionResult) :
  (exists body, (post_predict body p).1 = Success r) \/
  (exists bodies results,
     (post_predict_batch bodies p).1 = Success results /\ r ∈ results) ->
  Utils.prediction r ∈ Model.CLASS_NAMES /\
  -3 <= Utils.prediction_index r < 3 /\
  float_ge0 (Utils.confidence r) = true /\
  float_le1 (Utils.confidence r) = true /\
  (0 <= Utils.prediction_index r ->
   Model.CLASS_NAMES !! Z.to_nat (Utils.prediction_index r)
   = Some (Utils.prediction r) /\
   Utils.probabilities r !! Utils.prediction r = Some (Utils.confidence r)).
Proof.
  intros Hsent.
  assert (float_ge0 (Utils.confidence r) = true /\
          float_le1 (Utils.confidence r) = true /\
          exists i probs,
            Utils.format_prediction_response i probs Model.CLASS_NAMES = Ok r)
    as (Hge & Hle & i & probs & Hfmt).
  { destruct Hsent as [[body Hbody] | (bodies & results & Hbodies & Hin)].
    - apply (post_predict_success body p r Hbody).
    - apply (post_predict_batch_success bodies p results r Hbodies Hin). }
  destruct (formatted_wellformed i probs r Hfmt) as (Hname & Hindex & Hpos).
  auto.
Qed.

End WithLibrary.

Lemma server_never_writes_witness :
  files (env (step Stub.stub_settings (PostPredict Stub.sample)
                (startup Stub.stub_settings Stub.app_world)))
  = files Stub.app_world /\
  exists entries,
    log (env (step Stub.stub_settings (PostPredict Stub.sample)
                (startup Stub.stub_settings Stub.app_world)))
    = (log Stub.app_world ++ entries)%list.
Proof.
  apply (server_never_writes (L := Stub.stub) Stub.stub_settings Stub.app_world).
  apply reach_request, reach_startup.
Defined.

Lemma health_reports_startup_witness :
  exists h,
    (get_health Stub.stub_settings
       (step Stub.stub_settings (PostPredict Stub.sample)
          (startup Stub.stub_settings Stub.app_world))).1
    = Success h /\
    (model_loaded h = true
     <-> exists data c,
           node_at (files Stub.app_world)
             (Config.get_model_path Stub.stub_settings)
           = Some (File data) /\
           joblib_load data = Ok (Some c)).
Proof.
  apply (health_reports_startup (L := Stub.stub) Stub.stub_settings
           Stub.app_world).
  apply reach_request, reach_startup.
Defined.

Lemma predict_logs_what_it_answers_witness :
  exists r,
    (predict Stub.sample_features Stub.serving).1 = Ok r /\
    (forall body,
       r = Success body ->
       log (env (predict Stub.sample_features Stub.serving).2)
       = (log (env Stub.serving)
          ++ [mkLog "INFO" "Prediction: {} (confidence: {:.4f})"
                [PyStr (Utils.prediction body);
                 PyFloat (Utils.confidence body)]])%list) /\
    (forall code detail,
       r = HTTPException code detail ->
       code = 500 /\
       exists e,
         detail = "Prediction failed: " +:+ exn_str e /\
         last (log (env (predict Stub.sample_features Stub.serving).2))
         = Some (mkLog "ERROR" "Prediction failed: {}" [PyStr (exn_str e)])).
Proof.
  apply (predict_logs_what_it_answers (L := Stub.stub) Stub.sample_features
           Stub.serving Stub.fitted).
  reflexivity.
Defined.

Lemma batch_fails_as_a_whole_witness :
  exists e,
    (predict_batch [Stub.sample_features] Stub.mislabelled).1
    = Ok (HTTPException 500 ("Batch prediction failed: " +:+ exn_str e)) /\
    log (env (predict_batch [Stub.sample_features] Stub.mislabelled).2)
    = (log (env Stub.mislabelled)
       ++ [mkLog "ERROR" "Batch prediction failed: {}" [PyStr (exn_str e)]])%list.
Proof.
  apply (batch_fails_as_a_whole (L := Stub.stub) [Stub.sample_features]
           Stub.mislabelled (mkIrisClassifier (Some 5) 42 true) [5]
           [Stub.one_hot 5] 0 5 (Stub.one_hot 5)).
  - reflexivity.
  - reflexivity.
  - reflexivity.
  - reflexivity.
  - reflexivity.
  - lia.
Defined.

Lemma results_are_well_formed_witness :
  Utils.prediction Stub.setosa_result ∈ Model.CLASS_NAMES /\
  -3 <= Utils.prediction_index Stub.setosa_result < 3 /\
  float_ge0 (Utils.confidence Stub.setosa_result) = true /\
  float_le1 (Utils.confidence Stub.setosa_result) = true /\
  (0 <= Utils.prediction_index Stub.setosa_result ->
   Model.CLASS_NAMES !! Z.to_nat (Utils.prediction_index Stub.setosa_result)
   = Some (Utils.prediction Stub.setosa_result) /\
   Utils.probabilities Stub.setosa_result
   !! Utils.prediction Stub.setosa_result
   = Some (Utils.confidence Stub.setosa_result)).
Proof.
  apply (results_are_well_formed (L := Stub.stub) Stub.serving
           Stub.setosa_result).
  left. exists Stub.sample. reflexivity.
Defined.

End ServingFacts.

(** ** From training to serving *)

Module EndToEndFacts.

Import Serve.

Section WithLibrary.
Context {L : Library} (settings : Config.Settings).

(** X23.  A server started on the disk a successful training run left behind
    serves the classifier that run fitted, for as long as it runs: the
    global [model] is that trained classifier after any number of requests,
    and no body that passes validation is answered with 503.  This needs
    joblib to read back what it dumped, and the model file not to be the
    metrics file. *)
Theorem trained_model_is_served (w : world blob) (p : process) :
  joblib_faithful L ->
  (Train.main settings w).1 = 0 ->
  Config.get_model_path settings <> Train.metrics_path settings ->
  reachable settings (startup settings (Train.main settings w).2) p ->
  exists c metrics,
    Train.fit_and_evaluate settings = Ok (c, metrics) /\
    is_trained c = true /\
    model p = Some c /\
    forall body,
      is_ok (parse_IrisFeatures body) = true ->
      answer settings (PostPredict body) p <> 503.
Proof.
  intros Hjoblib Hexit Hne Hreach.
  apply ServingFacts.reachable_model in Hreach.
  unfold Train.main in *.
  destruct (Train.train_model settings w) as [[[] | e] w'] eqn:Hrun;
    [| discriminate].
  cbn [snd] in Hreach.
  destruct (TrainFacts.train_model_artifacts settings w w' Hrun)
    as (c & metrics & Hfit & Hc & _ & Hmodel).
  destruct (Hmodel Hne) as [Hfile Hdump].
  assert (Hload : joblib_load (joblib_dump c).1 = Ok (Some c)).
  { apply Hjoblib. destruct (joblib_dump c) as [data err]. simpl in *.
    rewrite Hdump. reflexivity. }
  destruct (ServingFacts.startup_cases settings w') as (_ & entries & _ & Hcases).
  rewrite Hfile, Hload in Hcases. destruct Hcases as [Hstart _].
  exists c, metrics. split; [exact Hfit |]. split; [exact Hc |].
  assert (Hp : model p = Some c) by congruence.
  split; [exact Hp |].
  intros body Hbody H503.
  apply (ServingFacts.answer_predict_503 settings body p Hbody) in H503.
  congruence.
Qed.

End WithLibrary.

Lemma trained_model_is_served_witness :
  exists c metrics,
    Train.fit_and_evaluate (L := Stub.stub) Stub.stub_settings = Ok (c, metrics) /\
    is_trained c = true /\
    model (startup Stub.stub_settings
             (Train.main Stub.stub_settings Stub.app_world).2)
    = Some c /\
    forall body,
      is_ok (parse_IrisFeatures body) = true ->
      answer Stub.stub_settings (PostPredict body)
        (startup Stub.stub_settings
           (Train.main Stub.stub_settings Stub.app_world).2)
      <> 503.
Proof.
  apply (trained_model_is_served (L := Stub.stub) Stub.stub_settings
           Stub.app_world).
  - exact StubFacts.stub_joblib_faithful.
  - vm_compute. reflexivity.
  - vm_compute. discriminate.
  - apply reach_startup.
Defined.

End EndToEndFacts.
